(** * YMODEM receiver (ymodem.c / ymodem.h): a shallow embedding and its properties

    The receiver is a per-byte state machine over one [ymodem_t] session.
    Unsigned C integers are modelled as [Z] with the wrap-around written out,
    the byte arrays of the struct as [list Z], and the two collaborators of
    the code (the application callback [ymodem_FileCallback] and the serial
    write function stored in the session) as an oracle with a state of its own
    and a trace of events.  A call that leaves the behaviour the C standard
    defines (an access outside an array) or that stops in a failed [assert]
    is an explicit [Err] result. *)

From stdpp Require Import base option list numbers.
From Stdlib Require Import ZArith Lia Bool.
Import ListNotations.

Local Open Scope Z_scope.

(** ** Results of a call *)

Inductive fault : Type :=
| AssertionFailed   (* an [assert] of the code evaluated to 0 *)
| OutOfBounds.      (* an array element outside its declared size was accessed *)

Inductive res (A : Type) : Type :=
| Ret (a : A)
| Err (f : fault).
Arguments Ret {A} a.
Arguments Err {A} f.

#[export] Instance res_ret : MRet res := fun A a => Ret a.
#[export] Instance res_bind : MBind res := fun A B f m =>
  match m with
  | Ret a => f a
  | Err e => Err e
  end.

(** ** Machine integers *)

Definition u8 (x : Z) : Z := x mod 256.
Definition u16 (x : Z) : Z := x mod 65536.
Definition u32 (x : Z) : Z := x mod 4294967296.
(** [int32_t] with two's complement wrap-around. *)
Definition s32 (x : Z) : Z := (x + 2147483648) mod 4294967296 - 2147483648.

Definition is_byte (x : Z) : Prop := 0 <= x < 256.

(** ** Arrays with a declared size *)

Definition load (a : list Z) (i : Z) : res Z :=
  if (0 <=? i) && (i <? Z.of_nat (length a))
  then match a !! Z.to_nat i with Some v => Ret v | None => Err OutOfBounds end
  else Err OutOfBounds.

Definition store (a : list Z) (i : Z) (v : Z) : res (list Z) :=
  if (0 <=? i) && (i <? Z.of_nat (length a))
  then Ret (<[Z.to_nat i := v]> a)
  else Err OutOfBounds.

(** ** ymodem.h *)

Definition YM_FILE_NAME_LENGTH : Z := 256.
Definition YM_FILE_SIZE_LENGTH : Z := 16.
Definition YM_RESP_PAYLOAD_LEN : Z := 5.
Definition YM_PACKET_SIZE : Z := 128.
Definition YM_PACKET_1K_SIZE : Z := 1024.
Definition YM_PACKET_SEQNO_INDEX : Z := 1.
Definition YM_PACKET_SEQNO_COMP_INDEX : Z := 2.
Definition YM_PACKET_HEADER : Z := 3.
Definition YM_PACKET_TRAILER : Z := 2.
Definition YM_PACKET_OVERHEAD : Z := YM_PACKET_HEADER + YM_PACKET_TRAILER.
Definition YM_PACKET_1K_OVRHD_SIZE : Z := YM_PACKET_1K_SIZE + YM_PACKET_OVERHEAD.
Definition YM_INSTANCE_INIT_MASK : Z := 0x52.

Inductive ymodem_err_e : Type :=
| YMODEM_OK
| YMODEM_TX_PENDING
| YMODEM_ABORTED
| YMODEM_WRITE_ERR
| YMODEM_SIZE_ERR
| YMODEM_COMPLETE.

Inductive ymodem_file_cb_e : Type :=
| YMODEM_FILE_CB_NAME
| YMODEM_FILE_CB_DATA
| YMODEM_FILE_CB_END
| YMODEM_FILE_CB_ABORTED.

#[export] Instance ymodem_err_e_eq_dec : EqDecision ymodem_err_e.
Proof. solve_decision. Defined.
#[export] Instance ymodem_file_cb_e_eq_dec : EqDecision ymodem_file_cb_e.
Proof. solve_decision. Defined.

(** A serial write function is known by its address only; [None] in the
    session is the NULL pointer. *)
Definition ymodem_fxn_t : Type := nat.

Record ymodem_t : Type := mk_ymodem {
  fileName : list Z;                    (* uint8_t [YM_FILE_NAME_LENGTH] *)
  fileSizeStr : list Z;                 (* uint8_t [YM_FILE_SIZE_LENGTH] *)
  packetData : list Z;                  (* uint8_t [YM_PACKET_1K_OVRHD_SIZE] *)
  payloadTx : list Z;                   (* uint8_t [YM_RESP_PAYLOAD_LEN] *)
  payloadLen : Z;                       (* uint8_t *)
  initialized : Z;                      (* uint8_t *)
  fileSize : Z;                         (* uint32_t *)
  prevC : Z;                            (* uint8_t *)
  startOfPacket : Z;                    (* uint8_t *)
  eotReceived : Z;                      (* uint8_t *)
  packetBytes : Z;                      (* uint16_t *)
  packetSize : Z;                       (* uint16_t *)
  packetsReceived : Z;                  (* int32_t *)
  nextStatus : ymodem_err_e;
  serialWriteFxn : option ymodem_fxn_t
}.

(** The value is a [ymodem_t]: its arrays have their declared sizes. *)
Definition wf_ymodem (y : ymodem_t) : Prop :=
  length (fileName y) = Z.to_nat YM_FILE_NAME_LENGTH /\
  length (fileSizeStr y) = Z.to_nat YM_FILE_SIZE_LENGTH /\
  length (packetData y) = Z.to_nat YM_PACKET_1K_OVRHD_SIZE /\
  length (payloadTx y) = Z.to_nat YM_RESP_PAYLOAD_LEN.

(** Field assignments. *)
Definition set_fileName (v : list Z) (y : ymodem_t) : ymodem_t :=
  mk_ymodem v (fileSizeStr y) (packetData y) (payloadTx y) (payloadLen y)
    (initialized y) (fileSize y) (prevC y) (startOfPacket y) (eotReceived y)
    (packetBytes y) (packetSize y) (packetsReceived y) (nextStatus y)
    (serialWriteFxn y).
Definition set_fileSizeStr (v : list Z) (y : ymodem_t) : ymodem_t :=
  mk_ymodem (fileName y) v (packetData y) (payloadTx y) (payloadLen y)
    (initialized y) (fileSize y) (prevC y) (startOfPacket y) (eotReceived y)
    (packetBytes y) (packetSize y) (packetsReceived y) (nextStatus y)
    (serialWriteFxn y).
Definition set_packetData (v : list Z) (y : ymodem_t) : ymodem_t :=
  mk_ymodem (fileName y) (fileSizeStr y) v (payloadTx y) (payloadLen y)
    (initialized y) (fileSize y) (prevC y) (startOfPacket y) (eotReceived y)
    (packetBytes y) (packetSize y) (packetsReceived y) (nextStatus y)
    (serialWriteFxn y).
Definition set_payloadTx (v : list Z) (y : ymodem_t) : ymodem_t :=
  mk_ymodem (fileName y) (fileSizeStr y) (packetData y) v (payloadLen y)
    (initialized y) (fileSize y) (prevC y) (startOfPacket y) (eotReceived y)
    (packetBytes y) (packetSize y) (packetsReceived y) (nextStatus y)
    (serialWriteFxn y).
Definition set_payloadLen (v : Z) (y : ymodem_t) : ymodem_t :=
  mk_ymodem (fileName y) (fileSizeStr y) (packetData y) (payloadTx y) v
    (initialized y) (fileSize y) (prevC y) (startOfPacket y) (eotReceived y)
    (packetBytes y) (packetSize y) (packetsReceived y) (nextStatus y)
    (serialWriteFxn y).
Definition set_initialized (v : Z) (y : ymodem_t) : ymodem_t :=
  mk_ymodem (fileName y) (fileSizeStr y) (packetData y) (payloadTx y)
    (payloadLen y) v (fileSize y) (prevC y) (startOfPacket y) (eotReceived y)
    (packetBytes y) (packetSize y) (packetsReceived y) (nextStatus y)
    (serialWriteFxn y).
Definition set_fileSize (v : Z) (y : ymodem_t) : ymodem_t :=
  mk_ymodem (fileName y) (fileSizeStr y) (packetData y) (payloadTx y)
    (payloadLen y) (initialized y) v (prevC y) (startOfPacket y)
    (eotReceived y) (packetBytes y) (packetSize y) (packetsReceived y)
    (nextStatus y) (serialWriteFxn y).
Definition set_prevC (v : Z) (y : ymodem_t) : ymodem_t :=
  mk_ymodem (fileName y) (fileSizeStr y) (packetData y) (payloadTx y)
    (payloadLen y) (initialized y) (fileSize y) v (startOfPacket y)
    (eotReceived y) (packetBytes y) (packetSize y) (packetsReceived y)
    (nextStatus y) (serialWriteFxn y).
Definition set_startOfPacket (v : Z) (y : ymodem_t) : ymodem_t :=
  mk_ymodem (fileName y) (fileSizeStr y) (packetData y) (payloadTx y)
    (payloadLen y) (initialized y) (fileSize y) (prevC y) v (eotReceived y)
    (packetBytes y) (packetSize y) (packetsReceived y) (nextStatus y)
    (serialWriteFxn y).
Definition set_eotReceived (v : Z) (y : ymodem_t) : ymodem_t :=
  mk_ymodem (fileName y) (fileSizeStr y) (packetData y) (payloadTx y)
    (payloadLen y) (initialized y) (fileSize y) (prevC y) (startOfPacket y) v
    (packetBytes y) (packetSize y) (packetsReceived y) (nextStatus y)
    (serialWriteFxn y).
Definition set_packetBytes (v : Z) (y : ymodem_t) : ymodem_t :=
  mk_ymodem (fileName y) (fileSizeStr y) (packetData y) (payloadTx y)
    (payloadLen y) (initialized y) (fileSize y) (prevC y) (startOfPacket y)
    (eotReceived y) v (packetSize y) (packetsReceived y) (nextStatus y)
    (serialWriteFxn y).
Definition set_packetSize (v : Z) (y : ymodem_t) : ymodem_t :=
  mk_ymodem (fileName y) (fileSizeStr y) (packetData y) (payloadTx y)
    (payloadLen y) (initialized y) (fileSize y) (prevC y) (startOfPacket y)
    (eotReceived y) (packetBytes y) v (packetsReceived y) (nextStatus y)
    (serialWriteFxn y).
Definition set_packetsReceived (v : Z) (y : ymodem_t) : ymodem_t :=
  mk_ymodem (fileName y) (fileSizeStr y) (packetData y) (payloadTx y)
    (payloadLen y) (initialized y) (fileSize y) (prevC y) (startOfPacket y)
    (eotReceived y) (packetBytes y) (packetSize y) v (nextStatus y)
    (serialWriteFxn y).
Definition set_nextStatus (v : ymodem_err_e) (y : ymodem_t) : ymodem_t :=
  mk_ymodem (fileName y) (fileSizeStr y) (packetData y) (payloadTx y)
    (payloadLen y) (initialized y) (fileSize y) (prevC y) (startOfPacket y)
    (eotReceived y) (packetBytes y) (packetSize y) (packetsReceived y) v
    (serialWriteFxn y).
Definition set_serialWriteFxn (v : option ymodem_fxn_t) (y : ymodem_t) : ymodem_t :=
  mk_ymodem (fileName y) (fileSizeStr y) (packetData y) (payloadTx y)
    (payloadLen y) (initialized y) (fileSize y) (prevC y) (startOfPacket y)
    (eotReceived y) (packetBytes y) (packetSize y) (packetsReceived y)
    (nextStatus y) v.

(** ** ymodem.c: control characters and internal return values *)

Definition SOH : Z := 0x01.
Definition STX : Z := 0x02.
Definition EOT : Z := 0x04.
Definition ACK : Z := 0x06.
Definition NAK : Z := 0x15.
Definition CA : Z := 0x18.
Definition CRC16 : Z := 0x43.
Definition ABORT1 : Z := 0x41.
Definition ABORT2 : Z := 0x61.

Definition YM_CRC_POLY : Z := 0x1021.

Inductive ym_ret_t : Type :=
| YM_OK
| YM_ABORTED
| YM_ABORT
| YM_WRITE_ERR
| YM_SIZE_ERR
| YM_START_RX
| YM_RX_ERROR
| YM_RX_OK
| YM_RX_COMPLETE
| YM_SUCCESS.

#[export] Instance ym_ret_t_eq_dec : EqDecision ym_ret_t.
Proof. solve_decision. Defined.

(** ** Checksum engine *)

(** [crc_update]: one bit shifted into the 16-bit register. *)
Definition crc_update (crc_in : Z) (incr : Z) : Z :=
  let xor := u16 (Z.shiftr crc_in 15) in
  let out := u16 (Z.shiftl crc_in 1) in
  let out := if incr =? 0 then out else u16 (out + 1) in
  let out := if xor =? 0 then out else u16 (Z.lxor out YM_CRC_POLY) in
  out.

(** The inner loop of [crc16]: [for (i = 0x80; i; i >>= 1)]. *)
Definition crc16_masks : list Z := [0x80; 0x40; 0x20; 0x10; 0x08; 0x04; 0x02; 0x01].

Definition crc16_byte (crc : Z) (d : Z) : Z :=
  fold_left (fun crc i => crc_update crc (Z.land d i)) crc16_masks crc.

(** The closing loop of [crc16]: sixteen zero bits. *)
Definition crc16_flush (crc : Z) : Z :=
  Nat.iter 16 (fun crc => crc_update crc 0) crc.

(** [crc16 (data, size)], on the [size] bytes at [data]. *)
Definition crc16 (data : list Z) : Z :=
  crc16_flush (fold_left crc16_byte data 0).

(** [SWAP16(x)], as the macro expands at its one use, assigned to a
    [uint16_t]. *)
Definition SWAP16 (x : Z) : Z :=
  u16 (Z.lor (Z.shiftr x 8) (Z.shiftl (Z.land x 0xff) 8)).

(** ** CRC-16/XMODEM, as the catalogue of CRC algorithms gives it

    Width 16, polynomial 0x1021, initial value 0, no reflection, no final
    xor: each byte is xored into the high half of the register, which is then
    shifted left eight times, the polynomial being xored in whenever a set
    bit leaves the register.  This definition is independent of [crc16]. *)

Definition crc16_xmodem_bit (crc : Z) : Z :=
  if Z.testbit crc 15
  then u16 (Z.lxor (Z.shiftl crc 1) 0x1021)
  else u16 (Z.shiftl crc 1).

Definition crc16_xmodem_byte (crc : Z) (d : Z) : Z :=
  Nat.iter 8 crc16_xmodem_bit (Z.lxor crc (Z.shiftl d 8)).

Definition crc16_xmodem (data : list Z) : Z :=
  fold_left crc16_xmodem_byte data 0.

(** The check string of the CRC catalogue: the ASCII digits 1 to 9. *)
Definition crc_check_input : list Z := [49; 50; 51; 52; 53; 54; 55; 56; 57].

(** ** The collaborators: application callback and serial transport *)

(** What the outside sees of a call.  The [data] of a callback is the
    contents of the array its pointer designates, from the pointer to the end
    of the array ([None] for NULL); a serial write is recorded with the
    function called and the [payloadLen] bytes handed to it. *)
Inductive event : Type :=
| EvFileCallback (e : ymodem_file_cb_e) (data : option (list Z)) (len : Z)
| EvSerialWrite (f : ymodem_fxn_t) (data : list Z).

Section Receiver.

(** [ymodem_FileCallback] is supplied by the application.  It is modelled as
    a function of its event arguments and of a state [Sink] of its own; it does
    not write to the session through the [ymodem] pointer it is given. *)
Context {Sink : Type}.
Variable ymodem_FileCallback :
  Sink -> ymodem_file_cb_e -> option (list Z) -> Z -> ymodem_err_e * Sink.

Record world : Type := mk_world {
  sink : Sink;
  trace : list event
}.

Definition call_FileCallback (w : world) (e : ymodem_file_cb_e)
    (data : option (list Z)) (len : Z) : ymodem_err_e * world :=
  let '(r, s) := ymodem_FileCallback (sink w) e data len in
  (r, mk_world s (trace w ++ [EvFileCallback e data len])).

(** The bytes waiting in [payloadTx]. *)
Definition reply (y : ymodem_t) : list Z :=
  take (Z.to_nat (payloadLen y)) (payloadTx y).

Definition ymodem_WriteSerial (y : ymodem_t) (w : world) : world :=
  match serialWriteFxn y with
  | Some f => mk_world (sink w) (trace w ++ [EvSerialWrite f (reply y)])
  | None => w
  end.

(** [assert (ymodem->initialized = YM_INSTANCE_INIT_MASK)], with [assert]
    enabled: the argument is an assignment, whose value is the value stored. *)
Definition assert_initialized (y : ymodem_t) : res ymodem_t :=
  let y := set_initialized YM_INSTANCE_INIT_MASK y in
  if initialized y =? 0 then Err AssertionFailed else Ret y.

Definition ymodem_Init (y : ymodem_t) (SerialWriteFxn : option ymodem_fxn_t)
    : ymodem_t :=
  if initialized y =? YM_INSTANCE_INIT_MASK then y
  else
    mk_ymodem
      (replicate (Z.to_nat YM_FILE_NAME_LENGTH) 0)
      (replicate (Z.to_nat YM_FILE_SIZE_LENGTH) 0)
      (replicate (Z.to_nat YM_PACKET_1K_OVRHD_SIZE) 0)
      (payloadTx y) (payloadLen y)
      YM_INSTANCE_INIT_MASK
      0 0 1 0 0 0 0 YMODEM_OK SerialWriteFxn.

(** The stores to [payloadTx] are at the constant indices 0 and 1 of an
    array of [YM_RESP_PAYLOAD_LEN] elements. *)
Definition ymodem_Abort (y : ymodem_t) : res (ymodem_err_e * ymodem_t) :=
  y ← assert_initialized y;
  let y := set_payloadTx (<[0%nat := CA]> (payloadTx y)) y in
  let y := set_payloadTx (<[1%nat := CA]> (payloadTx y)) y in
  let y := set_payloadLen 2 y in
  let y := set_nextStatus YMODEM_ABORTED y in
  let y := set_packetsReceived 0 y in
  Ret (YMODEM_ABORTED, y).

Definition ymodem_Reset (y : ymodem_t) : res (ymodem_err_e * ymodem_t) :=
  y ← assert_initialized y;
  let y := set_fileSize 0 y in
  let y := set_prevC 0 y in
  let y := set_startOfPacket 1 y in
  let y := set_packetBytes 0 y in
  let y := set_packetSize 0 y in
  let y := set_packetsReceived 0 y in
  let y := set_eotReceived 0 y in
  let y := set_nextStatus YMODEM_OK y in
  Ret (YMODEM_OK, y).

(** Every enumerator of [ym_ret_t] has its case, so the [default] of the
    switch and the [return YMODEM_ABORTED] after it are never reached. *)
Definition GenerateResponse (y : ymodem_t) (retVal : ym_ret_t)
    : res (ymodem_err_e * ymodem_t) :=
  match retVal with
  | YM_OK =>
      Ret (YMODEM_OK, set_payloadLen 0 y)
  | YM_ABORT =>
      '(_, y) ← ymodem_Abort y;
      Ret (YMODEM_TX_PENDING, y)
  | YM_ABORTED =>
      let y := set_payloadTx (<[0%nat := CRC16]> (payloadTx y)) y in
      let y := set_payloadLen 1 y in
      let y := set_nextStatus YMODEM_ABORTED y in
      Ret (YMODEM_TX_PENDING, y)
  | YM_WRITE_ERR =>
      '(_, y) ← ymodem_Abort y;
      let y := set_nextStatus YMODEM_WRITE_ERR y in
      Ret (YMODEM_TX_PENDING, y)
  | YM_SIZE_ERR =>
      '(_, y) ← ymodem_Abort y;
      let y := set_nextStatus YMODEM_SIZE_ERR y in
      Ret (YMODEM_TX_PENDING, y)
  | YM_START_RX =>
      let y := set_payloadTx (<[0%nat := ACK]> (payloadTx y)) y in
      let y := set_payloadTx (<[1%nat := CRC16]> (payloadTx y)) y in
      let y := set_payloadLen 2 y in
      Ret (YMODEM_TX_PENDING, y)
  | YM_RX_ERROR =>
      let y := set_payloadTx (<[0%nat := NAK]> (payloadTx y)) y in
      let y := set_payloadLen 1 y in
      Ret (YMODEM_TX_PENDING, y)
  | YM_RX_OK =>
      let y := set_payloadTx (<[0%nat := ACK]> (payloadTx y)) y in
      let y := set_payloadLen 1 y in
      Ret (YMODEM_TX_PENDING, y)
  | YM_RX_COMPLETE =>
      let y := set_payloadTx (<[0%nat := ACK]> (payloadTx y)) y in
      let y := set_payloadTx (<[1%nat := CRC16]> (payloadTx y)) y in
      let y := set_payloadLen 2 y in
      Ret (YMODEM_TX_PENDING, y)
  | YM_SUCCESS =>
      let y := set_payloadTx (<[0%nat := ACK]> (payloadTx y)) y in
      let y := set_payloadLen 1 y in
      let y := set_nextStatus YMODEM_COMPLETE y in
      Ret (YMODEM_TX_PENDING, y)
  end.

(** ** Decimal parser *)

Definition ISVALIDDEC (c : Z) : bool := (48 <=? c) && (c <=? 57).
Definition CONVERTDEC (c : Z) : Z := c - 48.

(** The [for (i = 0; i < 11; i++)] loop of [Str2Int], [n] iterations before
    [i] reaches 11.  The result is [res] and the contents of [*intnum]. *)
Fixpoint Str2Int_loop (n : nat) (inputstr : list Z) (i val intnum : Z)
    : res (Z * Z) :=
  match n with
  | O => Ret (0, intnum)
  | S n' =>
      c ← load inputstr i;
      if c =? 0 then Ret (1, val)
      else if ISVALIDDEC c
      then Str2Int_loop n' inputstr (i + 1) (u32 (val * 10 + CONVERTDEC c)) intnum
      else Ret (0, intnum)
  end.

Definition Str2Int (inputstr : list Z) (intnum : Z) : res (Z * Z) :=
  Str2Int_loop 11 inputstr 0 0 intnum.

(** ** Packet validation and dispatch *)

(** The [size] elements of [a] from index [off] on, which [crc16] reads. *)
Definition load_range (a : list Z) (off size : Z) : res (list Z) :=
  if (0 <=? off) && (0 <=? size) && (off + size <=? Z.of_nat (length a))
  then Ret (take (Z.to_nat size) (drop (Z.to_nat off) a))
  else Err OutOfBounds.

Definition ymodem_CheckCRC (y : ymodem_t) : res ym_ret_t :=
  b ← load (packetData y) ((packetSize y + YM_PACKET_OVERHEAD) - 1);
  let sourceCRC := b in
  b ← load (packetData y) ((packetSize y + YM_PACKET_OVERHEAD) - 2);
  let sourceCRC := u16 (Z.lor (Z.shiftl sourceCRC 8) b) in
  data ← load_range (packetData y) YM_PACKET_HEADER (packetSize y);
  let newCRC := SWAP16 (crc16 data) in
  if negb (newCRC =? sourceCRC) then Ret YM_RX_ERROR else Ret YM_OK.

Definition ymodem_ProcessDataPacket (y : ymodem_t) (w : world)
    : ym_ret_t * ymodem_t * world :=
  let buffIn := drop (Z.to_nat YM_PACKET_HEADER) (packetData y) in
  let '(err, w) :=
    call_FileCallback w YMODEM_FILE_CB_DATA (Some buffIn) (packetSize y) in
  let ret := if decide (err = YMODEM_OK) then YM_RX_OK else YM_WRITE_ERR in
  let y := set_packetsReceived (s32 (packetsReceived y + 1)) y in
  (ret, y, w).

(** [while ((i < lim) && ( *filePtr != stop)) dst[i++] = *filePtr++;] with
    [n] the iterations left before [i] reaches [lim].  The result is the
    destination array, [i] and [filePtr]. *)
Fixpoint copy_until (n : nat) (stop : Z) (src : list Z) (filePtr : Z)
    (dst : list Z) (i : Z) : res (list Z * Z * Z) :=
  match n with
  | O => Ret (dst, i, filePtr)
  | S n' =>
      c ← load src filePtr;
      if c =? stop then Ret (dst, i, filePtr)
      else
        dst ← store dst i c;
        copy_until n' stop src (filePtr + 1) dst (i + 1)
  end.

Definition ymodem_ProcessFirstPacket (y : ymodem_t) (w : world)
    : res (ym_ret_t * ymodem_t * world) :=
  b ← load (packetData y) YM_PACKET_HEADER;
  if negb (b =? 0) then
    '(fn, i, filePtr) ←
      copy_until (Z.to_nat YM_FILE_NAME_LENGTH) 0 (packetData y)
        YM_PACKET_HEADER (fileName y) 0;
    fn ← store fn i 0;
    let y := set_fileName fn y in
    let filePtr := filePtr + 1 in
    '(fs, i, filePtr) ←
      copy_until (Z.to_nat YM_FILE_SIZE_LENGTH) 32 (packetData y)
        filePtr (fileSizeStr y) 0;
    fs ← store fs i 0;
    let y := set_fileSizeStr fs y in
    '(_, intnum) ← Str2Int (fileSizeStr y) (fileSize y);
    let y := set_fileSize intnum y in
    let '(err, w) :=
      call_FileCallback w YMODEM_FILE_CB_NAME (Some (fileName y)) (fileSize y) in
    let ret := if decide (err = YMODEM_OK) then YM_START_RX else YM_SIZE_ERR in
    let y := set_packetsReceived (s32 (packetsReceived y + 1)) y in
    Ret (ret, y, w)
  else
    Ret (YM_ABORT, y, w).

Definition ymodem_ProcessPacket (y : ymodem_t) (w : world)
    : res (ym_ret_t * ymodem_t * world) :=
  if eotReceived y =? 1 then
    let '(_, w) := call_FileCallback w YMODEM_FILE_CB_END None 0 in
    Ret (YM_SUCCESS, y, w)
  else
    seqno ← load (packetData y) YM_PACKET_SEQNO_INDEX;
    if negb (Z.land seqno 0xFF =? Z.land (packetsReceived y) 0xFF) then
      Ret (YM_RX_ERROR, y, w)
    else
      crc ← ymodem_CheckCRC y;
      if decide (crc <> YM_OK) then Ret (YM_RX_ERROR, y, w)
      else if packetsReceived y =? 0 then ymodem_ProcessFirstPacket y w
      else Ret (ymodem_ProcessDataPacket y w).

(** ** The byte framer *)

(** [ymodem->packetData[ymodem->packetBytes++] = c;] *)
Definition store_packet_byte (y : ymodem_t) (c : Z) : res ymodem_t :=
  pd ← store (packetData y) (packetBytes y) c;
  Ret (set_packetData pd (set_packetBytes (u16 (packetBytes y + 1)) y)).

(** The body of the [do { ... } while (0)] of [ymodem_ReceiveByte]. *)
Definition receive_step (y : ymodem_t) (w : world) (c : Z)
    : res (ym_ret_t * ymodem_t * world) :=
  if negb (startOfPacket y =? 0) then
    if c =? SOH then
      let y := set_packetSize YM_PACKET_SIZE y in
      let y := set_startOfPacket 0 y in
      let y := set_packetBytes (u16 (packetBytes y + 1)) y in
      Ret (YM_OK, y, w)
    else if c =? STX then
      let y := set_packetSize YM_PACKET_1K_SIZE y in
      let y := set_startOfPacket 0 y in
      let y := set_packetBytes (u16 (packetBytes y + 1)) y in
      Ret (YM_OK, y, w)
    else if c =? EOT then
      let y := set_eotReceived 1 y in
      Ret (YM_RX_COMPLETE, y, w)
    else if c =? CA then
      if prevC y =? CA then Ret (YM_ABORTED, y, w)
      else Ret (YM_OK, y, w)
    else if (c =? ABORT1) || (c =? ABORT2) then
      Ret (YM_ABORT, y, w)
    else
      Ret (YM_RX_ERROR, y, w)
  else
    if packetBytes y <? (packetSize y + YM_PACKET_OVERHEAD) - 1 then
      y ← store_packet_byte y c;
      Ret (YM_OK, y, w)
    else
      y ← store_packet_byte y c;
      seqno ← load (packetData y) YM_PACKET_SEQNO_INDEX;
      comp ← load (packetData y) YM_PACKET_SEQNO_COMP_INDEX;
      if negb (seqno =? Z.land (Z.lxor comp 0xFF) 0xFF) then
        let y := set_startOfPacket 1 y in
        let y := set_packetBytes 0 y in
        Ret (YM_RX_ERROR, y, w)
      else
        '(ret, y, w) ← ymodem_ProcessPacket y w;
        let y := set_startOfPacket 1 y in
        let y := set_packetBytes 0 y in
        Ret (ret, y, w).

(** The statements of [ymodem_ReceiveByte] after the [do { ... } while (0)]. *)
Definition respond (y : ymodem_t) (w : world) (c : Z) (ret : ym_ret_t)
    : res (ymodem_err_e * ymodem_t * world) :=
  let y := set_prevC c y in
  '(GenRet, y) ← GenerateResponse y ret;
  match GenRet with
  | YMODEM_TX_PENDING =>
      Ret (GenRet, y, ymodem_WriteSerial y w)
  | YMODEM_ABORTED =>
      let '(_, w) := call_FileCallback w YMODEM_FILE_CB_ABORTED None 0 in
      Ret (GenRet, y, w)
  | _ => Ret (GenRet, y, w)
  end.

Definition ymodem_ReceiveByte (y : ymodem_t) (w : world) (c : Z)
    : res (ymodem_err_e * ymodem_t * world) :=
  y ← assert_initialized y;
  if decide (nextStatus y <> YMODEM_OK) then Ret (nextStatus y, y, w)
  else
    '(ret, y, w) ← receive_step y w c;
    respond y w c ret.

(** The caller's loop: the bytes of [bs] handed to [ymodem_ReceiveByte] one
    after the other; the result lists the status of every call. *)
Fixpoint receive_bytes (y : ymodem_t) (w : world) (bs : list Z)
    : res (list ymodem_err_e * ymodem_t * world) :=
  match bs with
  | [] => Ret ([], y, w)
  | c :: bs' =>
      '(r, y, w) ← ymodem_ReceiveByte y w c;
      '(rs, y, w) ← receive_bytes y w bs';
      Ret (r :: rs, y, w)
  end.

End Receiver.

Arguments world : clear implicits.

(** * Notions used to state the properties *)

(** One shift of the CRC register with no input bit: multiplication by x
    modulo the polynomial. *)
Definition crc_shift (c : Z) : Z :=
  Z.lxor (Z.land (Z.shiftl c 1) 65535)
         (if Z.testbit c 15 then YM_CRC_POLY else 0).

(** A packet on the wire:
    [leading byte][sequence][complement][payload][checksum high][checksum low]. *)
Definition packet (hd sq comp : Z) (payload : list Z) (c1 c2 : Z) : list Z :=
  hd :: sq :: comp :: payload ++ [c1; c2].

Definition payload_size (hd : Z) : Z :=
  if hd =? SOH then YM_PACKET_SIZE else YM_PACKET_1K_SIZE.

(** The leading byte starts a packet and the payload has the size it
    announces. *)
Definition framed (hd : Z) (payload : list Z) : Prop :=
  (hd = SOH \/ hd = STX) /\ Z.of_nat (length payload) = payload_size hd.

Definition complement_ok (sq comp : Z) : Prop :=
  sq = Z.land (Z.lxor comp 0xFF) 0xFF.

(** The trailer holds CRC-16/XMODEM of the payload, high byte first. *)
Definition crc_ok (payload : list Z) (c1 c2 : Z) : Prop :=
  c1 = Z.shiftr (crc16_xmodem payload) 8 /\
  c2 = Z.land (crc16_xmodem payload) 0xFF.

(** The session waits for the leading byte of a packet. *)
Definition awaiting_header (y : ymodem_t) : Prop :=
  nextStatus y = YMODEM_OK /\ startOfPacket y = 1 /\ packetBytes y = 0.

(** A session as [ymodem_Init] or [ymodem_Reset] leaves it. *)
Definition fresh_session (y : ymodem_t) : Prop :=
  awaiting_header y /\ packetsReceived y = 0 /\ eotReceived y = 0 /\
  fileSize y = 0 /\ prevC y = 0 /\ initialized y = YM_INSTANCE_INIT_MASK.

Definition expected_sequence (y : ymodem_t) : Z :=
  Z.land (packetsReceived y) 0xFF.

(** The C string at the start of an array: the bytes before the first NUL. *)
Fixpoint c_string (l : list Z) : list Z :=
  match l with
  | [] => []
  | c :: l' => if c =? 0 then [] else c :: c_string l'
  end.

Definition is_digit (c : Z) : Prop := 48 <= c <= 57.

(** The number a string of decimal digits denotes. *)
Definition decimal (ds : list Z) : Z :=
  fold_left (fun v c => v * 10 + (c - 48)) ds 0.

(** [bs] stored in [a] from index [k] on. *)
Definition write_at (k : nat) (bs a : list Z) : list Z :=
  take k a ++ bs ++ drop (k + length bs) a.

(** The session after the leading byte [hd] and the bytes [bs] of the body
    of a packet, none of them its last, have been received by [y]. *)
Definition assembling (y : ymodem_t) (hd : Z) (bs : list Z) : ymodem_t :=
  mk_ymodem (fileName y) (fileSizeStr y) (write_at 1 bs (packetData y))
    (payloadTx y) 0 YM_INSTANCE_INIT_MASK (fileSize y)
    (List.last bs hd) 0 (eotReceived y)
    (Z.of_nat (1 + length bs)) (payload_size hd) (packetsReceived y)
    YMODEM_OK (serialWriteFxn y).

(** The session [ymodem_ProcessPacket] is called on, once the last byte [c]
    of the packet has been stored after [bs]. *)
Definition assembled (y : ymodem_t) (hd : Z) (bs : list Z) (c : Z) : ymodem_t :=
  set_packetData (write_at 1 (bs ++ [c]) (packetData y))
    (set_packetBytes (Z.of_nat (2 + length bs)) (assembling y hd bs)).

(** The session [respond] is called on, after the packet has been
    processed: the framer awaits a header again. *)
Definition rearmed (y : ymodem_t) : ymodem_t :=
  set_packetBytes 0 (set_startOfPacket 1 y).

(** What the [data] pointer of the data callback designates once the packet
    is in the buffer of [y]: the payload, the trailer and what the buffer
    held before. *)
Definition data_view (y : ymodem_t) (payload : list Z) (c1 c2 : Z) : list Z :=
  payload ++ [c1; c2] ++ drop (5 + length payload) (packetData y).

(** The size the first packet announces, as [Str2Int] leaves it in
    [fileSize]: the number parsed, or the value [fileSize] had. *)
Definition parsed_size (sz : list Z) (old : Z) : Z :=
  if forallb ISVALIDDEC (c_string sz) && (length (c_string sz) <=? 10)%nat
  then u32 (decimal (c_string sz))
  else old.

(** The session [respond] leaves: the byte recorded and the response to the
    outcome [ret] written by [GenerateResponse]. *)
Definition responded (y : ymodem_t) (c : Z) (ret : ym_ret_t) : ymodem_t :=
  match GenerateResponse (set_prevC c y) ret with
  | Ret (_, y') => y'
  | Err _ => y
  end.

(** What a serial write of the reply of [y] adds to the trace. *)
Definition write_events (y : ymodem_t) : list event :=
  match serialWriteFxn y with
  | Some f => [EvSerialWrite f (reply y)]
  | None => []
  end.

(** The fields packet processing may assign: the file name, the size string,
    the size and the packet count. *)
Definition processed (y y1 : ymodem_t) : Prop :=
  exists fn fs size count,
    y1 = set_packetsReceived count
           (set_fileSize size (set_fileSizeStr fs (set_fileName fn y))).

(** The serial writes of a trace, in order. *)
Definition serial_writes (t : list event) : list (list Z) :=
  omap (fun ev => match ev with EvSerialWrite _ d => Some d | _ => None end) t.

(** The callbacks of a trace that carry the event [e]. *)
Definition is_callback_of (e : ymodem_file_cb_e) (ev : event) : bool :=
  match ev with
  | EvFileCallback e' _ _ => bool_decide (e' = e)
  | EvSerialWrite _ _ => false
  end.

Definition callbacks_of (e : ymodem_file_cb_e) (t : list event) : list event :=
  List.filter (is_callback_of e) t.

Ltac div_lia := Z.to_euclidean_division_equations; lia.

(** ** Concrete sessions, sinks and packets *)

(** Memory that [ymodem_Init] has not seen yet. *)
Definition uninitialised : ymodem_t :=
  mk_ymodem (replicate 256 0xAA) (replicate 16 0xAA) (replicate 1029 0xAA)
    (replicate 5 0xAA) 0xAA 0 0xAAAAAAAA 0xAA 0xAA 0xAA 0xAAAA 0xAAAA 7
    YMODEM_ABORTED None.

Definition serial_port : ymodem_fxn_t := 1%nat.

Definition session0 : ymodem_t := ymodem_Init uninitialised (Some serial_port).

(** Sinks without a state: one accepts everything, one rejects everything. *)
Definition accept_all (s : unit) (e : ymodem_file_cb_e) (data : option (list Z))
    (len : Z) : ymodem_err_e * unit := (YMODEM_OK, s).

Definition reject_all (s : unit) (e : ymodem_file_cb_e) (data : option (list Z))
    (len : Z) : ymodem_err_e * unit := (YMODEM_WRITE_ERR, s).

Definition world0 : world unit := mk_world tt [].

(** A packet with the complement and the checksum its sequence number and
    payload ask for. *)
Definition checksummed (hd sq : Z) (payload : list Z) : list Z :=
  packet hd sq (255 - sq) payload
    (Z.shiftr (crc16_xmodem payload) 8) (Z.land (crc16_xmodem payload) 0xFF).

(** "file.bin", NUL, "10", space, padded with zeros to 128 bytes. *)
Definition file_bin_name : list Z := [102; 105; 108; 101; 46; 98; 105; 110].

Definition file_bin_payload : list Z :=
  file_bin_name ++ 0 :: [49; 48] ++ 32 :: replicate 116 0.

(** The same name with the size field "1x". *)
Definition bad_size_payload : list Z :=
  file_bin_name ++ 0 :: [49; 120] ++ 32 :: replicate 116 0.

Definition data_payload : list Z := map Z.of_nat (seq 0 128).

(** 1024 times 'A': a file name that does not fit. *)
Definition long_name_payload : list Z := replicate 1024 65.

(** "file.bin", NUL and no size: the rest of the payload is zero. *)
Definition name_only_payload : list Z := file_bin_name ++ 0 :: replicate 119 0.

Definition empty_payload : list Z := replicate 128 0.

(** Reading a field of a session some fields of which have been assigned. *)
Ltac fields :=
  cbn [fileName fileSizeStr packetData payloadTx payloadLen initialized
       fileSize prevC startOfPacket eotReceived packetBytes packetSize
       packetsReceived nextStatus serialWriteFxn
       set_fileName set_fileSizeStr set_packetData set_payloadTx
       set_payloadLen set_initialized set_fileSize set_prevC
       set_startOfPacket set_eotReceived set_packetBytes set_packetSize
       set_packetsReceived set_nextStatus set_serialWriteFxn
       mbind res_bind].

(** The notions above are decidable, so that they can be computed on
    concrete sessions and packets. *)
#[export] Instance is_byte_dec (x : Z) : Decision (is_byte x).
Proof. unfold is_byte. apply _. Defined.
#[export] Instance is_digit_dec (x : Z) : Decision (is_digit x).
Proof. unfold is_digit. apply _. Defined.
#[export] Instance framed_dec (hd : Z) (payload : list Z) : Decision (framed hd payload).
Proof. unfold framed. apply _. Defined.
#[export] Instance complement_ok_dec (sq comp : Z) : Decision (complement_ok sq comp).
Proof. unfold complement_ok. apply _. Defined.
#[export] Instance crc_ok_dec (payload : list Z) (c1 c2 : Z) :
  Decision (crc_ok payload c1 c2).
Proof. unfold crc_ok. apply _. Defined.
#[export] Instance awaiting_header_dec (y : ymodem_t) : Decision (awaiting_header y).
Proof. unfold awaiting_header. apply _. Defined.
#[export] Instance fresh_session_dec (y : ymodem_t) : Decision (fresh_session y).
Proof. unfold fresh_session. apply _. Defined.
#[export] Instance wf_ymodem_dec (y : ymodem_t) : Decision (wf_ymodem y).
Proof. unfold wf_ymodem. apply _. Defined.

#[global] Typeclasses Opaque is_byte is_digit framed complement_ok crc_ok
  awaiting_header fresh_session wf_ymodem.

(** The session [ymodem_Abort] leaves of [session0]. *)
Definition session_aborted : ymodem_t :=
  match ymodem_Abort session0 with
  | Ret (_, y) => y
  | Err _ => session0
  end.

(** [session0] after an end-of-transmission byte. *)
Definition session_eot : ymodem_t :=
  match ymodem_ReceiveByte accept_all session0 world0 EOT with
  | Ret (_, y, _) => y
  | Err _ => session0
  end.

(** [session0] after the first packet "file.bin", 10. *)
Definition session_named : ymodem_t :=
  match receive_bytes accept_all session0 world0
          (checksummed SOH 0 file_bin_payload) with
  | Ret (_, y, _) => y
  | Err _ => session0
  end.

(** The session [ymodem_Reset] leaves. *)
Definition reset_session (y : ymodem_t) : ymodem_t :=
  mk_ymodem (fileName y) (fileSizeStr y) (packetData y) (payloadTx y)
    (payloadLen y) YM_INSTANCE_INIT_MASK 0 0 1 0 0 0 0 YMODEM_OK
    (serialWriteFxn y).

(** The session is consistent: the arrays have their sizes, the status
    kept for the following calls is not [YMODEM_TX_PENDING], and either a
    header is awaited with nothing collected, or a packet of one of the two
    sizes is being collected and its last byte is still to come. *)
Definition framer_inv (y : ymodem_t) : Prop :=
  wf_ymodem y /\ nextStatus y <> YMODEM_TX_PENDING /\
  ((startOfPacket y = 1 /\ packetBytes y = 0) \/
   (startOfPacket y = 0 /\
    (packetSize y = YM_PACKET_SIZE \/ packetSize y = YM_PACKET_1K_SIZE) /\
    1 <= packetBytes y <= packetSize y + 4)).

#[export] Instance framer_inv_dec (y : ymodem_t) : Decision (framer_inv y).
Proof. unfold framer_inv. apply _. Defined.

#[global] Typeclasses Opaque framer_inv.

(** What a call may do to the world before the serial write: nothing, or
    one callback with an event other than [YMODEM_FILE_CB_ABORTED]. *)
Definition at_most_one_callback {Sink : Type}
    (cb : Sink -> ymodem_file_cb_e -> option (list Z) -> Z -> ymodem_err_e * Sink)
    (w w1 : world Sink) : Prop :=
  w1 = w \/
  exists e data len,
    e <> YMODEM_FILE_CB_ABORTED /\
    w1 = mk_world (snd (cb (sink w) e data len))
           (trace w ++ [EvFileCallback e data len]).

(** Packets on the wire, one after the other: each has its leading byte
    and its payload, and they are numbered from [sq] on, modulo 256. *)
Fixpoint data_stream (sq : Z) (ps : list (Z * list Z)) : list Z :=
  match ps with
  | [] => []
  | (hd, payload) :: ps' =>
      checksummed hd sq payload ++ data_stream ((sq + 1) mod 256) ps'
  end.

(** The calls of a list of results that left a reply to send. *)
Definition pending (rs : list ymodem_err_e) : nat :=
  length (List.filter (fun r => bool_decide (r = YMODEM_TX_PENDING)) rs).

(** The bytes the sink was handed by the data callbacks of a trace. *)
Definition delivered (t : list event) : list Z :=
  flat_map (fun ev => match ev with
                      | EvFileCallback YMODEM_FILE_CB_DATA (Some d) len =>
                          take (Z.to_nat len) d
                      | _ => []
                      end) t.

(** * The checksum engine computes CRC-16/XMODEM *)

Lemma u16_land x : u16 x = Z.land x 65535.
Proof. unfold u16. change 65535 with (Z.ones 16). rewrite Z.land_ones by lia. reflexivity. Qed.

Lemma u16_range x : 0 <= u16 x < 65536.
Proof. unfold u16. apply Z.mod_pos_bound. lia. Qed.

Lemma u16_small x : 0 <= x < 65536 -> u16 x = x.
Proof. intros. unfold u16. apply Z.mod_small. lia. Qed.

Lemma lxor_u16_range a b : 0 <= a < 65536 -> 0 <= b < 65536 -> 0 <= Z.lxor a b < 65536.
Proof.
  intros Ha Hb. split; [apply Z.lxor_nonneg; lia|].
  destruct (Z.eq_dec (Z.lxor a b) 0) as [->|Hne]; [lia|].
  assert (0 < Z.lxor a b) by (assert (0 <= Z.lxor a b) by (apply Z.lxor_nonneg; lia); lia).
  apply Z.log2_lt_pow2 with (b := 16); [lia|].
  pose proof (Z.log2_lxor a b ltac:(lia) ltac:(lia)).
  assert (Z.log2 a < 16).
  { destruct (Z.eq_dec a 0) as [->|]; [simpl; lia|]. apply Z.log2_lt_pow2; lia. }
  assert (Z.log2 b < 16).
  { destruct (Z.eq_dec b 0) as [->|]; [simpl; lia|]. apply Z.log2_lt_pow2; lia. }
  lia.
Qed.

Lemma crc_shift_range c : 0 <= crc_shift c < 65536.
Proof.
  unfold crc_shift. apply lxor_u16_range.
  - rewrite <- u16_land. apply u16_range.
  - destruct (Z.testbit c 15); unfold YM_CRC_POLY; lia.
Qed.

Lemma testbit15 c : 0 <= c < 65536 -> Z.testbit c 15 = (32768 <=? c).
Proof.
  intros H. destruct (Z.leb_spec 32768 c).
  - apply Z.testbit_true; [lia|]. change (2^15) with 32768.
    assert (c / 32768 = 1) by div_lia.
    rewrite H1. reflexivity.
  - apply Z.bits_above_log2; [lia|].
    destruct (Z.eq_dec c 0) as [->|]; [simpl; lia|]. apply Z.log2_lt_pow2; lia.
Qed.

Lemma lxor_even_1 x : Z.even x = true -> Z.lxor x 1 = x + 1.
Proof.
  intros H. symmetry. apply Z.add_nocarry_lxor.
  apply Z.bits_inj'. intros n Hn. rewrite Z.land_spec, Z.bits_0.
  destruct (Z.eq_dec n 0) as [->|].
  - rewrite Z.bit0_odd, <- Z.negb_even, H. reflexivity.
  - replace (Z.testbit 1 n) with false; [apply andb_false_r|].
    symmetry. apply Z.bits_above_log2; simpl; lia.
Qed.

Lemma crc_update_spec c i :
  0 <= c < 65536 ->
  crc_update c i = Z.lxor (crc_shift c) (if i =? 0 then 0 else 1).
Proof.
  intros Hc. unfold crc_update, crc_shift.
  rewrite testbit15 by lia. rewrite Z.shiftr_div_pow2, Z.shiftl_mul_pow2 by lia.
  change (2^15) with 32768. change (2^1) with 2.
  rewrite <- u16_land.
  destruct (Z.leb_spec 32768 c) as [Hge|Hlt].
  - assert (c / 32768 = 1) as -> by div_lia.
    assert (u16 (c * 2) = c * 2 - 65536) as ->.
    { unfold u16. div_lia. }
    change (u16 1 =? 0) with false. cbv iota.
    assert (Hev : Z.even (c * 2 - 65536) = true).
    { replace (c * 2 - 65536) with (2 * (c - 32768)) by lia. apply Z.even_mul. }
    destruct (i =? 0).
    + rewrite Z.lxor_0_r. apply u16_small. apply lxor_u16_range; unfold YM_CRC_POLY; lia.
    + rewrite (u16_small (_ + 1)) by lia.
      rewrite <- lxor_even_1 by exact Hev.
      rewrite u16_small by (apply lxor_u16_range; [apply lxor_u16_range|unfold YM_CRC_POLY]; lia).
      rewrite !Z.lxor_assoc. reflexivity.
  - assert (c / 32768 = 0) as -> by div_lia.
    rewrite (u16_small (c * 2)) by lia.
    change (u16 0 =? 0) with true. cbv iota. rewrite Z.lxor_0_r.
    destruct (i =? 0).
    + rewrite Z.lxor_0_r. reflexivity.
    + rewrite u16_small by lia. symmetry. apply lxor_even_1.
      rewrite Z.mul_comm. apply Z.even_mul.
Qed.

(** [crc_shift] is linear over xor. *)
Lemma lxor_swap4 a b c d :
  Z.lxor (Z.lxor a b) (Z.lxor c d) = Z.lxor (Z.lxor a c) (Z.lxor b d).
Proof.
  rewrite !Z.lxor_assoc. f_equal. rewrite <- !Z.lxor_assoc. f_equal. apply Z.lxor_comm.
Qed.

Lemma land_lxor_distr a b m :
  Z.land (Z.lxor a b) m = Z.lxor (Z.land a m) (Z.land b m).
Proof.
  apply Z.bits_inj'. intros n Hn.
  rewrite Z.lxor_spec, !Z.land_spec, Z.lxor_spec.
  destruct (Z.testbit a n), (Z.testbit b n), (Z.testbit m n); reflexivity.
Qed.

Lemma crc_shift_lxor a b :
  crc_shift (Z.lxor a b) = Z.lxor (crc_shift a) (crc_shift b).
Proof.
  unfold crc_shift. rewrite Z.shiftl_lxor, land_lxor_distr, Z.lxor_spec.
  rewrite lxor_swap4. f_equal.
  destruct (Z.testbit a 15), (Z.testbit b 15); reflexivity.
Qed.

Lemma crc_shift_0 : crc_shift 0 = 0.
Proof. reflexivity. Qed.

Lemma iter_crc_shift_lxor n a b :
  Nat.iter n crc_shift (Z.lxor a b) =
  Z.lxor (Nat.iter n crc_shift a) (Nat.iter n crc_shift b).
Proof.
  induction n as [|n IH]; simpl; [reflexivity|].
  rewrite IH. apply crc_shift_lxor.
Qed.

Lemma iter_crc_shift_range n c :
  0 <= c < 65536 -> 0 <= Nat.iter n crc_shift c < 65536.
Proof. destruct n; simpl; [tauto|]. intros _. apply crc_shift_range. Qed.

Lemma crc_update_range c i : 0 <= crc_update c i < 65536.
Proof.
  unfold crc_update. destruct (u16 (c ≫ 15) =? 0); destruct (i =? 0); apply u16_range.
Qed.

Lemma crc16_xmodem_bit_spec c :
  0 <= c < 65536 -> crc16_xmodem_bit c = crc_shift c.
Proof.
  intros Hc. unfold crc16_xmodem_bit, crc_shift.
  destruct (Z.testbit c 15).
  - rewrite u16_land, land_lxor_distr. reflexivity.
  - rewrite u16_land, Z.lxor_0_r. reflexivity.
Qed.

(** A property of bytes checked on each of the 256 values. *)
Lemma byte_forallb (f : Z -> bool) :
  forallb f (seqZ 0 256) = true -> forall b, is_byte b -> f b = true.
Proof.
  intros H b Hb. rewrite forallb_forall in H. apply H.
  apply list_elem_of_In, elem_of_seqZ. unfold is_byte in Hb. lia.
Qed.

Lemma crc_update_0 c : 0 <= c < 65536 -> crc_update c 0 = crc_shift c.
Proof. intros. rewrite crc_update_spec by lia. apply Z.lxor_0_r. Qed.

Lemma crc_bits_split d ms c :
  0 <= c < 65536 ->
  fold_left (fun crc i => crc_update crc (Z.land d i)) ms c =
  Z.lxor (Nat.iter (length ms) crc_shift c)
         (fold_left (fun crc i => crc_update crc (Z.land d i)) ms 0).
Proof.
  revert c. induction ms as [|m ms IH]; intros c Hc; simpl.
  - symmetry. apply Z.lxor_0_r.
  - rewrite (IH (crc_update c _)) by apply crc_update_range.
    rewrite (IH (crc_update 0 _)) by apply crc_update_range.
    rewrite !crc_update_spec by lia. rewrite crc_shift_0, Z.lxor_0_l.
    rewrite iter_crc_shift_lxor, Z.lxor_assoc.
    f_equal. apply Nat.iter_swap.
Qed.

Lemma crc16_byte_low d c : crc16_byte c d = crc16_byte c (Z.land d 255).
Proof.
  unfold crc16_byte, crc16_masks. cbn [fold_left].
  rewrite <- !(Z.land_assoc d 255). reflexivity.
Qed.

Lemma crc16_byte_0 b : is_byte b -> crc16_byte 0 b = b.
Proof.
  intros Hb. apply Z.eqb_eq.
  apply (byte_forallb (fun b => crc16_byte 0 b =? b)); [|exact Hb].
  vm_compute. reflexivity.
Qed.

Lemma land_255_byte d : is_byte (Z.land d 255).
Proof.
  unfold is_byte. change 255 with (Z.ones 8). rewrite Z.land_ones by lia.
  apply Z.mod_pos_bound. lia.
Qed.

Lemma crc16_byte_spec c d :
  0 <= c < 65536 ->
  crc16_byte c d = Z.lxor (Nat.iter 8 crc_shift c) (Z.land d 255).
Proof.
  intros Hc. rewrite <- (crc16_byte_0 (Z.land d 255)) by apply land_255_byte.
  rewrite <- (crc16_byte_low d 0). unfold crc16_byte.
  rewrite crc_bits_split by lia. reflexivity.
Qed.

Lemma crc16_byte_range c d : 0 <= crc16_byte c d < 65536.
Proof. unfold crc16_byte, crc16_masks. cbn [fold_left]. apply crc_update_range. Qed.

Lemma iter8_crc_shift_byte b :
  is_byte b -> Nat.iter 8 crc_shift b = Z.shiftl b 8.
Proof.
  intros Hb. apply Z.eqb_eq.
  apply (byte_forallb (fun b => Nat.iter 8 crc_shift b =? Z.shiftl b 8)); [|exact Hb].
  vm_compute. reflexivity.
Qed.

Lemma iter_crc_update_0 n c :
  0 <= c < 65536 ->
  Nat.iter n (fun crc => crc_update crc 0) c = Nat.iter n crc_shift c.
Proof.
  intros Hc. induction n as [|n IH]; simpl; [reflexivity|].
  rewrite IH. apply crc_update_0. apply iter_crc_shift_range, Hc.
Qed.

Lemma iter_crc16_xmodem_bit n c :
  0 <= c < 65536 ->
  Nat.iter n crc16_xmodem_bit c = Nat.iter n crc_shift c.
Proof.
  intros Hc. induction n as [|n IH]; simpl; [reflexivity|].
  rewrite IH. apply crc16_xmodem_bit_spec. apply iter_crc_shift_range, Hc.
Qed.

Lemma shiftl_byte_range b : is_byte b -> 0 <= Z.shiftl b 8 < 65536.
Proof. unfold is_byte. intros. rewrite Z.shiftl_mul_pow2 by lia. lia. Qed.

Lemma crc16_xmodem_byte_spec c b :
  0 <= c < 65536 -> is_byte b ->
  crc16_xmodem_byte c b =
  Z.lxor (Nat.iter 8 crc_shift c) (Nat.iter 16 crc_shift b).
Proof.
  intros Hc Hb. unfold crc16_xmodem_byte.
  rewrite iter_crc16_xmodem_bit
    by (apply lxor_u16_range; [lia|apply shiftl_byte_range, Hb]).
  rewrite iter_crc_shift_lxor. f_equal.
  rewrite <- iter8_crc_shift_byte by exact Hb.
  change 16%nat with (8 + 8)%nat. rewrite Nat.iter_add. reflexivity.
Qed.

Lemma iter_iter_comm {A} (f : A -> A) (m n : nat) (x : A) :
  Nat.iter m f (Nat.iter n f x) = Nat.iter n f (Nat.iter m f x).
Proof. rewrite <- !Nat.iter_add. f_equal. apply Nat.add_comm. Qed.

Lemma land_255_small b : is_byte b -> Z.land b 255 = b.
Proof.
  intros Hb. transitivity (b mod 2 ^ 8).
  - exact (Z.land_ones b 8 ltac:(lia)).
  - apply Z.mod_small. exact Hb.
Qed.

Lemma crc16_byte_flush a b :
  0 <= a < 65536 -> is_byte b ->
  Nat.iter 16 crc_shift (crc16_byte a b) =
  crc16_xmodem_byte (Nat.iter 16 crc_shift a) b.
Proof.
  intros Ha Hb.
  rewrite crc16_byte_spec by exact Ha.
  rewrite crc16_xmodem_byte_spec by (try apply iter_crc_shift_range; assumption).
  rewrite iter_crc_shift_lxor, (land_255_small b Hb).
  apply (f_equal (fun x => Z.lxor x _)), iter_iter_comm.
Qed.

Lemma fold_left_simulation {A B C : Type} (f : A -> C -> A) (g : B -> C -> B)
    (R : A -> B) (P : A -> Prop) (Q : C -> Prop) :
  (forall a c, P a -> Q c -> R (f a c) = g (R a) c) ->
  (forall a c, P (f a c)) ->
  forall l a, P a -> Forall Q l -> R (fold_left f l a) = fold_left g l (R a).
Proof.
  intros Hstep Hkeep. induction l as [|c l IH]; intros a Ha Hall; [reflexivity|].
  inversion Hall as [|? ? Hc Hall']; subst. simpl.
  rewrite IH by auto. rewrite Hstep by assumption. reflexivity.
Qed.

Lemma iter16_crc_shift_0 : Nat.iter 16 crc_shift 0 = 0.
Proof. vm_compute. reflexivity. Qed.

Lemma crc16_is_xmodem data :
  Forall is_byte data -> crc16 data = crc16_xmodem data.
Proof.
  intros Hall. unfold crc16, crc16_flush, crc16_xmodem.
  assert (Hr : 0 <= fold_left crc16_byte data 0 < 65536).
  { destruct data as [|b data] using rev_ind; [simpl; lia|].
    rewrite fold_left_app. cbn [fold_left]. apply crc16_byte_range. }
  rewrite iter_crc_update_0 by exact Hr.
  pose proof (fold_left_simulation crc16_byte crc16_xmodem_byte
                (Nat.iter 16 crc_shift) (fun a => 0 <= a < 65536) is_byte
                crc16_byte_flush crc16_byte_range data 0) as Hsim.
  cbv beta in Hsim. rewrite Hsim by (try lia; exact Hall).
  rewrite iter16_crc_shift_0. reflexivity.
Qed.

Lemma crc16_range data : 0 <= crc16 data < 65536.
Proof.
  unfold crc16, crc16_flush. cbn [Nat.iter nat_rect]. apply crc_update_range.
Qed.

(** * Arrays: loads and stores inside the declared size *)

Lemma load_nat (a : list Z) (k : nat) (v : Z) :
  a !! k = Some v -> load a (Z.of_nat k) = Ret v.
Proof.
  intros H. unfold load. pose proof (lookup_lt_Some _ _ _ H) as Hlt.
  replace ((0 <=? Z.of_nat k) && (Z.of_nat k <? Z.of_nat (length a))) with true
    by (symmetry; apply andb_true_iff; split; [apply Z.leb_le|apply Z.ltb_lt]; lia).
  rewrite Nat2Z.id, H. reflexivity.
Qed.

Lemma load_Z (a : list Z) (i : Z) (v : Z) :
  0 <= i -> a !! Z.to_nat i = Some v -> load a i = Ret v.
Proof.
  intros Hi H. rewrite <- (Z2Nat.id i) by exact Hi. apply load_nat, H.
Qed.

Lemma store_nat (a : list Z) (k : nat) (v : Z) :
  (k < length a)%nat -> store a (Z.of_nat k) v = Ret (<[k := v]> a).
Proof.
  intros Hlt. unfold store.
  replace ((0 <=? Z.of_nat k) && (Z.of_nat k <? Z.of_nat (length a))) with true
    by (symmetry; apply andb_true_iff; split; [apply Z.leb_le|apply Z.ltb_lt]; lia).
  rewrite Nat2Z.id. reflexivity.
Qed.

Lemma store_Z (a : list Z) (i : Z) (v : Z) :
  0 <= i < Z.of_nat (length a) -> store a i v = Ret (<[Z.to_nat i := v]> a).
Proof.
  intros Hi. rewrite <- (Z2Nat.id i) at 1 by lia. apply store_nat. lia.
Qed.

Lemma store_out_of_bounds (a : list Z) (i : Z) (v : Z) :
  Z.of_nat (length a) <= i -> store a i v = Err OutOfBounds.
Proof.
  intros Hi. unfold store.
  replace (i <? Z.of_nat (length a)) with false
    by (symmetry; apply Z.ltb_ge; lia).
  rewrite andb_false_r. reflexivity.
Qed.

Lemma load_range_nat (a : list Z) (off n : nat) :
  (off + n <= length a)%nat ->
  load_range a (Z.of_nat off) (Z.of_nat n) = Ret (take n (drop off a)).
Proof.
  intros H. unfold load_range.
  replace ((0 <=? Z.of_nat off) && (0 <=? Z.of_nat n)
           && (Z.of_nat off + Z.of_nat n <=? Z.of_nat (length a))) with true.
  - rewrite !Nat2Z.id. reflexivity.
  - symmetry. rewrite !andb_true_iff, !Z.leb_le. lia.
Qed.

(** [write_at], one element at a time. *)
Lemma write_at_nil (k : nat) (a : list Z) : write_at k [] a = a.
Proof. unfold write_at. simpl. rewrite Nat.add_0_r. apply take_drop. Qed.

Lemma length_write_at (k : nat) (bs a : list Z) :
  (k + length bs <= length a)%nat -> length (write_at k bs a) = length a.
Proof.
  intros H. unfold write_at. rewrite !length_app, length_take, length_drop. lia.
Qed.

Lemma write_at_snoc (k : nat) (bs a : list Z) (c : Z) :
  (k + length bs < length a)%nat ->
  <[(k + length bs)%nat := c]> (write_at k bs a) = write_at k (bs ++ [c]) a.
Proof.
  intros H. unfold write_at.
  rewrite app_assoc. rewrite insert_app_r_alt by (rewrite length_app, length_take; lia).
  rewrite length_app, length_take.
  replace (k + length bs - (k `min` length a + length bs))%nat with 0%nat by lia.
  rewrite (drop_S a (default 0 (a !! (k + length bs)%nat)) (k + length bs)).
  - simpl. rewrite length_app. simpl. rewrite <- !app_assoc. simpl.
    do 3 f_equal. f_equal. lia.
  - destruct (lookup_lt_is_Some_2 a (k + length bs)%nat H) as [x Hx].
    rewrite Hx. reflexivity.
Qed.

Lemma write_at_overwrite (k : nat) (bs bs' a : list Z) :
  length bs = length bs' -> (k + length bs <= length a)%nat ->
  write_at k bs' (write_at k bs a) = write_at k bs' a.
Proof.
  intros Hlen H. unfold write_at.
  rewrite take_app_le by (rewrite length_take; lia).
  rewrite take_take. replace (k `min` k)%nat with k by lia.
  f_equal. f_equal.
  rewrite drop_app_ge by (rewrite length_take; lia).
  rewrite length_take.
  rewrite drop_app_ge by lia.
  rewrite drop_drop. f_equal. lia.
Qed.

Lemma lookup_write_at_lt (k : nat) (bs a : list Z) (j : nat) :
  (j < k)%nat -> (k <= length a)%nat -> write_at k bs a !! j = a !! j.
Proof.
  intros Hj Hk. unfold write_at.
  rewrite lookup_app_l by (rewrite length_take; lia).
  apply lookup_take_lt. exact Hj.
Qed.

Lemma lookup_write_at_in (k : nat) (bs a : list Z) (j : nat) :
  (k <= length a)%nat -> (j < length bs)%nat ->
  write_at k bs a !! (k + j)%nat = bs !! j.
Proof.
  intros Hk Hj. unfold write_at.
  rewrite lookup_app_r by (rewrite length_take; lia).
  rewrite length_take. replace (k + j - k `min` length a)%nat with j by lia.
  apply lookup_app_l. exact Hj.
Qed.

Lemma drop_write_at (k : nat) (bs a : list Z) :
  (k <= length a)%nat -> drop k (write_at k bs a) = bs ++ drop (k + length bs) a.
Proof.
  intros Hk. unfold write_at.
  rewrite drop_app_ge by (rewrite length_take; lia).
  rewrite length_take. replace (k - k `min` length a)%nat with 0%nat by lia.
  reflexivity.
Qed.

(** * [ymodem_CheckCRC] compares big-endian *)

Lemma lor_shiftl_8 (hi lo : Z) :
  0 <= hi -> is_byte lo -> Z.lor (Z.shiftl hi 8) lo = hi * 256 + lo.
Proof.
  intros Hhi Hlo. rewrite Z.shiftl_mul_pow2 by lia. change (2 ^ 8) with 256.
  rewrite <- Z.lxor_lor, <- Z.add_nocarry_lxor; try reflexivity.
  all: apply Z.bits_inj'; intros n Hn; rewrite Z.land_spec, Z.bits_0.
  all: destruct (Z.lt_ge_cases n 8) as [Hlt|Hge].
  all: try (replace (hi * 256) with (hi * 2 ^ 8) by reflexivity;
            rewrite Z.mul_pow2_bits_low by lia; reflexivity).
  all: replace (Z.testbit lo n) with false; [apply andb_false_r|].
  all: symmetry; destruct (Z.eq_dec lo 0) as [->|Hne]; [apply Z.bits_0|].
  all: apply Z.bits_above_log2; [apply Hlo|].
  all: assert (Z.log2 lo < 8) by (apply Z.log2_lt_pow2; unfold is_byte in Hlo; lia); lia.
Qed.

Lemma land_255_mod (x : Z) : Z.land x 255 = x mod 256.
Proof. exact (Z.land_ones x 8 ltac:(lia)). Qed.

Lemma SWAP16_spec (crc : Z) :
  0 <= crc < 65536 -> SWAP16 crc = (crc mod 256) * 256 + crc / 256.
Proof.
  intros Hc. unfold SWAP16.
  rewrite Z.lor_comm, land_255_mod.
  rewrite Z.shiftr_div_pow2 by lia. change (2 ^ 8) with 256.
  rewrite lor_shiftl_8 by (unfold is_byte; div_lia).
  apply u16_small. div_lia.
Qed.

Lemma crc_trailer_eqb (crc c1 c2 : Z) :
  0 <= crc < 65536 -> is_byte c1 -> is_byte c2 ->
  (SWAP16 crc =? u16 (Z.lor (Z.shiftl c2 8) c1)) =
  bool_decide (c1 = Z.shiftr crc 8 /\ c2 = Z.land crc 0xFF).
Proof.
  intros Hc H1 H2. rewrite SWAP16_spec by exact Hc.
  rewrite lor_shiftl_8 by (unfold is_byte in *; lia).
  rewrite u16_small by (unfold is_byte in *; lia).
  rewrite Z.shiftr_div_pow2, land_255_mod by lia. change (2 ^ 8) with 256.
  unfold is_byte in *.
  destruct (Z.eqb_spec (crc mod 256 * 256 + crc / 256) (c2 * 256 + c1)) as [He|Hne].
  - symmetry. apply bool_decide_eq_true. div_lia.
  - symmetry. apply bool_decide_eq_false. intros [-> ->]. apply Hne. reflexivity.
Qed.

(** A session whose packet buffer holds [payload] after the three header
    bytes, followed by the two trailer bytes [c1] and [c2]. *)
Lemma ymodem_CheckCRC_spec (y : ymodem_t) (pre payload post : list Z) (c1 c2 : Z) :
  packetData y = pre ++ payload ++ [c1; c2] ++ post ->
  length pre = 3%nat ->
  packetSize y = Z.of_nat (length payload) ->
  is_byte c1 -> is_byte c2 ->
  ymodem_CheckCRC y =
  Ret (if bool_decide (c1 = Z.shiftr (crc16 payload) 8 /\
                       c2 = Z.land (crc16 payload) 0xFF)
       then YM_OK else YM_RX_ERROR).
Proof.
  intros Hpd Hpre Hsize H1 H2. unfold ymodem_CheckCRC.
  rewrite Hsize, Hpd. unfold YM_PACKET_OVERHEAD, YM_PACKET_HEADER, YM_PACKET_TRAILER.
  replace (Z.of_nat (length payload) + (3 + 2) - 1)
    with (Z.of_nat (3 + length payload + 1)) by lia.
  replace (Z.of_nat (length payload) + (3 + 2) - 2)
    with (Z.of_nat (3 + length payload + 0)) by lia.
  rewrite (load_nat _ (3 + length payload + 1) c2).
  2:{ rewrite lookup_app_r by lia. rewrite lookup_app_r by lia.
      replace (3 + length payload + 1 - length pre - length payload)%nat
        with 1%nat by lia. reflexivity. }
  rewrite (load_nat _ (3 + length payload + 0) c1).
  2:{ rewrite lookup_app_r by lia. rewrite lookup_app_r by lia.
      replace (3 + length payload + 0 - length pre - length payload)%nat
        with 0%nat by lia. reflexivity. }
  cbn [mbind res_bind].
  change 3 with (Z.of_nat 3). rewrite load_range_nat
    by (rewrite !length_app; simpl; lia).
  cbn [mbind res_bind].
  rewrite <- Hpre, drop_app_length, take_app_length.
  rewrite crc_trailer_eqb by (try apply crc16_range; assumption).
  destruct (bool_decide _); reflexivity.
Qed.

(** * The decimal parser and the copy loops of the first packet *)

Lemma c_string_app (name rest : list Z) :
  Forall (fun c => c <> 0) name -> c_string (name ++ 0 :: rest) = name.
Proof.
  induction 1 as [|c name Hc _ IH]; simpl; [reflexivity|].
  destruct (Z.eqb_spec c 0); [contradiction|]. rewrite IH. reflexivity.
Qed.

Lemma c_string_nonzero (l : list Z) : Forall (fun c => c <> 0) (c_string l).
Proof.
  induction l as [|c l IH]; simpl; [constructor|].
  destruct (Z.eqb_spec c 0); [constructor|]. constructor; assumption.
Qed.

Lemma c_string_length (l : list Z) : (length (c_string l) <= length l)%nat.
Proof.
  induction l as [|c l IH]; simpl; [lia|]. destruct (c =? 0); simpl; lia.
Qed.

Lemma ISVALIDDEC_spec (c : Z) : ISVALIDDEC c = true <-> is_digit c.
Proof.
  unfold ISVALIDDEC, is_digit. rewrite andb_true_iff, !Z.leb_le. tauto.
Qed.

Lemma forallb_ISVALIDDEC (ds : list Z) :
  forallb ISVALIDDEC ds = true <-> Forall is_digit ds.
Proof.
  induction ds as [|c ds IH]; simpl.
  - split; [constructor|reflexivity].
  - rewrite andb_true_iff, IH, ISVALIDDEC_spec. split.
    + intros [? ?]. constructor; assumption.
    + inversion 1; subst. split; assumption.
Qed.

Lemma drop_lookup_cons (s : list Z) (i : nat) :
  (i < length s)%nat -> exists c, s !! i = Some c /\ drop i s = c :: drop (S i) s.
Proof.
  intros Hi. destruct (lookup_lt_is_Some_2 s i Hi) as [c Hc].
  exists c. split; [exact Hc|]. apply drop_S, Hc.
Qed.

Lemma Str2Int_loop_spec (n : nat) (s : list Z) : forall (i : nat) (val intnum : Z),
  (i + n <= length s)%nat ->
  Str2Int_loop n s (Z.of_nat i) val intnum =
  Ret (if forallb ISVALIDDEC (c_string (drop i s))
          && (length (c_string (drop i s)) <? n)%nat
       then (1, fold_left (fun v c => u32 (v * 10 + CONVERTDEC c))
                  (c_string (drop i s)) val)
       else (0, intnum)).
Proof.
  induction n as [|n IH]; intros i val intnum Hlen.
  - simpl. rewrite andb_false_r. reflexivity.
  - destruct (drop_lookup_cons s i ltac:(lia)) as (c & Hc & Hdrop).
    cbn [Str2Int_loop]. rewrite (load_nat _ _ _ Hc). cbn [mbind res_bind].
    rewrite Hdrop. cbn [c_string].
    destruct (c =? 0); [reflexivity|].
    cbn [forallb length fold_left].
    destruct (ISVALIDDEC c); [|reflexivity].
    replace (Z.of_nat i + 1) with (Z.of_nat (S i)) by lia.
    rewrite IH by lia. reflexivity.
Qed.

Lemma u32_decimal_step (v c : Z) :
  u32 (u32 v * 10 + (c - 48)) = u32 (v * 10 + (c - 48)).
Proof. unfold u32. div_lia. Qed.

Lemma fold_u32_decimal (ds : list Z) : forall v,
  fold_left (fun v c => u32 (v * 10 + CONVERTDEC c)) ds (u32 v) =
  u32 (fold_left (fun v c => v * 10 + (c - 48)) ds v).
Proof.
  induction ds as [|c ds IH]; intros v; [reflexivity|].
  cbn [fold_left]. unfold CONVERTDEC at 2. rewrite u32_decimal_step. apply IH.
Qed.

(** [Str2Int] on an array of at least eleven elements: it succeeds exactly
    when the C string in it has at most ten characters, all of them decimal
    digits, and then stores the number they denote, reduced to 32 bits;
    otherwise [*intnum] keeps its value. *)
Lemma Str2Int_spec (s : list Z) (intnum : Z) :
  (11 <= length s)%nat ->
  Str2Int s intnum =
  Ret (if forallb ISVALIDDEC (c_string s) && (length (c_string s) <=? 10)%nat
       then (1, u32 (decimal (c_string s)))
       else (0, intnum)).
Proof.
  intros Hlen. unfold Str2Int. change 0 with (Z.of_nat 0) at 1.
  rewrite Str2Int_loop_spec by lia. rewrite drop_0.
  unfold decimal. rewrite <- fold_u32_decimal. reflexivity.
Qed.

(** [write_at] from the front. *)
Lemma write_at_cons (i : nat) (c : Z) (bs a : list Z) :
  (i < length a)%nat ->
  write_at (S i) bs (<[i := c]> a) = write_at i (c :: bs) a.
Proof.
  intros Hi. unfold write_at.
  rewrite (insert_take_drop a i c Hi).
  rewrite take_app_ge by (rewrite length_take; lia).
  rewrite length_take. replace (S i - i `min` length a)%nat with 1%nat by lia.
  rewrite drop_app_ge by (rewrite length_take; lia).
  rewrite length_take.
  replace (S i + length bs - i `min` length a)%nat with (S (length bs)) by lia.
  simpl. rewrite take_0, drop_drop. rewrite <- app_assoc. simpl.
  replace (i + S (length bs))%nat with (S (i + length bs)) by lia. reflexivity.
Qed.

(** The copy loop on a source that holds [body], free of the stop byte,
    from [filePtr] on, and then either the stop byte or nothing the loop can
    still read. *)
Lemma copy_until_spec (stop : Z) (src : list Z) (body : list Z) :
  forall (n p i : nat) (dst rest : list Z),
  drop p src = body ++ rest ->
  Forall (fun c => c <> stop) body ->
  (length body = n \/
   (length body < n)%nat /\ exists rest', rest = stop :: rest') ->
  (i + length body <= length dst)%nat ->
  copy_until n stop src (Z.of_nat p) dst (Z.of_nat i) =
  Ret (write_at i body dst, Z.of_nat (i + length body), Z.of_nat (p + length body)).
Proof.
  induction body as [|c body IH]; intros n p i dst rest Hdrop Hall Hn Hdst.
  - rewrite write_at_nil, !Nat.add_0_r. simpl in Hdrop.
    destruct Hn as [<-|[Hlt [rest' ->]]]; [reflexivity|].
    destruct n as [|n]; [simpl in Hlt; lia|]. cbn [copy_until].
    assert (Hp : src !! p = Some stop).
    { rewrite <- (Nat.add_0_r p), <- lookup_drop, Hdrop. reflexivity. }
    rewrite (load_nat _ _ _ Hp). cbn [mbind res_bind].
    rewrite Z.eqb_refl. reflexivity.
  - inversion Hall as [|? ? Hc Hall']; subst.
    destruct n as [|n]; [simpl in Hn; destruct Hn as [?|[? _]]; lia|].
    cbn [copy_until].
    assert (Hp : src !! p = Some c).
    { rewrite <- (Nat.add_0_r p), <- lookup_drop, Hdrop. reflexivity. }
    rewrite (load_nat _ _ _ Hp). cbn [mbind res_bind].
    destruct (Z.eqb_spec c stop); [contradiction|].
    simpl in Hdst. rewrite store_nat by lia. cbn [mbind res_bind].
    replace (Z.of_nat p + 1) with (Z.of_nat (S p)) by lia.
    replace (Z.of_nat i + 1) with (Z.of_nat (S i)) by lia.
    rewrite (IH n (S p) (S i) _ rest).
    + rewrite write_at_cons by lia. simpl. do 3 f_equal; lia.
    + replace (S p) with (p + 1)%nat by lia.
      rewrite <- drop_drop, Hdrop. reflexivity.
    + exact Hall'.
    + simpl in Hn. destruct Hn as [Hn|[Hn Hr]]; [left; lia|right; split; [lia|exact Hr]].
    + rewrite length_insert. lia.
Qed.

(** * The byte framer *)

Lemma set_initialized_id (y : ymodem_t) :
  initialized y = YM_INSTANCE_INIT_MASK ->
  set_initialized YM_INSTANCE_INIT_MASK y = y.
Proof. destruct y; simpl. intros ->. reflexivity. Qed.

Section Framer.

Context {Sink : Type}.
Variable cb : Sink -> ymodem_file_cb_e -> option (list Z) -> Z -> ymodem_err_e * Sink.

Lemma receive_bytes_app (bs1 bs2 : list Z) : forall (y : ymodem_t) (w : world Sink),
  receive_bytes cb y w (bs1 ++ bs2) =
  '(rs1, y1, w1) ← receive_bytes cb y w bs1;
  '(rs2, y2, w2) ← receive_bytes cb y1 w1 bs2;
  Ret (rs1 ++ rs2, y2, w2).
Proof.
  induction bs1 as [|c bs1 IH]; intros y w.
  - simpl. destruct (receive_bytes cb y w bs2) as [[[rs y'] w']|e]; reflexivity.
  - cbn [receive_bytes app].
    destruct (ymodem_ReceiveByte cb y w c) as [[[r y1] w1]|e]; [|reflexivity].
    cbn [mbind res_bind]. rewrite IH.
    destruct (receive_bytes cb y1 w1 bs1) as [[[rs1 y2] w2]|e]; [|reflexivity].
    cbn [mbind res_bind].
    destruct (receive_bytes cb y2 w2 bs2) as [[[rs2 y3] w3]|e]; reflexivity.
Qed.

Lemma receive_bytes_cons (c : Z) (bs : list Z) (y : ymodem_t) (w : world Sink) :
  receive_bytes cb y w (c :: bs) =
  '(r, y1, w1) ← ymodem_ReceiveByte cb y w c;
  '(rs, y2, w2) ← receive_bytes cb y1 w1 bs;
  Ret (r :: rs, y2, w2).
Proof. reflexivity. Qed.

(** A sticky status: the byte is not looked at. *)
Lemma ymodem_ReceiveByte_sticky (y : ymodem_t) (w : world Sink) (c : Z) :
  nextStatus y <> YMODEM_OK ->
  ymodem_ReceiveByte cb y w c =
  Ret (nextStatus y, set_initialized YM_INSTANCE_INIT_MASK y, w).
Proof.
  intros H. unfold ymodem_ReceiveByte, assert_initialized. destruct y; simpl in *.
  destruct (decide _); [reflexivity|contradiction].
Qed.

(** With the nominal status the byte goes through the framer. *)
Lemma ymodem_ReceiveByte_nominal (y : ymodem_t) (w : world Sink) (c : Z) :
  nextStatus y = YMODEM_OK ->
  ymodem_ReceiveByte cb y w c =
  '(ret, y1, w1) ← receive_step cb (set_initialized YM_INSTANCE_INIT_MASK y) w c;
  respond cb y1 w1 c ret.
Proof.
  intros H. unfold ymodem_ReceiveByte, assert_initialized. destruct y; simpl in *.
  subst. reflexivity.
Qed.

Lemma payload_size_range (hd : Z) : 128 <= payload_size hd <= 1024.
Proof.
  unfold payload_size, YM_PACKET_SIZE, YM_PACKET_1K_SIZE. destruct (hd =? SOH); lia.
Qed.

Lemma receive_header (y : ymodem_t) (w : world Sink) (hd : Z) :
  awaiting_header y -> hd = SOH \/ hd = STX ->
  ymodem_ReceiveByte cb y w hd = Ret (YMODEM_OK, assembling y hd [], w).
Proof.
  intros (Hs & Hp & Hb) Hhd. rewrite ymodem_ReceiveByte_nominal by exact Hs.
  unfold assembling. rewrite write_at_nil.
  destruct y; simpl in *; subst.
  destruct Hhd as [-> | ->]; reflexivity.
Qed.

Lemma receive_body (y : ymodem_t) (w : world Sink) (hd : Z) (bs : list Z) (c : Z) :
  wf_ymodem y ->
  Z.of_nat (length bs) + 1 < payload_size hd + 4 ->
  ymodem_ReceiveByte cb (assembling y hd bs) w c =
  Ret (YMODEM_OK, assembling y hd (bs ++ [c]), w).
Proof.
  intros (_ & _ & Hpd & _) Hlen. pose proof (payload_size_range hd) as Hsz.
  rewrite ymodem_ReceiveByte_nominal by reflexivity.
  unfold YM_PACKET_1K_OVRHD_SIZE, YM_PACKET_1K_SIZE, YM_PACKET_OVERHEAD,
    YM_PACKET_HEADER, YM_PACKET_TRAILER in Hpd.
  unfold receive_step, store_packet_byte, assembling. cbn -[write_at Z.of_nat].
  unfold YM_PACKET_OVERHEAD, YM_PACKET_HEADER, YM_PACKET_TRAILER.
  destruct (Z.ltb_spec (Z.of_nat (S (length bs))) (payload_size hd + (3 + 2) - 1))
    as [_|Hge]; [|lia].
  rewrite store_nat by (rewrite length_write_at; simpl; lia).
  change (S (length bs)) with (1 + length bs)%nat.
  rewrite write_at_snoc by lia.
  cbn -[write_at Z.of_nat]. unfold respond, GenerateResponse.
  cbn -[write_at Z.of_nat].
  rewrite List.last_last, length_app. cbn -[write_at Z.of_nat].
  unfold u16. rewrite Z.mod_small by lia.
  replace (Z.of_nat (S (length bs)) + 1) with (Z.of_nat (S (length bs + 1))) by lia.
  reflexivity.
Qed.

Lemma receive_bytes_body (y : ymodem_t) (hd : Z) (cs : list Z) :
  forall (w : world Sink) (bs : list Z),
  wf_ymodem y ->
  Z.of_nat (length bs) + Z.of_nat (length cs) < payload_size hd + 4 ->
  receive_bytes cb (assembling y hd bs) w cs =
  Ret (replicate (length cs) YMODEM_OK, assembling y hd (bs ++ cs), w).
Proof.
  induction cs as [|c cs IH]; intros w bs Hwf Hlen.
  - rewrite app_nil_r. reflexivity.
  - cbn [receive_bytes]. cbn [length] in Hlen.
    rewrite receive_body by (try exact Hwf; lia). cbn [mbind res_bind].
    rewrite IH by (try exact Hwf; rewrite length_app; simpl; lia).
    cbn [mbind res_bind]. rewrite <- app_assoc. reflexivity.
Qed.

Lemma wf_packetData (y : ymodem_t) : wf_ymodem y -> length (packetData y) = 1029%nat.
Proof. intros (_ & _ & H & _). exact H. Qed.

Lemma store_packet_byte_assembling (y : ymodem_t) (hd : Z) (bs : list Z) (c : Z) :
  wf_ymodem y -> (length bs < 1028)%nat ->
  store_packet_byte (assembling y hd bs) c = Ret (assembled y hd bs c).
Proof.
  intros Hwf Hlen. pose proof (wf_packetData y Hwf) as Hpd.
  unfold store_packet_byte, assembled.
  replace (packetData (assembling y hd bs)) with (write_at 1 bs (packetData y))
    by reflexivity.
  replace (packetBytes (assembling y hd bs)) with (Z.of_nat (1 + length bs))
    by reflexivity.
  rewrite store_nat by (rewrite length_write_at; lia).
  rewrite write_at_snoc by lia.
  unfold u16. rewrite Z.mod_small by lia.
  replace (Z.of_nat (1 + length bs) + 1) with (Z.of_nat (2 + length bs)) by lia.
  reflexivity.
Qed.

(** The last byte of a packet, for any session that is collecting one. *)
Lemma receive_step_last (y y' : ymodem_t) (w : world Sink) (c sq comp : Z) :
  startOfPacket y = 0 ->
  packetSize y + 4 <= packetBytes y ->
  store_packet_byte y c = Ret y' ->
  load (packetData y') 1 = Ret sq ->
  load (packetData y') 2 = Ret comp ->
  receive_step cb y w c =
  if negb (sq =? Z.land (Z.lxor comp 0xFF) 0xFF)
  then Ret (YM_RX_ERROR, rearmed y', w)
  else '(ret, y1, w1) ← ymodem_ProcessPacket cb y' w;
       Ret (ret, rearmed y1, w1).
Proof.
  intros Hs Hb Hst H1 H2. unfold receive_step.
  rewrite Hs, Hst. cbn [Z.eqb negb mbind res_bind].
  unfold YM_PACKET_OVERHEAD, YM_PACKET_HEADER, YM_PACKET_TRAILER,
    YM_PACKET_SEQNO_INDEX, YM_PACKET_SEQNO_COMP_INDEX.
  destruct (Z.ltb_spec (packetBytes y) (packetSize y + (3 + 2) - 1)) as [Hlt|_];
    [lia|].
  rewrite H1. cbn [mbind res_bind]. rewrite H2. cbn [mbind res_bind].
  destruct (negb _); [reflexivity|].
  destruct (ymodem_ProcessPacket cb y' w) as [[[ret y1] w1]|e]; reflexivity.
Qed.

Lemma lookup_assembled (y : ymodem_t) (hd : Z) (bs : list Z) (c : Z) (j : nat) (v : Z) :
  wf_ymodem y -> (length bs < 1028)%nat -> (bs ++ [c]) !! j = Some v ->
  load (packetData (assembled y hd bs c)) (Z.of_nat (1 + j)) = Ret v.
Proof.
  intros Hwf Hlen Hj. pose proof (wf_packetData y Hwf) as Hpd.
  apply load_nat.
  replace (packetData (assembled y hd bs c))
    with (write_at 1 (bs ++ [c]) (packetData y)) by reflexivity.
  rewrite lookup_write_at_in; [exact Hj|lia|].
  apply lookup_lt_Some in Hj. exact Hj.
Qed.

Lemma receive_last (y : ymodem_t) (w : world Sink) (hd sq comp : Z)
    (bs : list Z) (c : Z) :
  wf_ymodem y ->
  Z.of_nat (length bs) = payload_size hd + 1 ->
  ymodem_ReceiveByte cb (assembling y hd (sq :: comp :: bs)) w c =
  if negb (sq =? Z.land (Z.lxor comp 0xFF) 0xFF)
  then respond cb (rearmed (assembled y hd (sq :: comp :: bs) c)) w c YM_RX_ERROR
  else '(ret, y1, w1) ←
         ymodem_ProcessPacket cb (assembled y hd (sq :: comp :: bs) c) w;
       respond cb (rearmed y1) w1 c ret.
Proof.
  intros Hwf Hlen. pose proof (payload_size_range hd) as Hsz.
  rewrite ymodem_ReceiveByte_nominal by reflexivity.
  rewrite set_initialized_id by reflexivity.
  rewrite (receive_step_last _ (assembled y hd (sq :: comp :: bs) c) w c sq comp).
  - destruct (negb _); [reflexivity|].
    destruct (ymodem_ProcessPacket cb _ w) as [[[ret y1] w1]|e]; reflexivity.
  - reflexivity.
  - replace (packetSize (assembling y hd (sq :: comp :: bs))) with (payload_size hd)
      by reflexivity.
    replace (packetBytes (assembling y hd (sq :: comp :: bs)))
      with (Z.of_nat (1 + length (sq :: comp :: bs))) by reflexivity.
    cbn [length]. lia.
  - apply store_packet_byte_assembling; [exact Hwf|]. cbn [length]. lia.
  - apply (lookup_assembled y hd (sq :: comp :: bs) c 0 sq Hwf);
      [cbn [length]; lia|reflexivity].
  - apply (lookup_assembled y hd (sq :: comp :: bs) c 1 comp Hwf);
      [cbn [length]; lia|reflexivity].
Qed.

(** A whole packet handed to a session that awaits a header: every byte
    but the last is answered [YMODEM_OK] with nothing sent, and the last one
    has the packet checked and processed. *)
Lemma receive_packet (y : ymodem_t) (w : world Sink) (hd sq comp : Z)
    (payload : list Z) (c1 c2 : Z) :
  awaiting_header y -> wf_ymodem y -> framed hd payload ->
  receive_bytes cb y w (packet hd sq comp payload c1 c2) =
  '(g, y2, w2) ←
    (if negb (sq =? Z.land (Z.lxor comp 0xFF) 0xFF)
     then respond cb
            (rearmed (assembled y hd (sq :: comp :: payload ++ [c1]) c2))
            w c2 YM_RX_ERROR
     else '(ret, y1, w1) ←
            ymodem_ProcessPacket cb
              (assembled y hd (sq :: comp :: payload ++ [c1]) c2) w;
          respond cb (rearmed y1) w1 c2 ret);
  Ret (replicate (length payload + 4) YMODEM_OK ++ [g], y2, w2).
Proof.
  intros Hah Hwf [Hhd Hlen]. unfold packet.
  replace (sq :: comp :: payload ++ [c1; c2])
    with ((sq :: comp :: payload ++ [c1]) ++ [c2])
    by (simpl; rewrite <- app_assoc; reflexivity).
  rewrite receive_bytes_cons.
  rewrite receive_header by assumption. cbn [mbind res_bind].
  rewrite receive_bytes_app.
  change (assembling y hd []) with (assembling y hd ([] ++ [])).
  rewrite receive_bytes_body
    by (try exact Hwf; simpl; rewrite length_app; simpl; lia).
  cbn [mbind res_bind app receive_bytes].
  rewrite (receive_last y w hd sq comp (payload ++ [c1]) c2 Hwf)
    by (rewrite length_app; simpl; lia).
  match goal with |- context [if ?b then ?x else ?z] =>
    destruct (if b then x else z) as [[[g y2] w2]|e] end; [|reflexivity].
  cbn [mbind res_bind].
  replace (length payload + 4)%nat
    with (S (length (sq :: comp :: payload ++ [c1])))
    by (cbn [length]; rewrite length_app; simpl; lia).
  reflexivity.
Qed.

End Framer.

(** * Processing an assembled packet *)

Lemma packetData_assembled (y : ymodem_t) (hd sq comp : Z) (payload : list Z)
    (c1 c2 : Z) :
  packetData (assembled y hd (sq :: comp :: payload ++ [c1]) c2) =
  (take 1 (packetData y) ++ [sq; comp]) ++ payload ++ [c1; c2] ++
  drop (5 + length payload) (packetData y).
Proof.
  unfold assembled, assembling, write_at. cbn [packetData set_packetData].
  rewrite <- !app_assoc. cbn [app]. f_equal. f_equal. f_equal.
  rewrite <- !app_assoc. cbn [app]. do 3 f_equal.
  f_equal. cbn [length]. rewrite !length_app. cbn [length]. lia.
Qed.

Lemma drop_3_assembled (y : ymodem_t) (hd sq comp : Z) (payload : list Z)
    (c1 c2 : Z) :
  wf_ymodem y ->
  drop 3 (packetData (assembled y hd (sq :: comp :: payload ++ [c1]) c2)) =
  data_view y payload c1 c2.
Proof.
  intros Hwf. rewrite packetData_assembled.
  rewrite drop_app_length'; [reflexivity|].
  rewrite length_app, length_take, (wf_packetData y Hwf). reflexivity.
Qed.

Lemma ymodem_CheckCRC_assembled (y : ymodem_t) (hd sq comp : Z)
    (payload : list Z) (c1 c2 : Z) :
  wf_ymodem y -> Z.of_nat (length payload) = payload_size hd ->
  is_byte c1 -> is_byte c2 ->
  ymodem_CheckCRC (assembled y hd (sq :: comp :: payload ++ [c1]) c2) =
  Ret (if bool_decide (c1 = Z.shiftr (crc16 payload) 8 /\
                       c2 = Z.land (crc16 payload) 0xFF)
       then YM_OK else YM_RX_ERROR).
Proof.
  intros Hwf Hlen H1 H2.
  apply (ymodem_CheckCRC_spec _ (take 1 (packetData y) ++ [sq; comp]) payload
           (drop (5 + length payload) (packetData y)) c1 c2).
  - apply packetData_assembled.
  - rewrite length_app, length_take, (wf_packetData y Hwf). reflexivity.
  - symmetry. exact Hlen.
  - exact H1.
  - exact H2.
Qed.

Section Process.

Context {Sink : Type}.
Variable cb : Sink -> ymodem_file_cb_e -> option (list Z) -> Z -> ymodem_err_e * Sink.

(** After an end-of-transmission byte the packet is not looked at. *)
Lemma ymodem_ProcessPacket_eot (y : ymodem_t) (w : world Sink) :
  eotReceived y = 1 ->
  ymodem_ProcessPacket cb y w =
  Ret (YM_SUCCESS, y, snd (call_FileCallback cb w YMODEM_FILE_CB_END None 0)).
Proof.
  intros H. unfold ymodem_ProcessPacket. rewrite H. cbn [Z.eqb Pos.eqb].
  destruct (call_FileCallback cb w YMODEM_FILE_CB_END None 0). reflexivity.
Qed.

(** Otherwise the sequence number is checked, then the checksum, and the
    packet goes to the metadata parser or to the data sink. *)
Lemma ymodem_ProcessPacket_assembled (y : ymodem_t) (w : world Sink)
    (hd sq comp : Z) (payload : list Z) (c1 c2 : Z) :
  wf_ymodem y -> Z.of_nat (length payload) = payload_size hd ->
  is_byte c1 -> is_byte c2 ->
  eotReceived y <> 1 ->
  ymodem_ProcessPacket cb (assembled y hd (sq :: comp :: payload ++ [c1]) c2) w =
  if negb (Z.land sq 0xFF =? expected_sequence y) then
    Ret (YM_RX_ERROR, assembled y hd (sq :: comp :: payload ++ [c1]) c2, w)
  else if bool_decide (c1 = Z.shiftr (crc16 payload) 8 /\
                       c2 = Z.land (crc16 payload) 0xFF) then
    if packetsReceived y =? 0
    then ymodem_ProcessFirstPacket cb
           (assembled y hd (sq :: comp :: payload ++ [c1]) c2) w
    else Ret (ymodem_ProcessDataPacket cb
                (assembled y hd (sq :: comp :: payload ++ [c1]) c2) w)
  else Ret (YM_RX_ERROR, assembled y hd (sq :: comp :: payload ++ [c1]) c2, w).
Proof.
  intros Hwf Hlen H1 H2 Heot. unfold ymodem_ProcessPacket.
  replace (eotReceived (assembled y hd (sq :: comp :: payload ++ [c1]) c2))
    with (eotReceived y) by reflexivity.
  replace (packetsReceived (assembled y hd (sq :: comp :: payload ++ [c1]) c2))
    with (packetsReceived y) by reflexivity.
  destruct (Z.eqb_spec (eotReceived y) 1) as [|_]; [contradiction|].
  unfold YM_PACKET_SEQNO_INDEX.
  assert (Hsq : load (packetData (assembled y hd (sq :: comp :: payload ++ [c1]) c2)) 1
                = Ret sq).
  { apply (lookup_assembled y hd (sq :: comp :: payload ++ [c1]) c2 0 sq Hwf);
      [|reflexivity].
    pose proof (payload_size_range hd). cbn [length]. rewrite length_app.
    cbn [length]. lia. }
  rewrite Hsq.
  cbn [mbind res_bind]. unfold expected_sequence.
  destruct (negb _); [reflexivity|].
  rewrite ymodem_CheckCRC_assembled by assumption. cbn [mbind res_bind].
  destruct (bool_decide _).
  - destruct (decide (YM_OK <> YM_OK)); [contradiction|reflexivity].
  - destruct (decide (YM_RX_ERROR <> YM_OK)); [reflexivity|].
    exfalso. auto.
Qed.

Lemma ymodem_ProcessDataPacket_assembled (y : ymodem_t) (w : world Sink)
    (hd sq comp : Z) (payload : list Z) (c1 c2 : Z) :
  wf_ymodem y ->
  ymodem_ProcessDataPacket cb
    (assembled y hd (sq :: comp :: payload ++ [c1]) c2) w =
  let r := call_FileCallback cb w YMODEM_FILE_CB_DATA
             (Some (data_view y payload c1 c2)) (payload_size hd) in
  (if decide (fst r = YMODEM_OK) then YM_RX_OK else YM_WRITE_ERR,
   set_packetsReceived (s32 (packetsReceived y + 1))
     (assembled y hd (sq :: comp :: payload ++ [c1]) c2),
   snd r).
Proof.
  intros Hwf. unfold ymodem_ProcessDataPacket.
  change (Z.to_nat YM_PACKET_HEADER) with 3%nat.
  rewrite drop_3_assembled by exact Hwf.
  replace (packetSize (assembled y hd (sq :: comp :: payload ++ [c1]) c2))
    with (payload_size hd) by reflexivity.
  replace (packetsReceived (assembled y hd (sq :: comp :: payload ++ [c1]) c2))
    with (packetsReceived y) by reflexivity.
  destruct (call_FileCallback cb w YMODEM_FILE_CB_DATA _ _) as [err w'].
  reflexivity.
Qed.

Lemma c_string_app_nul (sz rest : list Z) :
  c_string (sz ++ 0 :: rest) = c_string sz.
Proof.
  induction sz as [|c sz IH]; simpl; [reflexivity|].
  destruct (c =? 0); [reflexivity|]. rewrite IH. reflexivity.
Qed.

Lemma wf_fileName (y : ymodem_t) : wf_ymodem y -> length (fileName y) = 256%nat.
Proof. intros (H & _). exact H. Qed.

Lemma wf_fileSizeStr (y : ymodem_t) : wf_ymodem y -> length (fileSizeStr y) = 16%nat.
Proof. intros (_ & H & _). exact H. Qed.

Lemma wf_payloadTx (y : ymodem_t) : wf_ymodem y -> length (payloadTx y) = 5%nat.
Proof. intros (_ & _ & _ & H). exact H. Qed.

(** A first packet that is not the empty one, whose payload holds a file
    name of fewer than 256 bytes, a NUL, and fewer than 16 bytes up to a
    space. *)
Lemma ymodem_ProcessFirstPacket_spec (y : ymodem_t) (w : world Sink)
    (name sz tail : list Z) :
  wf_ymodem y ->
  drop 3 (packetData y) = name ++ 0 :: sz ++ 32 :: tail ->
  name <> [] -> Forall (fun c => c <> 0) name -> (length name < 256)%nat ->
  Forall (fun c => c <> 32) sz -> (length sz < 16)%nat ->
  ymodem_ProcessFirstPacket cb y w =
  let fn := write_at 0 (name ++ [0]) (fileName y) in
  let fs := write_at 0 (sz ++ [0]) (fileSizeStr y) in
  let size := parsed_size sz (fileSize y) in
  let r := call_FileCallback cb w YMODEM_FILE_CB_NAME (Some fn) size in
  Ret (if decide (fst r = YMODEM_OK) then YM_START_RX else YM_SIZE_ERR,
       set_packetsReceived (s32 (packetsReceived y + 1))
         (set_fileSize size (set_fileSizeStr fs (set_fileName fn y))),
       snd r).
Proof.
  intros Hwf Hdrop Hne Hname Hnlen Hsz Hslen.
  pose proof (wf_fileName y Hwf) as Hfn.
  pose proof (wf_fileSizeStr y Hwf) as Hfs.
  destruct name as [|b name']; [contradiction|]. set (name := b :: name') in *.
  assert (Hb : b <> 0) by (inversion Hname; assumption).
  assert (H3 : load (packetData y) 3 = Ret b).
  { apply (load_nat _ 3). rewrite <- (Nat.add_0_r 3), <- lookup_drop, Hdrop.
    reflexivity. }
  assert (Hc1 : copy_until 256 0 (packetData y) 3 (fileName y) 0 =
                Ret (write_at 0 name (fileName y),
                     Z.of_nat (0 + length name), Z.of_nat (3 + length name))).
  { apply (copy_until_spec 0 (packetData y) name 256 3 0 (fileName y)
             (0 :: sz ++ 32 :: tail)); [exact Hdrop|exact Hname| |lia].
    right. split; [lia|]. eexists. reflexivity. }
  assert (Hc2 : copy_until 16 32 (packetData y)
                  (Z.of_nat (3 + length name) + 1) (fileSizeStr y) 0 =
                Ret (write_at 0 sz (fileSizeStr y),
                     Z.of_nat (0 + length sz),
                     Z.of_nat (3 + length name + 1 + length sz))).
  { replace (Z.of_nat (3 + length name) + 1)
      with (Z.of_nat (3 + length name + 1)) by lia.
    apply (copy_until_spec 32 (packetData y) sz 16 (3 + length name + 1) 0
             (fileSizeStr y) (32 :: tail)); [|exact Hsz| |lia].
    - replace (3 + length name + 1)%nat with (3 + (length name + 1))%nat by lia.
      rewrite <- drop_drop, Hdrop.
      replace (name ++ 0 :: sz ++ 32 :: tail)
        with ((name ++ [0]) ++ sz ++ 32 :: tail)
        by (rewrite <- app_assoc; reflexivity).
      rewrite drop_app_length'; [reflexivity|].
      rewrite length_app. reflexivity.
    - right. split; [lia|]. eexists. reflexivity. }
  unfold ymodem_ProcessFirstPacket.
  change YM_PACKET_HEADER with 3.
  change (Z.to_nat YM_FILE_NAME_LENGTH) with 256%nat.
  change (Z.to_nat YM_FILE_SIZE_LENGTH) with 16%nat.
  rewrite H3. cbn [mbind res_bind].
  destruct (Z.eqb_spec b 0) as [|_]; [contradiction|]. cbn [negb].
  rewrite Hc1. cbn [mbind res_bind].
  rewrite store_nat by (rewrite length_write_at; lia).
  rewrite write_at_snoc by lia. cbn [mbind res_bind].
  cbn [packetData set_fileName fileSizeStr].
  rewrite Hc2. cbn [mbind res_bind].
  rewrite store_nat by (rewrite length_write_at; lia).
  rewrite write_at_snoc by lia. cbn [mbind res_bind].
  cbn [fileSizeStr set_fileSizeStr fileSize set_fileName].
  rewrite Str2Int_spec by (rewrite length_write_at; rewrite ?length_app; simpl; lia).
  cbn [mbind res_bind].
  replace (c_string (write_at 0 (sz ++ [0]) (fileSizeStr y))) with (c_string sz).
  2:{ unfold write_at. rewrite take_0. cbn [app]. rewrite <- app_assoc.
      cbn [app]. symmetry. apply c_string_app_nul. }
  fold (parsed_size sz (fileSize y)).
  destruct (forallb ISVALIDDEC (c_string sz) && (length (c_string sz) <=? 10)%nat)
    eqn:Hparse.
  - unfold parsed_size. rewrite Hparse.
    cbn [fileName fileSize set_fileSize set_fileSizeStr set_fileName
         packetsReceived].
    destruct (call_FileCallback cb w YMODEM_FILE_CB_NAME _ _) as [err w'].
    reflexivity.
  - unfold parsed_size. rewrite Hparse.
    cbn [fileName fileSize set_fileSize set_fileSizeStr set_fileName
         packetsReceived].
    destruct (call_FileCallback cb w YMODEM_FILE_CB_NAME _ _) as [err w'].
    reflexivity.
Qed.

(** The empty first packet. *)
Lemma ymodem_ProcessFirstPacket_empty (y : ymodem_t) (w : world Sink) :
  load (packetData y) 3 = Ret 0 ->
  ymodem_ProcessFirstPacket cb y w = Ret (YM_ABORT, y, w).
Proof.
  intros H. unfold ymodem_ProcessFirstPacket. change YM_PACKET_HEADER with 3.
  rewrite H. reflexivity.
Qed.

End Process.

(** * Responses *)

Lemma GenerateResponse_spec (y : ymodem_t) (c : Z) (ret : ym_ret_t) :
  GenerateResponse (set_prevC c y) ret =
  Ret (if decide (ret = YM_OK) then YMODEM_OK else YMODEM_TX_PENDING,
       responded y c ret).
Proof. unfold responded. destruct ret; reflexivity. Qed.

Lemma trace_ymodem_WriteSerial {Sink : Type} (y : ymodem_t) (w : world Sink) :
  trace (ymodem_WriteSerial y w) = trace w ++ write_events y /\
  sink (ymodem_WriteSerial y w) = sink w.
Proof.
  unfold ymodem_WriteSerial, write_events.
  destruct (serialWriteFxn y); simpl; [|rewrite app_nil_r]; split; reflexivity.
Qed.

Section Respond.

Context {Sink : Type}.
Variable cb : Sink -> ymodem_file_cb_e -> option (list Z) -> Z -> ymodem_err_e * Sink.

(** Every outcome but [YM_OK] has its reply written to the serial line;
    no outcome reaches the branch that notifies the sink of an abort. *)
Lemma respond_spec (y : ymodem_t) (w : world Sink) (c : Z) (ret : ym_ret_t) :
  respond cb y w c ret =
  if decide (ret = YM_OK)
  then Ret (YMODEM_OK, responded y c ret, w)
  else Ret (YMODEM_TX_PENDING, responded y c ret,
            ymodem_WriteSerial (responded y c ret) w).
Proof.
  unfold respond. rewrite GenerateResponse_spec. cbn [mbind res_bind].
  destruct (decide (ret = YM_OK)); reflexivity.
Qed.

End Respond.

(** The fields [responded] leaves alone. *)
Lemma responded_fields (y : ymodem_t) (c : Z) (ret : ym_ret_t) :
  prevC (responded y c ret) = c /\
  initialized (responded y c ret) =
    (if decide (ret = YM_ABORT \/ ret = YM_WRITE_ERR \/ ret = YM_SIZE_ERR)
     then YM_INSTANCE_INIT_MASK else initialized y) /\
  fileName (responded y c ret) = fileName y /\
  fileSizeStr (responded y c ret) = fileSizeStr y /\
  packetData (responded y c ret) = packetData y /\
  fileSize (responded y c ret) = fileSize y /\
  startOfPacket (responded y c ret) = startOfPacket y /\
  eotReceived (responded y c ret) = eotReceived y /\
  packetBytes (responded y c ret) = packetBytes y /\
  packetSize (responded y c ret) = packetSize y /\
  serialWriteFxn (responded y c ret) = serialWriteFxn y /\
  length (payloadTx (responded y c ret)) = length (payloadTx y).
Proof.
  destruct ret; unfold responded; cbn; rewrite ?length_insert; repeat split.
Qed.

Lemma take_insert_1 (tx : list Z) (a : Z) :
  (1 <= length tx)%nat -> take 1 (<[0%nat := a]> tx) = [a].
Proof. destruct tx; simpl; [lia|]. intros _. rewrite take_0. reflexivity. Qed.

Lemma take_insert_2 (tx : list Z) (a b : Z) :
  (2 <= length tx)%nat ->
  take 2 (<[1%nat := b]> (<[0%nat := a]> tx)) = [a; b].
Proof.
  destruct tx as [|x [|x' tx]]; simpl; try lia. intros _.
  rewrite take_0. reflexivity.
Qed.

(** The reply and the status each outcome leaves. *)
Lemma responded_reply (y : ymodem_t) (c : Z) (ret : ym_ret_t) :
  (2 <= length (payloadTx y))%nat ->
  reply (responded y c ret) =
    match ret with
    | YM_OK => []
    | YM_ABORTED => [CRC16]
    | YM_ABORT | YM_WRITE_ERR | YM_SIZE_ERR => [CA; CA]
    | YM_START_RX | YM_RX_COMPLETE => [ACK; CRC16]
    | YM_RX_ERROR => [NAK]
    | YM_RX_OK | YM_SUCCESS => [ACK]
    end.
Proof.
  intros Hlen. unfold reply, responded.
  destruct ret; cbn -[take];
    try (apply take_insert_1; lia); try (apply take_insert_2; lia).
  apply take_0.
Qed.

Lemma responded_nextStatus (y : ymodem_t) (c : Z) (ret : ym_ret_t) :
  nextStatus (responded y c ret) =
    match ret with
    | YM_ABORTED | YM_ABORT => YMODEM_ABORTED
    | YM_WRITE_ERR => YMODEM_WRITE_ERR
    | YM_SIZE_ERR => YMODEM_SIZE_ERR
    | YM_SUCCESS => YMODEM_COMPLETE
    | _ => nextStatus y
    end.
Proof. destruct ret; reflexivity. Qed.

Lemma responded_packetsReceived (y : ymodem_t) (c : Z) (ret : ym_ret_t) :
  packetsReceived (responded y c ret) =
    match ret with
    | YM_ABORT | YM_WRITE_ERR | YM_SIZE_ERR => 0
    | _ => packetsReceived y
    end.
Proof. destruct ret; reflexivity. Qed.

(** * What processing a packet can change, and how a call can fail *)

Lemma bind_Ret {A B : Type} (m : res A) (f : A -> res B) (b : B) :
  m ≫= f = Ret b -> exists a, m = Ret a /\ f a = Ret b.
Proof. destruct m as [a|e]; cbn; [eauto|discriminate]. Qed.

Lemma bind_Err {A B : Type} (m : res A) (f : A -> res B) (e : fault) :
  m ≫= f = Err e -> m = Err e \/ exists a, m = Ret a /\ f a = Err e.
Proof. destruct m as [a|e']; cbn; [eauto|]. intros [= ->]. left. reflexivity. Qed.

Lemma load_Err (a : list Z) (i : Z) (e : fault) :
  load a i = Err e -> e = OutOfBounds.
Proof.
  unfold load. destruct (_ && _); [destruct (a !! Z.to_nat i)|]; congruence.
Qed.

Lemma store_Err (a : list Z) (i v : Z) (e : fault) :
  store a i v = Err e -> e = OutOfBounds.
Proof. unfold store. destruct (_ && _); congruence. Qed.

Lemma load_range_Err (a : list Z) (off size : Z) (e : fault) :
  load_range a off size = Err e -> e = OutOfBounds.
Proof. unfold load_range. destruct (_ && _); congruence. Qed.

Lemma copy_until_Err (n : nat) (stop : Z) (src : list Z) :
  forall (p : Z) (dst : list Z) (i : Z) (e : fault),
  copy_until n stop src p dst i = Err e -> e = OutOfBounds.
Proof.
  induction n as [|n IH]; intros p dst i e H; cbn [copy_until] in H; [discriminate|].
  apply bind_Err in H as [H|(c & _ & H)]; [eapply load_Err, H|].
  destruct (c =? stop); [discriminate|].
  apply bind_Err in H as [H|(dst' & _ & H)]; [eapply store_Err, H|].
  eapply IH, H.
Qed.

Lemma Str2Int_loop_Err (n : nat) (s : list Z) :
  forall (i val intnum : Z) (e : fault),
  Str2Int_loop n s i val intnum = Err e -> e = OutOfBounds.
Proof.
  induction n as [|n IH]; intros i val intnum e H; cbn [Str2Int_loop] in H;
    [discriminate|].
  apply bind_Err in H as [H|(c & _ & H)]; [eapply load_Err, H|].
  destruct (c =? 0); [discriminate|].
  destruct (ISVALIDDEC c); [|discriminate]. eapply IH, H.
Qed.

Lemma ymodem_CheckCRC_Err (y : ymodem_t) (e : fault) :
  ymodem_CheckCRC y = Err e -> e = OutOfBounds.
Proof.
  unfold ymodem_CheckCRC. intros H.
  apply bind_Err in H as [H|(b1 & _ & H)]; [eapply load_Err, H|].
  apply bind_Err in H as [H|(b2 & _ & H)]; [eapply load_Err, H|].
  apply bind_Err in H as [H|(d & _ & H)]; [eapply load_range_Err, H|].
  destruct (negb _); discriminate.
Qed.

Lemma processed_refl (y : ymodem_t) : processed y y.
Proof.
  exists (fileName y), (fileSizeStr y), (fileSize y), (packetsReceived y).
  destruct y; reflexivity.
Qed.

Section Frame.

Context {Sink : Type}.
Variable cb : Sink -> ymodem_file_cb_e -> option (list Z) -> Z -> ymodem_err_e * Sink.

Lemma ymodem_ProcessFirstPacket_Err (y : ymodem_t) (w : world Sink) (e : fault) :
  ymodem_ProcessFirstPacket cb y w = Err e -> e = OutOfBounds.
Proof.
  unfold ymodem_ProcessFirstPacket. intros H.
  apply bind_Err in H as [H|(b & _ & H)]; [eapply load_Err, H|].
  destruct (negb (b =? 0)); [|discriminate].
  apply bind_Err in H as [H|([[fn i] p] & _ & H)]; [eapply copy_until_Err, H|].
  apply bind_Err in H as [H|(fn' & _ & H)]; [eapply store_Err, H|].
  apply bind_Err in H as [H|([[fs i'] p'] & _ & H)]; [eapply copy_until_Err, H|].
  apply bind_Err in H as [H|(fs' & _ & H)]; [eapply store_Err, H|].
  apply bind_Err in H as [H|([r num] & _ & H)]; [eapply Str2Int_loop_Err, H|].
  destruct (call_FileCallback cb w YMODEM_FILE_CB_NAME _ _). discriminate.
Qed.

Lemma ymodem_ProcessFirstPacket_processed (y y1 : ymodem_t) (w w1 : world Sink)
    (ret : ym_ret_t) :
  ymodem_ProcessFirstPacket cb y w = Ret (ret, y1, w1) -> processed y y1.
Proof.
  unfold ymodem_ProcessFirstPacket. intros H.
  apply bind_Ret in H as (b & _ & H).
  destruct (negb (b =? 0)); [|injection H as _ <- _; apply processed_refl].
  apply bind_Ret in H as ([[fn i] p] & _ & H).
  apply bind_Ret in H as (fn' & _ & H).
  apply bind_Ret in H as ([[fs i'] p'] & _ & H).
  apply bind_Ret in H as (fs' & _ & H).
  apply bind_Ret in H as ([r num] & _ & H).
  destruct (call_FileCallback cb w YMODEM_FILE_CB_NAME _ _) as [err w'].
  injection H as _ <- _. eexists _, _, _, _. reflexivity.
Qed.

Lemma ymodem_ProcessPacket_Err (y : ymodem_t) (w : world Sink) (e : fault) :
  ymodem_ProcessPacket cb y w = Err e -> e = OutOfBounds.
Proof.
  unfold ymodem_ProcessPacket. intros H.
  destruct (eotReceived y =? 1).
  { destruct (call_FileCallback cb w YMODEM_FILE_CB_END None 0). discriminate. }
  apply bind_Err in H as [H|(sq & _ & H)]; [eapply load_Err, H|].
  destruct (negb _); [discriminate|].
  apply bind_Err in H as [H|(crc & _ & H)]; [eapply ymodem_CheckCRC_Err, H|].
  destruct (decide (crc <> YM_OK)); [discriminate|].
  destruct (packetsReceived y =? 0); [|discriminate].
  eapply ymodem_ProcessFirstPacket_Err, H.
Qed.

Lemma ymodem_ProcessPacket_processed (y y1 : ymodem_t) (w w1 : world Sink)
    (ret : ym_ret_t) :
  ymodem_ProcessPacket cb y w = Ret (ret, y1, w1) -> processed y y1.
Proof.
  unfold ymodem_ProcessPacket. intros H.
  destruct (eotReceived y =? 1).
  { destruct (call_FileCallback cb w YMODEM_FILE_CB_END None 0).
    injection H as _ <- _. apply processed_refl. }
  apply bind_Ret in H as (sq & _ & H).
  destruct (negb _); [injection H as _ <- _; apply processed_refl|].
  apply bind_Ret in H as (crc & _ & H).
  destruct (decide (crc <> YM_OK)); [injection H as _ <- _; apply processed_refl|].
  destruct (packetsReceived y =? 0).
  - eapply ymodem_ProcessFirstPacket_processed, H.
  - unfold ymodem_ProcessDataPacket in H.
    destruct (call_FileCallback cb w YMODEM_FILE_CB_DATA _ _) as [err w'].
    injection H as _ <- _.
    exists (fileName y), (fileSizeStr y), (fileSize y), (s32 (packetsReceived y + 1)).
    destruct y; reflexivity.
Qed.

(** The outcome [YM_OK] is never the result of processing a packet. *)
Lemma ymodem_ProcessPacket_not_OK (y y1 : ymodem_t) (w w1 : world Sink)
    (ret : ym_ret_t) :
  ymodem_ProcessPacket cb y w = Ret (ret, y1, w1) -> ret <> YM_OK.
Proof.
  unfold ymodem_ProcessPacket. intros H.
  destruct (eotReceived y =? 1).
  { destruct (call_FileCallback cb w YMODEM_FILE_CB_END None 0).
    injection H as <- _ _. discriminate. }
  apply bind_Ret in H as (sq & _ & H).
  destruct (negb _); [injection H as <- _ _; discriminate|].
  apply bind_Ret in H as (crc & _ & H).
  destruct (decide (crc <> YM_OK)); [injection H as <- _ _; discriminate|].
  destruct (packetsReceived y =? 0).
  - unfold ymodem_ProcessFirstPacket in H.
    apply bind_Ret in H as (b & _ & H).
    destruct (negb (b =? 0)); [|injection H as <- _ _; discriminate].
    apply bind_Ret in H as ([[fn i] p] & _ & H).
    apply bind_Ret in H as (fn' & _ & H).
    apply bind_Ret in H as ([[fs i'] p'] & _ & H).
    apply bind_Ret in H as (fs' & _ & H).
    apply bind_Ret in H as ([r num] & _ & H).
    destruct (call_FileCallback cb w YMODEM_FILE_CB_NAME _ _) as [err w'].
    injection H as <- _ _. destruct (decide _); discriminate.
  - unfold ymodem_ProcessDataPacket in H.
    destruct (call_FileCallback cb w YMODEM_FILE_CB_DATA _ _) as [err w'].
    injection H as <- _ _. destruct (decide _); discriminate.
Qed.

Lemma store_packet_byte_fields (y y1 : ymodem_t) (c : Z) :
  store_packet_byte y c = Ret y1 ->
  exists pd, y1 = set_packetData pd (set_packetBytes (u16 (packetBytes y + 1)) y).
Proof.
  unfold store_packet_byte. intros H. apply bind_Ret in H as (pd & _ & H).
  injection H as <-. eauto.
Qed.

Lemma receive_step_Err (y : ymodem_t) (w : world Sink) (c : Z) (e : fault) :
  receive_step cb y w c = Err e -> e = OutOfBounds.
Proof.
  unfold receive_step, store_packet_byte. intros H.
  destruct (negb (startOfPacket y =? 0)).
  { repeat match type of H with
           | (if ?b then _ else _) = _ => destruct b
           end; discriminate. }
  destruct (packetBytes y <? _).
  - apply bind_Err in H as [H|(y1 & _ & H)]; [|discriminate].
    apply bind_Err in H as [H|(pd & _ & H)]; [eapply store_Err, H|discriminate].
  - apply bind_Err in H as [H|(y1 & _ & H)].
    { apply bind_Err in H as [H|(pd & _ & H)]; [eapply store_Err, H|discriminate]. }
    apply bind_Err in H as [H|(sq & _ & H)]; [eapply load_Err, H|].
    apply bind_Err in H as [H|(comp & _ & H)]; [eapply load_Err, H|].
    destruct (negb _); [discriminate|].
    apply bind_Err in H as [H|([[ret y2] w2] & _ & H)]; [|discriminate].
    eapply ymodem_ProcessPacket_Err, H.
Qed.

(** The framer and the processing of a packet leave alone the response
    buffer, the status, the initialisation mark and the serial write
    function. *)
Lemma receive_step_fields (y y1 : ymodem_t) (w w1 : world Sink) (c : Z)
    (ret : ym_ret_t) :
  receive_step cb y w c = Ret (ret, y1, w1) ->
  initialized y1 = initialized y /\ nextStatus y1 = nextStatus y /\
  payloadTx y1 = payloadTx y /\ payloadLen y1 = payloadLen y /\
  serialWriteFxn y1 = serialWriteFxn y /\ prevC y1 = prevC y.
Proof.
  unfold receive_step. intros H.
  destruct (negb (startOfPacket y =? 0)).
  { repeat match type of H with
           | (if ?b then _ else _) = _ => destruct b
           end; injection H as _ <- _; repeat split. }
  destruct (packetBytes y <? _).
  - apply bind_Ret in H as (y2 & Hst & H). injection H as _ <- _.
    apply store_packet_byte_fields in Hst as (pd & ->). repeat split.
  - apply bind_Ret in H as (y2 & Hst & H).
    apply store_packet_byte_fields in Hst as (pd & ->).
    apply bind_Ret in H as (sq & _ & H).
    apply bind_Ret in H as (comp & _ & H).
    destruct (negb _); [injection H as _ <- _; repeat split|].
    apply bind_Ret in H as ([[ret' y3] w3] & Hp & H). injection H as _ <- _.
    apply ymodem_ProcessPacket_processed in Hp as (fn & fs & sz & n & ->).
    repeat split.
Qed.

End Frame.

(** * The properties of the specification *)

Lemma ymodem_Reset_spec (y : ymodem_t) :
  exists y',
    ymodem_Reset y = Ret (YMODEM_OK, y') /\
    nextStatus y' = YMODEM_OK /\ packetsReceived y' = 0 /\
    startOfPacket y' = 1 /\ packetBytes y' = 0 /\ packetSize y' = 0 /\
    eotReceived y' = 0 /\ prevC y' = 0 /\ fileSize y' = 0 /\
    initialized y' = YM_INSTANCE_INIT_MASK /\
    serialWriteFxn y' = serialWriteFxn y /\
    fileName y' = fileName y /\ fileSizeStr y' = fileSizeStr y /\
    packetData y' = packetData y /\ payloadTx y' = payloadTx y /\
    payloadLen y' = payloadLen y.
Proof. eexists. repeat split. Qed.

Lemma ymodem_Abort_spec (y : ymodem_t) :
  ymodem_Abort y =
  Ret (YMODEM_ABORTED,
       set_packetsReceived 0 (set_nextStatus YMODEM_ABORTED (set_payloadLen 2
         (set_payloadTx (<[1%nat := CA]> (<[0%nat := CA]> (payloadTx y)))
            (set_initialized YM_INSTANCE_INIT_MASK y))))).
Proof. reflexivity. Qed.

Lemma ymodem_Init_initialized (y : ymodem_t) (f : option ymodem_fxn_t) :
  initialized y = YM_INSTANCE_INIT_MASK -> ymodem_Init y f = y.
Proof. unfold ymodem_Init. intros ->. reflexivity. Qed.

Lemma receive_bytes_sticky {Sink : Type}
    (cb : Sink -> ymodem_file_cb_e -> option (list Z) -> Z -> ymodem_err_e * Sink)
    (y : ymodem_t) (w : world Sink) (bs : list Z) :
  nextStatus y <> YMODEM_OK -> initialized y = YM_INSTANCE_INIT_MASK ->
  receive_bytes cb y w bs = Ret (replicate (length bs) (nextStatus y), y, w).
Proof.
  intros Hs Hi. induction bs as [|c bs IH]; [reflexivity|].
  rewrite receive_bytes_cons, ymodem_ReceiveByte_sticky by exact Hs.
  rewrite set_initialized_id by exact Hi. cbn [mbind res_bind].
  rewrite IH. reflexivity.
Qed.

(** C3. Once the terminal status of an initialised session is not
    [YMODEM_OK], every call of [ymodem_ReceiveByte], with any byte and any
    number of times, returns that status and leaves the session, the sink and
    the serial line as they are; [ymodem_Reset], on any session, returns
    [YMODEM_OK], clears the expected sequence, the framing fields, the
    end-of-transmission flag and the status, and keeps the serial write
    function. *)
Theorem sticky_status_until_reset {Sink : Type}
    (cb : Sink -> ymodem_file_cb_e -> option (list Z) -> Z -> ymodem_err_e * Sink)
    (y : ymodem_t) (w : world Sink) :
  nextStatus y <> YMODEM_OK ->
  initialized y = YM_INSTANCE_INIT_MASK ->
  (forall c, ymodem_ReceiveByte cb y w c = Ret (nextStatus y, y, w)) /\
  (forall bs, receive_bytes cb y w bs =
              Ret (replicate (length bs) (nextStatus y), y, w)) /\
  (forall y0, exists y',
     ymodem_Reset y0 = Ret (YMODEM_OK, y') /\
     nextStatus y' = YMODEM_OK /\ packetsReceived y' = 0 /\
     startOfPacket y' = 1 /\ packetBytes y' = 0 /\ eotReceived y' = 0 /\
     prevC y' = 0 /\ serialWriteFxn y' = serialWriteFxn y0).
Proof.
  intros Hs Hi. split; [|split].
  - intros c. rewrite ymodem_ReceiveByte_sticky by exact Hs.
    rewrite set_initialized_id by exact Hi. reflexivity.
  - intros bs. apply receive_bytes_sticky; assumption.
  - intros y0. destruct (ymodem_Reset_spec y0) as (y' & H); eexists.
    intuition eauto.
Qed.

Lemma assert_initialized_spec (y : ymodem_t) :
  assert_initialized y = Ret (set_initialized YM_INSTANCE_INIT_MASK y).
Proof. reflexivity. Qed.

Lemma ymodem_ReceiveByte_initialized {Sink : Type}
    (cb : Sink -> ymodem_file_cb_e -> option (list Z) -> Z -> ymodem_err_e * Sink)
    (y : ymodem_t) (w : world Sink) (c : Z) :
  ymodem_ReceiveByte cb y w c <> Err AssertionFailed /\
  forall r y' w', ymodem_ReceiveByte cb y w c = Ret (r, y', w') ->
                  initialized y' = YM_INSTANCE_INIT_MASK.
Proof.
  destruct (decide (nextStatus y <> YMODEM_OK)) as [Hs|Hs].
  { rewrite ymodem_ReceiveByte_sticky by exact Hs. split; [discriminate|].
    intros r y' w' [= _ <- _]. reflexivity. }
  assert (Hok : nextStatus y = YMODEM_OK)
    by (destruct (nextStatus y); try reflexivity; exfalso; apply Hs; discriminate).
  rewrite ymodem_ReceiveByte_nominal by exact Hok. split.
  - intros H. apply bind_Err in H as [H|([[ret y1] w1] & _ & H)].
    + apply receive_step_Err in H. discriminate.
    + rewrite respond_spec in H. destruct (decide (ret = YM_OK)); discriminate.
  - intros r y' w' H. apply bind_Ret in H as ([[ret y1] w1] & Hstep & H).
    apply receive_step_fields in Hstep as (Hi & _).
    rewrite respond_spec in H.
    pose proof (responded_fields y1 c ret) as (_ & Hr & _).
    destruct (decide (ret = YM_OK)); injection H as _ <- _; rewrite Hr, Hi;
      destruct (decide _); reflexivity.
Qed.

(** C9. The guards [assert (ymodem->initialized = YM_INSTANCE_INIT_MASK)]
    assign: on every session, initialised or not, the assertion holds and
    the field [initialized] becomes the mask 0x52.  So [ymodem_Reset],
    [ymodem_Abort] and [ymodem_ReceiveByte] never stop in a failed assertion,
    the session they return is marked initialised, and a later [ymodem_Init]
    returns it unchanged. *)
Theorem assertions_assign_the_mask :
  YM_INSTANCE_INIT_MASK = 0x52 /\
  (forall y, assert_initialized y = Ret (set_initialized YM_INSTANCE_INIT_MASK y)) /\
  (forall y, exists y',
     ymodem_Reset y = Ret (YMODEM_OK, y') /\
     initialized y' = YM_INSTANCE_INIT_MASK /\
     forall f, ymodem_Init y' f = y') /\
  (forall y, exists y',
     ymodem_Abort y = Ret (YMODEM_ABORTED, y') /\
     initialized y' = YM_INSTANCE_INIT_MASK /\
     forall f, ymodem_Init y' f = y') /\
  (forall (Sink : Type)
          (cb : Sink -> ymodem_file_cb_e -> option (list Z) -> Z ->
                ymodem_err_e * Sink)
          (y : ymodem_t) (w : world Sink) (c : Z),
     ymodem_ReceiveByte cb y w c <> Err AssertionFailed /\
     forall r y' w',
       ymodem_ReceiveByte cb y w c = Ret (r, y', w') ->
       initialized y' = YM_INSTANCE_INIT_MASK /\
       forall f, ymodem_Init y' f = y').
Proof.
  split; [reflexivity|]. split; [exact assert_initialized_spec|].
  split; [|split].
  - intros y. destruct (ymodem_Reset_spec y) as (y' & H & Hf). exists y'.
    split; [exact H|]. assert (Hi : initialized y' = YM_INSTANCE_INIT_MASK) by tauto.
    split; [exact Hi|]. intros f. apply ymodem_Init_initialized, Hi.
  - intros y. rewrite ymodem_Abort_spec. eexists. split; [reflexivity|].
    split; [reflexivity|]. intros f. apply ymodem_Init_initialized. reflexivity.
  - intros Sink cb y w c.
    destruct (ymodem_ReceiveByte_initialized cb y w c) as [Hne Hi].
    split; [exact Hne|]. intros r y' w' H. specialize (Hi r y' w' H).
    split; [exact Hi|]. intros f. apply ymodem_Init_initialized, Hi.
Qed.

Section Claims.

Context {Sink : Type}.
Variable cb : Sink -> ymodem_file_cb_e -> option (list Z) -> Z -> ymodem_err_e * Sink.

(** In the awaiting-header state no array is touched: every byte is
    classified and the call returns. *)
Lemma receive_step_header (y : ymodem_t) (w : world Sink) (c : Z) :
  startOfPacket y <> 0 ->
  receive_step cb y w c =
  if c =? SOH then
    Ret (YM_OK, set_packetBytes (u16 (packetBytes y + 1))
                  (set_startOfPacket 0 (set_packetSize YM_PACKET_SIZE y)), w)
  else if c =? STX then
    Ret (YM_OK, set_packetBytes (u16 (packetBytes y + 1))
                  (set_startOfPacket 0 (set_packetSize YM_PACKET_1K_SIZE y)), w)
  else if c =? EOT then Ret (YM_RX_COMPLETE, set_eotReceived 1 y, w)
  else if c =? CA then
    Ret (if prevC y =? CA then YM_ABORTED else YM_OK, y, w)
  else if (c =? ABORT1) || (c =? ABORT2) then Ret (YM_ABORT, y, w)
  else Ret (YM_RX_ERROR, y, w).
Proof.
  intros Hs. unfold receive_step.
  destruct (Z.eqb_spec (startOfPacket y) 0) as [|_]; [contradiction|]. cbn [negb].
  destruct (c =? SOH); [reflexivity|]. destruct (c =? STX); [reflexivity|].
  destruct (c =? EOT); [reflexivity|]. destruct (c =? CA); [|reflexivity].
  destruct (prevC y =? CA); reflexivity.
Qed.

Lemma ymodem_ReceiveByte_prevC (y : ymodem_t) (w : world Sink) (c : Z)
    (r : ymodem_err_e) (y' : ymodem_t) (w' : world Sink) :
  nextStatus y = YMODEM_OK ->
  ymodem_ReceiveByte cb y w c = Ret (r, y', w') -> prevC y' = c.
Proof.
  intros Hs H. rewrite ymodem_ReceiveByte_nominal in H by exact Hs.
  apply bind_Ret in H as ([[ret y1] w1] & _ & H). rewrite respond_spec in H.
  destruct (decide (ret = YM_OK)); injection H as _ <- _;
    apply responded_fields.
Qed.

(** C5. While a header is awaited, a cancel byte that follows a cancel byte
    is answered with the single byte 'C' and makes the session aborted, so
    that every later call returns [YMODEM_ABORTED] and changes nothing; a
    cancel byte that follows another byte sends nothing and returns
    [YMODEM_OK]; and whatever byte is processed, by any session with the
    nominal status, is the previous byte afterwards. *)
Theorem cancel_bytes (y : ymodem_t) (w : world Sink) :
  nextStatus y = YMODEM_OK -> startOfPacket y <> 0 -> wf_ymodem y ->
  (prevC y = CA ->
   exists y',
     ymodem_ReceiveByte cb y w CA =
       Ret (YMODEM_TX_PENDING, y', ymodem_WriteSerial y' w) /\
     reply y' = [CRC16] /\ nextStatus y' = YMODEM_ABORTED /\
     forall c w2, ymodem_ReceiveByte cb y' w2 c = Ret (YMODEM_ABORTED, y', w2)) /\
  (prevC y <> CA ->
   exists y',
     ymodem_ReceiveByte cb y w CA = Ret (YMODEM_OK, y', w) /\
     reply y' = [] /\ nextStatus y' = YMODEM_OK) /\
  (forall c, exists r y' w',
     ymodem_ReceiveByte cb y w c = Ret (r, y', w') /\ prevC y' = c) /\
  (forall y0 w0 c r y' w',
     nextStatus y0 = YMODEM_OK ->
     ymodem_ReceiveByte cb y0 w0 c = Ret (r, y', w') -> prevC y' = c).
Proof.
  intros Hs Hsop Hwf. pose proof (wf_payloadTx y Hwf) as Htx.
  assert (Hstep : forall c,
            receive_step cb (set_initialized YM_INSTANCE_INIT_MASK y) w c =
            receive_step cb y w c
              ≫= λ '(ret, y1, w1),
                   Ret (ret, set_initialized YM_INSTANCE_INIT_MASK y1, w1)).
  { intros c. rewrite !receive_step_header by exact Hsop.
    cbn [prevC packetBytes set_initialized].
    repeat match goal with |- context [if ?b then _ else _] => destruct b end;
      reflexivity. }
  split; [|split; [|split]].
  - intros Hp. eexists.
    rewrite ymodem_ReceiveByte_nominal, Hstep, receive_step_header by assumption.
    rewrite Hp. cbn [Z.eqb Pos.eqb CA SOH STX EOT mbind res_bind].
    rewrite respond_spec. cbn [decide].
    destruct (decide (YM_ABORTED = YM_OK)) as [Heq|_]; [discriminate Heq|].
    split; [reflexivity|]. split; [|split].
    + apply responded_reply. cbn [payloadTx set_initialized]. lia.
    + apply responded_nextStatus.
    + intros c w2. rewrite ymodem_ReceiveByte_sticky
        by (rewrite responded_nextStatus; discriminate).
      rewrite responded_nextStatus, set_initialized_id; [reflexivity|].
      destruct (responded_fields (set_initialized YM_INSTANCE_INIT_MASK y) CA
                  YM_ABORTED) as (_ & Hi & _).
      rewrite Hi. destruct (decide _); reflexivity.
  - intros Hp. eexists.
    rewrite ymodem_ReceiveByte_nominal, Hstep, receive_step_header by assumption.
    destruct (Z.eqb_spec (prevC y) CA) as [|_]; [contradiction|].
    cbn [Z.eqb Pos.eqb CA SOH STX EOT mbind res_bind].
    rewrite respond_spec.
    destruct (decide (YM_OK = YM_OK)) as [_|Hne]; [|contradiction].
    split; [reflexivity|]. split.
    + apply responded_reply. cbn [payloadTx set_initialized]. lia.
    + rewrite responded_nextStatus. exact Hs.
  - intros c.
    assert (exists ret y1, receive_step cb y w c = Ret (ret, y1, w)) as (ret & y1 & H1).
    { rewrite receive_step_header by exact Hsop.
      repeat match goal with |- context [if ?b then _ else _] => destruct b end;
        eauto. }
    rewrite ymodem_ReceiveByte_nominal, Hstep, H1 by assumption.
    cbn [mbind res_bind]. rewrite respond_spec.
    destruct (decide (ret = YM_OK)); do 3 eexists;
      (split; [reflexivity|apply responded_fields]).
  - intros y0 w0 c r y' w' Hs0 H. eapply ymodem_ReceiveByte_prevC; eassumption.
Qed.

Lemma wf_responded (y : ymodem_t) (c : Z) (ret : ym_ret_t) :
  wf_ymodem y -> wf_ymodem (responded y c ret).
Proof.
  intros (H1 & H2 & H3 & H4).
  destruct (responded_fields y c ret)
    as (_ & _ & E1 & E2 & E3 & _ & _ & _ & _ & _ & _ & E4).
  unfold wf_ymodem. rewrite E1, E2, E3, E4. tauto.
Qed.

Lemma wf_processed (y y1 : ymodem_t) :
  processed y y1 -> length (fileName y1) = length (fileName y) ->
  length (fileSizeStr y1) = length (fileSizeStr y) ->
  wf_ymodem y -> wf_ymodem y1.
Proof.
  intros (fn & fs & sz & n & ->) Hfn Hfs (H1 & H2 & H3 & H4).
  unfold wf_ymodem in *. cbn in *. repeat split; congruence.
Qed.

Lemma complement_ok_eqb (sq comp : Z) :
  complement_ok sq comp -> negb (sq =? Z.land (Z.lxor comp 0xFF) 0xFF) = false.
Proof. unfold complement_ok. intros <-. rewrite Z.eqb_refl. reflexivity. Qed.

(** A framed packet with a good complement, whatever processing makes of
    it: the last byte is answered with a serial write of the reply. *)
Lemma receive_packet_result (y : ymodem_t) (w : world Sink) (hd sq comp : Z)
    (payload : list Z) (c1 c2 : Z) (ret : ym_ret_t) (y1 : ymodem_t)
    (w1 : world Sink) :
  awaiting_header y -> wf_ymodem y -> framed hd payload ->
  complement_ok sq comp ->
  ymodem_ProcessPacket cb (assembled y hd (sq :: comp :: payload ++ [c1]) c2) w =
    Ret (ret, y1, w1) ->
  receive_bytes cb y w (packet hd sq comp payload c1 c2) =
  Ret (replicate (length payload + 4) YMODEM_OK ++ [YMODEM_TX_PENDING],
       responded (rearmed y1) c2 ret,
       ymodem_WriteSerial (responded (rearmed y1) c2 ret) w1).
Proof.
  intros Hah Hwf Hfr Hc Hp. rewrite receive_packet by assumption.
  rewrite complement_ok_eqb by exact Hc. rewrite Hp. cbn [mbind res_bind].
  rewrite respond_spec.
  destruct (decide (ret = YM_OK)) as [->|_]; [|reflexivity].
  exfalso. eapply ymodem_ProcessPacket_not_OK; [exact Hp|reflexivity].
Qed.

Lemma awaiting_header_responded (y1 : ymodem_t) (c : Z) (ret : ym_ret_t) :
  nextStatus (responded (rearmed y1) c ret) = YMODEM_OK ->
  awaiting_header (responded (rearmed y1) c ret).
Proof.
  intros Hs. split; [exact Hs|].
  destruct (responded_fields (rearmed y1) c ret)
    as (_ & _ & _ & _ & _ & _ & E1 & _ & E2 & _).
  rewrite E1, E2. split; reflexivity.
Qed.

(** C8. An end-of-transmission byte that arrives while a header is awaited
    sets the flag and is answered ACK, 'C'.  After it, the next packet
    that is framed and passes the complement check is neither compared with
    the expected sequence nor checksummed: the end callback is invoked, the
    reply is the single byte ACK and the status becomes complete. *)
Theorem end_of_transmission (y : ymodem_t) (w : world Sink) :
  nextStatus y = YMODEM_OK -> startOfPacket y <> 0 -> wf_ymodem y ->
  (exists y1,
     ymodem_ReceiveByte cb y w EOT =
       Ret (YMODEM_TX_PENDING, y1, ymodem_WriteSerial y1 w) /\
     eotReceived y1 = 1 /\ reply y1 = [ACK; CRC16] /\
     nextStatus y1 = YMODEM_OK /\ wf_ymodem y1 /\
     (awaiting_header y -> awaiting_header y1)) /\
  (forall ya wa hd sq comp payload c1 c2,
     awaiting_header ya -> wf_ymodem ya -> eotReceived ya = 1 ->
     framed hd payload -> complement_ok sq comp ->
     exists y2,
       receive_bytes cb ya wa (packet hd sq comp payload c1 c2) =
         Ret (replicate (length payload + 4) YMODEM_OK ++ [YMODEM_TX_PENDING],
              y2,
              ymodem_WriteSerial y2
                (mk_world (snd (cb (sink wa) YMODEM_FILE_CB_END None 0))
                   (trace wa ++ [EvFileCallback YMODEM_FILE_CB_END None 0]))) /\
       reply y2 = [ACK] /\ nextStatus y2 = YMODEM_COMPLETE).
Proof.
  intros Hs Hsop Hwf. split.
  - exists (responded (set_eotReceived 1 (set_initialized YM_INSTANCE_INIT_MASK y))
              EOT YM_RX_COMPLETE).
    split; [|split; [|split; [|split; [|split]]]].
    + rewrite ymodem_ReceiveByte_nominal by exact Hs.
      rewrite receive_step_header by exact Hsop.
      cbn [Z.eqb Pos.eqb EOT SOH STX mbind res_bind]. rewrite respond_spec.
      destruct (decide (YM_RX_COMPLETE = YM_OK)) as [Heq|_]; [discriminate Heq|].
      reflexivity.
    + reflexivity.
    + apply responded_reply. cbn. rewrite (wf_payloadTx y Hwf). lia.
    + rewrite responded_nextStatus. exact Hs.
    + apply wf_responded. exact Hwf.
    + intros (_ & Hsp & Hpb). split; [exact Hs|]. split; assumption.
  - intros ya wa hd sq comp payload c1 c2 Hah Hwfa Heot Hfr Hc.
    assert (Hp : ymodem_ProcessPacket cb
                   (assembled ya hd (sq :: comp :: payload ++ [c1]) c2) wa =
                 Ret (YM_SUCCESS,
                      assembled ya hd (sq :: comp :: payload ++ [c1]) c2,
                      mk_world (snd (cb (sink wa) YMODEM_FILE_CB_END None 0))
                        (trace wa ++ [EvFileCallback YMODEM_FILE_CB_END None 0]))).
    { rewrite ymodem_ProcessPacket_eot by exact Heot.
      unfold call_FileCallback.
      destruct (cb (sink wa) YMODEM_FILE_CB_END None 0); reflexivity. }
    eexists. split; [|split].
    + apply (receive_packet_result ya wa hd sq comp payload c1 c2 YM_SUCCESS
               _ _ Hah Hwfa Hfr Hc Hp).
    + apply responded_reply. cbn. rewrite (wf_payloadTx ya Hwfa). lia.
    + apply responded_nextStatus.
Qed.

Lemma crc_ok_bytes (payload : list Z) (c1 c2 : Z) :
  Forall is_byte payload -> crc_ok payload c1 c2 -> is_byte c1 /\ is_byte c2.
Proof.
  intros Hb [-> ->]. rewrite <- crc16_is_xmodem by exact Hb.
  pose proof (crc16_range payload) as Hr.
  rewrite Z.shiftr_div_pow2, land_255_mod by lia. change (2 ^ 8) with 256.
  unfold is_byte. split; div_lia.
Qed.

Lemma crc_ok_decide (payload : list Z) (c1 c2 : Z) :
  Forall is_byte payload ->
  bool_decide (c1 = Z.shiftr (crc16 payload) 8 /\ c2 = Z.land (crc16 payload) 0xFF)
  = bool_decide (crc_ok payload c1 c2).
Proof.
  intros Hb. unfold crc_ok. rewrite crc16_is_xmodem by exact Hb. reflexivity.
Qed.

(** A packet that passes the sequence check and the checksum check. *)
Lemma ymodem_ProcessPacket_validated (y : ymodem_t) (w : world Sink)
    (hd sq comp : Z) (payload : list Z) (c1 c2 : Z) :
  wf_ymodem y -> framed hd payload -> eotReceived y <> 1 ->
  Forall is_byte payload -> crc_ok payload c1 c2 ->
  Z.land sq 0xFF = expected_sequence y ->
  ymodem_ProcessPacket cb (assembled y hd (sq :: comp :: payload ++ [c1]) c2) w =
  if packetsReceived y =? 0
  then ymodem_ProcessFirstPacket cb
         (assembled y hd (sq :: comp :: payload ++ [c1]) c2) w
  else Ret (ymodem_ProcessDataPacket cb
              (assembled y hd (sq :: comp :: payload ++ [c1]) c2) w).
Proof.
  intros Hwf [_ Hlen] Heot Hb Hcrc Hseq.
  destruct (crc_ok_bytes payload c1 c2 Hb Hcrc) as [H1 H2].
  rewrite ymodem_ProcessPacket_assembled by assumption.
  rewrite Hseq, Z.eqb_refl. cbn [negb].
  rewrite crc_ok_decide by exact Hb.
  rewrite bool_decide_eq_true_2 by exact Hcrc. reflexivity.
Qed.

(** C7. A first packet (number 0, checked) whose payload starts with a zero
    byte ends the session: the reply is two cancel bytes, the status becomes
    aborted, and nothing but the serial write happens: the sink is not
    called. *)
Theorem empty_first_packet_aborts (y : ymodem_t) (w : world Sink)
    (hd sq comp : Z) (payload : list Z) (c1 c2 : Z) :
  awaiting_header y -> wf_ymodem y -> eotReceived y <> 1 ->
  packetsReceived y = 0 ->
  framed hd payload -> complement_ok sq comp -> Z.land sq 0xFF = 0 ->
  Forall is_byte payload -> crc_ok payload c1 c2 ->
  payload !! 0%nat = Some 0 ->
  exists y',
    receive_bytes cb y w (packet hd sq comp payload c1 c2) =
      Ret (replicate (length payload + 4) YMODEM_OK ++ [YMODEM_TX_PENDING],
           y', ymodem_WriteSerial y' w) /\
    reply y' = [CA; CA] /\ nextStatus y' = YMODEM_ABORTED /\
    packetsReceived y' = 0 /\
    sink (ymodem_WriteSerial y' w) = sink w /\
    callbacks_of YMODEM_FILE_CB_NAME (trace (ymodem_WriteSerial y' w)) =
      callbacks_of YMODEM_FILE_CB_NAME (trace w).
Proof.
  intros Hah Hwf Heot Hpr Hfr Hc Hsq Hb Hcrc H0.
  assert (Hp : ymodem_ProcessPacket cb
                 (assembled y hd (sq :: comp :: payload ++ [c1]) c2) w =
               Ret (YM_ABORT, assembled y hd (sq :: comp :: payload ++ [c1]) c2, w)).
  { rewrite ymodem_ProcessPacket_validated
      by (try assumption; unfold expected_sequence; rewrite Hpr; exact Hsq).
    rewrite Hpr. cbn [Z.eqb].
    apply ymodem_ProcessFirstPacket_empty.
    apply (lookup_assembled y hd (sq :: comp :: payload ++ [c1]) c2 2 0 Hwf).
    - destruct Hfr as [_ Hlen]. pose proof (payload_size_range hd).
      cbn [length]. rewrite length_app. cbn [length]. lia.
    - cbn [app lookup list_lookup]. rewrite <- app_assoc.
      apply lookup_app_l_Some. exact H0. }
  eexists. split; [|split; [|split; [|split]]].
  - apply (receive_packet_result y w hd sq comp payload c1 c2 YM_ABORT _ _
             Hah Hwf Hfr Hc Hp).
  - apply responded_reply. cbn. rewrite (wf_payloadTx y Hwf). lia.
  - apply responded_nextStatus.
  - apply responded_packetsReceived.
  - split; [apply trace_ymodem_WriteSerial|].
    destruct (trace_ymodem_WriteSerial
                (responded (rearmed (assembled y hd (sq :: comp :: payload ++ [c1]) c2))
                   c2 YM_ABORT) w) as [-> _].
    unfold callbacks_of. rewrite List.filter_app.
    unfold write_events. destruct (serialWriteFxn _); cbn; apply app_nil_r.
Qed.

Lemma wf_assembled (y : ymodem_t) (hd : Z) (bs : list Z) (c : Z) :
  wf_ymodem y -> (length bs + 2 <= 1029)%nat -> wf_ymodem (assembled y hd bs c).
Proof.
  intros (H1 & H2 & H3 & H4) Hlen. unfold wf_ymodem, assembled, assembling.
  cbn [fileName fileSizeStr packetData payloadTx set_packetData set_packetBytes].
  rewrite length_write_at
    by (rewrite length_app, H3; cbn [length]; change (Z.to_nat _) with 1029%nat; lia).
  tauto.
Qed.

Lemma c_string_id (l : list Z) : Forall (fun c => c <> 0) l -> c_string l = l.
Proof.
  induction 1 as [|c l Hc _ IH]; simpl; [reflexivity|].
  destruct (Z.eqb_spec c 0); [contradiction|]. rewrite IH. reflexivity.
Qed.

Lemma parsed_size_digits (ds : list Z) (old : Z) :
  Forall is_digit ds -> (length ds <= 10)%nat ->
  parsed_size ds old = u32 (decimal ds).
Proof.
  intros Hd Hlen. unfold parsed_size.
  rewrite c_string_id
    by (eapply Forall_impl; [|exact Hd]; unfold is_digit; intros c Hc; lia).
  rewrite (proj2 (forallb_ISVALIDDEC ds) Hd).
  rewrite (proj2 (Nat.leb_le _ _) Hlen). reflexivity.
Qed.

Lemma expected_sequence_next (p : Z) :
  Z.land (s32 (p + 1)) 0xFF = (Z.land p 0xFF + 1) mod 256.
Proof. rewrite !land_255_mod. unfold s32. div_lia. Qed.

(** The first packet of a transfer, with a file name and a decimal size. *)
(** The first packet of a file: the name and the size field go to the
    sink, whose answer decides. *)
Lemma first_packet_processed (y : ymodem_t) (w : world Sink) (hd sq comp : Z)
    (payload : list Z) (c1 c2 : Z) (name sz rest : list Z) :
  awaiting_header y -> wf_ymodem y -> eotReceived y <> 1 ->
  packetsReceived y = 0 ->
  framed hd payload -> complement_ok sq comp -> Z.land sq 0xFF = 0 ->
  Forall is_byte payload -> crc_ok payload c1 c2 ->
  payload = name ++ 0 :: sz ++ 32 :: rest ->
  name <> [] -> Forall (fun c => c <> 0) name -> (length name < 256)%nat ->
  Forall (fun c => c <> 32) sz -> (length sz < 16)%nat ->
  let fn := write_at 0 (name ++ [0]) (fileName y) in
  let size := parsed_size sz (fileSize y) in
  let r := cb (sink w) YMODEM_FILE_CB_NAME (Some fn) size in
  let ret := if decide (fst r = YMODEM_OK) then YM_START_RX else YM_SIZE_ERR in
  let y' := responded
              (rearmed
                 (set_packetsReceived 1
                    (set_fileSize size
                       (set_fileSizeStr (write_at 0 (sz ++ [0]) (fileSizeStr y))
                          (set_fileName fn
                             (assembled y hd (sq :: comp :: payload ++ [c1]) c2))))))
              c2 ret in
  receive_bytes cb y w (packet hd sq comp payload c1 c2) =
    Ret (replicate (length payload + 4) YMODEM_OK ++ [YMODEM_TX_PENDING],
         y',
         ymodem_WriteSerial y'
           (mk_world (snd r)
              (trace w ++ [EvFileCallback YMODEM_FILE_CB_NAME (Some fn) size]))).
Proof.
  intros Hah Hwf Heot Hpr Hfr Hc Hsq Hb Hcrc Hpay Hne Hname Hnlen Hsz Hslen
    fn size r ret y'.
  pose proof (payload_size_range hd) as Hps. destruct Hfr as [Hhd Hlen].
  set (ya := assembled y hd (sq :: comp :: payload ++ [c1]) c2) in *.
  assert (Hwfa : wf_ymodem ya).
  { apply wf_assembled; [exact Hwf|]. cbn [length]. rewrite length_app.
    cbn [length]. lia. }
  apply (receive_packet_result y w hd sq comp payload c1 c2 ret _ _
           Hah Hwf (conj Hhd Hlen) Hc).
  fold ya. unfold ya at 1.
  rewrite ymodem_ProcessPacket_validated
    by (try assumption; try (split; assumption);
        unfold expected_sequence; rewrite Hpr; exact Hsq).
  rewrite Hpr. cbn [Z.eqb]. fold ya.
  rewrite (ymodem_ProcessFirstPacket_spec cb ya w name sz
             (rest ++ [c1; c2] ++ drop (5 + length payload) (packetData y)));
    try assumption.
  - cbn zeta.
    replace (fileName ya) with (fileName y) by reflexivity.
    replace (fileSizeStr ya) with (fileSizeStr y) by reflexivity.
    replace (fileSize ya) with (fileSize y) by reflexivity.
    replace (packetsReceived ya) with (packetsReceived y) by reflexivity.
    rewrite Hpr. fold fn size. unfold call_FileCallback. fold r.
    destruct r as [err s]. reflexivity.
  - unfold ya. rewrite drop_3_assembled by exact Hwf. unfold data_view.
    rewrite Hpay. rewrite <- !app_assoc. cbn [app]. rewrite <- !app_assoc.
    reflexivity.
Qed.

Lemma first_packet_accepted (y : ymodem_t) (w : world Sink) (hd sq comp : Z)
    (payload : list Z) (c1 c2 : Z) (name digits rest : list Z) :
  awaiting_header y -> wf_ymodem y -> eotReceived y <> 1 ->
  packetsReceived y = 0 ->
  framed hd payload -> complement_ok sq comp -> Z.land sq 0xFF = 0 ->
  Forall is_byte payload -> crc_ok payload c1 c2 ->
  payload = name ++ 0 :: digits ++ 32 :: rest ->
  name <> [] -> Forall (fun c => c <> 0) name -> (length name < 256)%nat ->
  Forall is_digit digits -> (length digits <= 10)%nat ->
  let fn := write_at 0 (name ++ [0]) (fileName y) in
  let size := u32 (decimal digits) in
  fst (cb (sink w) YMODEM_FILE_CB_NAME (Some fn) size) = YMODEM_OK ->
  exists y',
    receive_bytes cb y w (packet hd sq comp payload c1 c2) =
      Ret (replicate (length payload + 4) YMODEM_OK ++ [YMODEM_TX_PENDING],
           y',
           ymodem_WriteSerial y'
             (mk_world (snd (cb (sink w) YMODEM_FILE_CB_NAME (Some fn) size))
                (trace w ++ [EvFileCallback YMODEM_FILE_CB_NAME (Some fn) size]))) /\
    c_string fn = name /\ fileName y' = fn /\ fileSize y' = size /\
    packetsReceived y' = 1 /\ reply y' = [ACK; CRC16] /\
    nextStatus y' = YMODEM_OK /\ awaiting_header y'.
Proof.
  intros Hah Hwf Heot Hpr Hfr Hc Hsq Hb Hcrc Hpay Hne Hname Hnlen Hdig Hdlen
    fn size Hacc.
  pose proof (payload_size_range hd) as Hsz. destruct Hfr as [Hhd Hlen].
  set (ya := assembled y hd (sq :: comp :: payload ++ [c1]) c2).
  assert (Hwfa : wf_ymodem ya).
  { apply wf_assembled; [exact Hwf|]. cbn [length]. rewrite length_app.
    cbn [length]. lia. }
  assert (Hp : ymodem_ProcessPacket cb ya w =
               Ret (YM_START_RX,
                    set_packetsReceived 1
                      (set_fileSize size
                         (set_fileSizeStr
                            (write_at 0 (digits ++ [0]) (fileSizeStr y))
                            (set_fileName fn ya))),
                    mk_world (snd (cb (sink w) YMODEM_FILE_CB_NAME (Some fn) size))
                      (trace w ++ [EvFileCallback YMODEM_FILE_CB_NAME (Some fn) size]))).
  { unfold ya. rewrite ymodem_ProcessPacket_validated
      by (try assumption; try (split; assumption);
          unfold expected_sequence; rewrite Hpr; exact Hsq).
    rewrite Hpr. cbn [Z.eqb]. fold ya.
    rewrite (ymodem_ProcessFirstPacket_spec cb ya w name digits
               (rest ++ [c1; c2] ++ drop (5 + length payload) (packetData y)));
      try assumption.
    - cbn zeta. rewrite parsed_size_digits by assumption.
      replace (fileName ya) with (fileName y) by reflexivity.
      replace (fileSizeStr ya) with (fileSizeStr y) by reflexivity.
      replace (packetsReceived ya) with (packetsReceived y) by reflexivity.
      rewrite Hpr. fold fn size. unfold call_FileCallback.
      destruct (cb (sink w) YMODEM_FILE_CB_NAME (Some fn) size) as [err s] eqn:Hcb.
      cbn [fst snd] in *. subst err.
      destruct (decide (YMODEM_OK = YMODEM_OK)) as [_|Hn]; [|contradiction].
      reflexivity.
    - unfold ya. rewrite drop_3_assembled by exact Hwf. unfold data_view.
      rewrite Hpay. rewrite <- !app_assoc. cbn [app]. rewrite <- !app_assoc.
      reflexivity.
    - eapply Forall_impl; [|exact Hdig]. unfold is_digit. intros c Hd. lia.
    - lia. }
  eexists. split.
  { apply (receive_packet_result y w hd sq comp payload c1 c2 YM_START_RX _ _
             Hah Hwf (conj Hhd Hlen) Hc Hp). }
  split.
  { unfold fn, write_at. rewrite take_0. cbn [app]. rewrite <- app_assoc.
    apply c_string_app. exact Hname. }
  do 3 (split; [reflexivity|]).
  split; [apply responded_reply; cbn; rewrite (wf_payloadTx y Hwf); lia|].
  assert (Hs : nextStatus
                 (responded
                    (rearmed
                       (set_packetsReceived 1
                          (set_fileSize size
                             (set_fileSizeStr
                                (write_at 0 (digits ++ [0]) (fileSizeStr y))
                                (set_fileName fn ya))))) c2 YM_START_RX)
               = YMODEM_OK) by reflexivity.
  split; [exact Hs|]. apply awaiting_header_responded. exact Hs.
Qed.

Lemma take_data_view (y : ymodem_t) (payload : list Z) (c1 c2 : Z) :
  take (length payload) (data_view y payload c1 c2) = payload.
Proof. unfold data_view. apply take_app_length. Qed.

(** A data packet: the payload goes to the sink, whose answer decides. *)
Lemma data_packet_processed (y : ymodem_t) (w : world Sink) (hd sq comp : Z)
    (payload : list Z) (c1 c2 : Z) :
  awaiting_header y -> wf_ymodem y -> eotReceived y <> 1 ->
  packetsReceived y <> 0 ->
  framed hd payload -> complement_ok sq comp ->
  Z.land sq 0xFF = expected_sequence y ->
  Forall is_byte payload -> crc_ok payload c1 c2 ->
  let view := data_view y payload c1 c2 in
  let r := cb (sink w) YMODEM_FILE_CB_DATA (Some view) (payload_size hd) in
  let ret := if decide (fst r = YMODEM_OK) then YM_RX_OK else YM_WRITE_ERR in
  let y' := responded
              (rearmed (set_packetsReceived (s32 (packetsReceived y + 1))
                 (assembled y hd (sq :: comp :: payload ++ [c1]) c2))) c2 ret in
  receive_bytes cb y w (packet hd sq comp payload c1 c2) =
    Ret (replicate (length payload + 4) YMODEM_OK ++ [YMODEM_TX_PENDING],
         y',
         ymodem_WriteSerial y'
           (mk_world (snd r)
              (trace w ++ [EvFileCallback YMODEM_FILE_CB_DATA (Some view)
                             (payload_size hd)]))).
Proof.
  intros Hah Hwf Heot Hpr Hfr Hc Hsq Hb Hcrc view r ret y'.
  apply (receive_packet_result y w hd sq comp payload c1 c2 ret _ _
           Hah Hwf Hfr Hc).
  rewrite ymodem_ProcessPacket_validated by assumption.
  destruct (Z.eqb_spec (packetsReceived y) 0) as [|_]; [contradiction|].
  rewrite ymodem_ProcessDataPacket_assembled by exact Hwf. cbn zeta.
  unfold call_FileCallback. fold view. fold r.
  destruct r as [err s]. reflexivity.
Qed.

Lemma data_packet_accepted (y : ymodem_t) (w : world Sink) (hd sq comp : Z)
    (payload : list Z) (c1 c2 : Z) :
  awaiting_header y -> wf_ymodem y -> eotReceived y <> 1 ->
  packetsReceived y <> 0 ->
  framed hd payload -> complement_ok sq comp ->
  Z.land sq 0xFF = expected_sequence y ->
  Forall is_byte payload -> crc_ok payload c1 c2 ->
  let view := data_view y payload c1 c2 in
  fst (cb (sink w) YMODEM_FILE_CB_DATA (Some view) (payload_size hd)) = YMODEM_OK ->
  exists y',
    receive_bytes cb y w (packet hd sq comp payload c1 c2) =
      Ret (replicate (length payload + 4) YMODEM_OK ++ [YMODEM_TX_PENDING],
           y',
           ymodem_WriteSerial y'
             (mk_world
                (snd (cb (sink w) YMODEM_FILE_CB_DATA (Some view) (payload_size hd)))
                (trace w ++ [EvFileCallback YMODEM_FILE_CB_DATA (Some view)
                               (payload_size hd)]))) /\
    take (Z.to_nat (payload_size hd)) view = payload /\
    packetsReceived y' = s32 (packetsReceived y + 1) /\
    expected_sequence y' = (expected_sequence y + 1) mod 256 /\
    reply y' = [ACK] /\ nextStatus y' = YMODEM_OK /\ awaiting_header y'.
Proof.
  intros Hah Hwf Heot Hpr Hfr Hc Hsq Hb Hcrc view Hacc.
  pose proof (data_packet_processed y w hd sq comp payload c1 c2
                Hah Hwf Heot Hpr Hfr Hc Hsq Hb Hcrc) as H.
  cbn zeta in H. fold view in H. rewrite Hacc in H.
  destruct (decide (YMODEM_OK = YMODEM_OK)) as [_|Hn]; [|contradiction].
  eexists. split; [exact H|].
  split.
  { destruct Hfr as [_ <-]. rewrite Nat2Z.id. apply take_data_view. }
  split; [reflexivity|].
  split; [apply expected_sequence_next|].
  split; [apply responded_reply; cbn; rewrite (wf_payloadTx y Hwf); lia|].
  assert (Hs : nextStatus
                 (responded
                    (rearmed (set_packetsReceived (s32 (packetsReceived y + 1))
                       (assembled y hd (sq :: comp :: payload ++ [c1]) c2)))
                    c2 YM_RX_OK) = YMODEM_OK) by reflexivity.
  split; [exact Hs|]. apply awaiting_header_responded. exact Hs.
Qed.

(** The first packet, whatever the sink answers: the callback gets the
    name and the size; what follows depends on its answer. *)
Lemma first_packet_named (y : ymodem_t) (w : world Sink) (hd sq comp : Z)
    (payload : list Z) (c1 c2 : Z) (name digits rest : list Z) :
  awaiting_header y -> wf_ymodem y -> eotReceived y <> 1 ->
  packetsReceived y = 0 ->
  framed hd payload -> complement_ok sq comp -> Z.land sq 0xFF = 0 ->
  Forall is_byte payload -> crc_ok payload c1 c2 ->
  payload = name ++ 0 :: digits ++ 32 :: rest ->
  name <> [] -> Forall (fun c => c <> 0) name -> (length name < 256)%nat ->
  Forall is_digit digits -> (length digits <= 10)%nat ->
  let fn := write_at 0 (name ++ [0]) (fileName y) in
  let size := u32 (decimal digits) in
  exists y',
    receive_bytes cb y w (packet hd sq comp payload c1 c2) =
      Ret (replicate (length payload + 4) YMODEM_OK ++ [YMODEM_TX_PENDING],
           y',
           ymodem_WriteSerial y'
             (mk_world (snd (cb (sink w) YMODEM_FILE_CB_NAME (Some fn) size))
                (trace w ++ [EvFileCallback YMODEM_FILE_CB_NAME (Some fn) size]))) /\
    c_string fn = name /\ fileName y' = fn /\ fileSize y' = size /\
    (fst (cb (sink w) YMODEM_FILE_CB_NAME (Some fn) size) = YMODEM_OK ->
     packetsReceived y' = 1 /\ expected_sequence y' = 1 /\
     reply y' = [ACK; CRC16] /\
     nextStatus y' = YMODEM_OK /\ awaiting_header y').
Proof.
  intros Hah Hwf Heot Hpr Hfr Hc Hsq Hb Hcrc Hpay Hne Hname Hnlen Hdig Hdlen
    fn size.
  assert (Hsz : Forall (fun c => c <> 32) digits).
  { eapply Forall_impl; [|exact Hdig]. unfold is_digit. intros c Hd. lia. }
  pose proof (first_packet_processed y w hd sq comp payload c1 c2 name digits
                rest Hah Hwf Heot Hpr Hfr Hc Hsq Hb Hcrc Hpay Hne Hname Hnlen
                Hsz ltac:(lia)) as H.
  cbn zeta in H. rewrite parsed_size_digits in H by assumption.
  fold fn size in H.
  eexists. split; [exact H|].
  split.
  { unfold fn, write_at. rewrite take_0. cbn [app]. rewrite <- app_assoc.
    apply c_string_app. exact Hname. }
  match goal with
  | |- fileName (responded ?y1 ?c ?ret) = _ /\ _ =>
      pose proof (responded_fields y1 c ret) as (_ & _ & F3 & _ & _ & F6 & _)
  end.
  split; [rewrite F3; reflexivity|]. split; [rewrite F6; reflexivity|].
  intros Hacc. rewrite Hacc.
  destruct (decide (YMODEM_OK = YMODEM_OK)) as [_|Hn]; [|contradiction].
  split; [reflexivity|]. split; [reflexivity|].
  split; [apply responded_reply; cbn; rewrite (wf_payloadTx y Hwf); lia|].
  match goal with
  | |- nextStatus ?y' = _ /\ _ =>
      assert (Hs : nextStatus y' = YMODEM_OK) by reflexivity
  end.
  split; [exact Hs|]. apply awaiting_header_responded. exact Hs.
Qed.

(** A data packet, whatever the sink answers: the callback gets the
    payload; what follows depends on its answer. *)
Lemma data_packet_delivered (y : ymodem_t) (w : world Sink) (hd sq comp : Z)
    (payload : list Z) (c1 c2 : Z) :
  awaiting_header y -> wf_ymodem y -> eotReceived y <> 1 ->
  packetsReceived y <> 0 ->
  framed hd payload -> complement_ok sq comp ->
  Z.land sq 0xFF = expected_sequence y ->
  Forall is_byte payload -> crc_ok payload c1 c2 ->
  let view := data_view y payload c1 c2 in
  exists y',
    receive_bytes cb y w (packet hd sq comp payload c1 c2) =
      Ret (replicate (length payload + 4) YMODEM_OK ++ [YMODEM_TX_PENDING],
           y',
           ymodem_WriteSerial y'
             (mk_world
                (snd (cb (sink w) YMODEM_FILE_CB_DATA (Some view) (payload_size hd)))
                (trace w ++ [EvFileCallback YMODEM_FILE_CB_DATA (Some view)
                               (payload_size hd)]))) /\
    take (Z.to_nat (payload_size hd)) view = payload /\
    (fst (cb (sink w) YMODEM_FILE_CB_DATA (Some view) (payload_size hd))
       = YMODEM_OK ->
     packetsReceived y' = s32 (packetsReceived y + 1) /\
     expected_sequence y' = (expected_sequence y + 1) mod 256 /\
     reply y' = [ACK] /\ nextStatus y' = YMODEM_OK /\ awaiting_header y').
Proof.
  intros Hah Hwf Heot Hpr Hfr Hc Hsq Hb Hcrc view.
  pose proof (data_packet_processed y w hd sq comp payload c1 c2
                Hah Hwf Heot Hpr Hfr Hc Hsq Hb Hcrc) as H.
  cbn zeta in H. fold view in H.
  eexists. split; [exact H|].
  split.
  { destruct Hfr as [_ <-]. rewrite Nat2Z.id. apply take_data_view. }
  intros Hacc. rewrite Hacc.
  destruct (decide (YMODEM_OK = YMODEM_OK)) as [_|Hn]; [|contradiction].
  split; [reflexivity|].
  split; [apply expected_sequence_next|].
  split; [apply responded_reply; cbn; rewrite (wf_payloadTx y Hwf); lia|].
  match goal with
  | |- nextStatus ?y' = _ /\ _ =>
      assert (Hs : nextStatus y' = YMODEM_OK) by reflexivity
  end.
  split; [exact Hs|]. apply awaiting_header_responded. exact Hs.
Qed.

(** C1, as the code has it.  A session that awaits a header and has seen
    no end of transmission, as a fresh one does, is handed a packet with a
    valid leading byte, the expected sequence number, its complement and the
    CRC of the payload.  If it is packet 0 and the payload holds a file name
    (non-empty, fewer than 256 bytes), a NUL and at most ten decimal digits
    up to a space, the name callback gets the NUL-terminated name and the
    size, whatever it answers; if the sink accepts, the expected sequence
    becomes 1 and the reply is ACK, 'C'.  For a later packet, the data
    callback gets the payload (128 or 1024 bytes, after the header, before
    the trailer), whatever it answers; if the sink accepts, the expected
    sequence advances by one and the reply is ACK. *)
Theorem well_formed_packets_accepted :
  (forall (y : ymodem_t) (w : world Sink) (hd sq comp : Z)
          (payload : list Z) (c1 c2 : Z) (name digits rest : list Z),
     awaiting_header y -> wf_ymodem y -> eotReceived y <> 1 ->
     packetsReceived y = 0 ->
     framed hd payload -> complement_ok sq comp -> Z.land sq 0xFF = 0 ->
     Forall is_byte payload -> crc_ok payload c1 c2 ->
     payload = name ++ 0 :: digits ++ 32 :: rest ->
     name <> [] -> Forall (fun c => c <> 0) name -> (length name < 256)%nat ->
     Forall is_digit digits -> (length digits <= 10)%nat ->
     let fn := write_at 0 (name ++ [0]) (fileName y) in
     let size := u32 (decimal digits) in
     exists y',
       receive_bytes cb y w (packet hd sq comp payload c1 c2) =
         Ret (replicate (length payload + 4) YMODEM_OK ++ [YMODEM_TX_PENDING],
              y',
              ymodem_WriteSerial y'
                (mk_world (snd (cb (sink w) YMODEM_FILE_CB_NAME (Some fn) size))
                   (trace w ++
                    [EvFileCallback YMODEM_FILE_CB_NAME (Some fn) size]))) /\
       c_string fn = name /\ fileName y' = fn /\ fileSize y' = size /\
       (fst (cb (sink w) YMODEM_FILE_CB_NAME (Some fn) size) = YMODEM_OK ->
        packetsReceived y' = 1 /\ expected_sequence y' = 1 /\
        reply y' = [ACK; CRC16] /\
        nextStatus y' = YMODEM_OK /\ awaiting_header y')) /\
  (forall (y : ymodem_t) (w : world Sink) (hd sq comp : Z)
          (payload : list Z) (c1 c2 : Z),
     awaiting_header y -> wf_ymodem y -> eotReceived y <> 1 ->
     packetsReceived y <> 0 ->
     framed hd payload -> complement_ok sq comp ->
     Z.land sq 0xFF = expected_sequence y ->
     Forall is_byte payload -> crc_ok payload c1 c2 ->
     let view := data_view y payload c1 c2 in
     exists y',
       receive_bytes cb y w (packet hd sq comp payload c1 c2) =
         Ret (replicate (length payload + 4) YMODEM_OK ++ [YMODEM_TX_PENDING],
              y',
              ymodem_WriteSerial y'
                (mk_world
                   (snd (cb (sink w) YMODEM_FILE_CB_DATA (Some view)
                           (payload_size hd)))
                   (trace w ++ [EvFileCallback YMODEM_FILE_CB_DATA (Some view)
                                  (payload_size hd)]))) /\
       take (Z.to_nat (payload_size hd)) view = payload /\
       (fst (cb (sink w) YMODEM_FILE_CB_DATA (Some view) (payload_size hd))
          = YMODEM_OK ->
        packetsReceived y' = s32 (packetsReceived y + 1) /\
        expected_sequence y' = (expected_sequence y + 1) mod 256 /\
        reply y' = [ACK] /\ nextStatus y' = YMODEM_OK /\ awaiting_header y')).
Proof.
  split.
  - intros. eapply first_packet_named; eassumption.
  - intros. eapply data_packet_delivered; eassumption.
Qed.

(** ** A retry after a rejected packet *)

(** The response to any outcome but [YM_OK] overwrites the first byte of
    the response buffer, whatever an earlier response left there. *)
Lemma responded_overwrites (y : ymodem_t) (tx : list Z) (c v : Z)
    (ret : ym_ret_t) :
  ret <> YM_OK -> payloadTx y = tx ->
  responded (rearmed (set_payloadTx (<[0%nat := v]> tx) y)) c ret =
  responded (rearmed y) c ret.
Proof.
  intros Hret <-. destruct ret; try contradiction; unfold responded; cbn;
    rewrite list_insert_insert_eq; reflexivity.
Qed.

Lemma ymodem_ProcessFirstPacket_payloadTx (y : ymodem_t) (w : world Sink)
    (tx : list Z) :
  ymodem_ProcessFirstPacket cb (set_payloadTx tx y) w =
  ymodem_ProcessFirstPacket cb y w
    ≫= λ '(ret, y1, w1), Ret (ret, set_payloadTx tx y1, w1).
Proof.
  unfold ymodem_ProcessFirstPacket. fields.
  destruct (load (packetData y) YM_PACKET_HEADER) as [b|e]; [|reflexivity].
  fields. destruct (negb (b =? 0)); [|reflexivity].
  destruct (copy_until _ 0 _ _ _ _) as [[[fn i] p]|e]; [|reflexivity].
  fields. destruct (store fn i 0) as [fn'|e]; [|reflexivity].
  fields.
  destruct (copy_until _ 32 _ _ _ _) as [[[fs i'] p']|e]; [|reflexivity].
  fields. destruct (store fs i' 0) as [fs'|e]; [|reflexivity].
  fields.
  destruct (Str2Int fs' (fileSize y)) as [[r n]|e]; [|reflexivity].
  fields.
  destruct (call_FileCallback cb w YMODEM_FILE_CB_NAME _ _) as [err w'].
  reflexivity.
Qed.

(** Packet processing does not read the response buffer. *)
Lemma ymodem_ProcessPacket_payloadTx (y : ymodem_t) (w : world Sink)
    (tx : list Z) :
  ymodem_ProcessPacket cb (set_payloadTx tx y) w =
  ymodem_ProcessPacket cb y w
    ≫= λ '(ret, y1, w1), Ret (ret, set_payloadTx tx y1, w1).
Proof.
  unfold ymodem_ProcessPacket.
  replace (ymodem_CheckCRC (set_payloadTx tx y)) with (ymodem_CheckCRC y)
    by reflexivity.
  cbn [packetData eotReceived packetsReceived set_payloadTx].
  destruct (eotReceived y =? 1).
  { destruct (call_FileCallback cb w YMODEM_FILE_CB_END None 0). reflexivity. }
  destruct (load (packetData y) YM_PACKET_SEQNO_INDEX) as [sq|e]; [|reflexivity].
  cbn [mbind res_bind]. destruct (negb _); [reflexivity|].
  destruct (ymodem_CheckCRC y) as [crc|e]; [|reflexivity].
  cbn [mbind res_bind]. destruct (decide (crc <> YM_OK)); [reflexivity|].
  destruct (packetsReceived y =? 0).
  - apply ymodem_ProcessFirstPacket_payloadTx.
  - unfold ymodem_ProcessDataPacket.
    cbn [packetData packetSize packetsReceived set_payloadTx].
    destruct (call_FileCallback cb w YMODEM_FILE_CB_DATA _ _) as [err w'].
    reflexivity.
Qed.

Lemma processed_payloadTx (y y1 : ymodem_t) :
  processed y y1 -> payloadTx y1 = payloadTx y.
Proof. intros (fn & fs & sz & n & ->). reflexivity. Qed.

(** The session a rejected packet leaves, as the next packet of the same
    size finds it: only the first byte of the response buffer differs. *)
Lemma assembled_after_nak (y : ymodem_t) (hd : Z) (bsq bs : list Z) (cq c : Z) :
  wf_ymodem y -> length bsq = length bs -> (length bs + 2 <= 1029)%nat ->
  assembled (responded (rearmed (assembled y hd bsq cq)) cq YM_RX_ERROR) hd bs c =
  set_payloadTx (<[0%nat := NAK]> (payloadTx y)) (assembled y hd bs c).
Proof.
  intros Hwf Hlen Hb. pose proof (wf_packetData y Hwf) as Hpd.
  unfold assembled, assembling, responded, rearmed. cbn -[write_at].
  rewrite !write_at_overwrite
    by (rewrite ?length_app; cbn [length]; lia).
  reflexivity.
Qed.

Lemma receive_packet_after_nak (y : ymodem_t) (w : world Sink) (hd : Z)
    (sq comp : Z) (payload : list Z) (c1 c2 : Z)
    (sqq compq : Z) (payloadq : list Z) (cq1 cq2 : Z) :
  awaiting_header y -> wf_ymodem y ->
  framed hd payloadq -> framed hd payload ->
  receive_bytes cb
    (responded (rearmed (assembled y hd (sqq :: compq :: payloadq ++ [cq1]) cq2))
       cq2 YM_RX_ERROR) w (packet hd sq comp payload c1 c2) =
  receive_bytes cb y w (packet hd sq comp payload c1 c2).
Proof.
  intros Hah Hwf Hfq Hfp. pose proof (payload_size_range hd) as Hsz.
  assert (Hlq : (length payloadq <= 1024)%nat) by (destruct Hfq; lia).
  assert (Hlp : length payloadq = length payload) by (destruct Hfq, Hfp; lia).
  rewrite !receive_packet; try assumption.
  2:{ apply awaiting_header_responded. rewrite responded_nextStatus. reflexivity. }
  2:{ apply wf_responded. unfold rearmed.
      apply (wf_assembled y hd (sqq :: compq :: payloadq ++ [cq1]) cq2) in Hwf;
        [exact Hwf|]. cbn [length]. rewrite length_app. cbn [length]. lia. }
  rewrite assembled_after_nak
    by (try exact Hwf; cbn [length]; rewrite !length_app; cbn [length]; lia).
  f_equal.
  destruct (negb (sq =? Z.land (Z.lxor comp 255) 255)).
  - rewrite !respond_spec.
    destruct (decide (YM_RX_ERROR = YM_OK)) as [Heq|_]; [discriminate Heq|].
    rewrite responded_overwrites by (discriminate || reflexivity).
    reflexivity.
  - rewrite ymodem_ProcessPacket_payloadTx.
    destruct (ymodem_ProcessPacket cb _ w) as [[[ret y1] w1]|e] eqn:Hp;
      [|reflexivity].
    cbn [mbind res_bind]. rewrite !respond_spec.
    pose proof (ymodem_ProcessPacket_not_OK cb _ _ _ _ _ Hp) as Hret.
    apply ymodem_ProcessPacket_processed, processed_payloadTx in Hp.
    rewrite (responded_overwrites y1 (payloadTx y) c2 NAK ret Hret Hp).
    reflexivity.
Qed.

(** C4, as the code has it.  While no end of transmission has been seen, a
    framed packet with a good complement whose sequence byte is not the
    expected one, or whose trailer is not the CRC of its payload, is answered
    with the single byte NAK: no status is set, the packet count, the sink
    and everything the next packet depends on stay as they were, and the
    session awaits a header again.  Handing it then a packet of that size has
    the result it has on the session as it was before, so a correct packet
    is accepted as at a first attempt.  The count advances only for a packet
    that passed both checks. *)
Theorem rejected_packet_can_be_retried (y : ymodem_t) (w : world Sink)
    (hd sq comp : Z) (payload : list Z) (c1 c2 : Z) :
  awaiting_header y -> wf_ymodem y -> eotReceived y <> 1 ->
  framed hd payload -> complement_ok sq comp ->
  Forall is_byte payload -> is_byte c1 -> is_byte c2 ->
  Z.land sq 0xFF <> expected_sequence y \/ ~ crc_ok payload c1 c2 ->
  exists y',
    receive_bytes cb y w (packet hd sq comp payload c1 c2) =
      Ret (replicate (length payload + 4) YMODEM_OK ++ [YMODEM_TX_PENDING],
           y', ymodem_WriteSerial y' w) /\
    reply y' = [NAK] /\ nextStatus y' = YMODEM_OK /\
    packetsReceived y' = packetsReceived y /\
    eotReceived y' = eotReceived y /\
    awaiting_header y' /\ wf_ymodem y' /\
    sink (ymodem_WriteSerial y' w) = sink w /\
    trace (ymodem_WriteSerial y' w) = trace w ++ write_events y' /\
    forall w2 sq' comp' payload' c1' c2',
      framed hd payload' ->
      receive_bytes cb y' w2 (packet hd sq' comp' payload' c1' c2') =
      receive_bytes cb y w2 (packet hd sq' comp' payload' c1' c2').
Proof.
  intros Hah Hwf Heot Hfr Hc Hb H1 H2 Hbad.
  pose proof (payload_size_range hd) as Hsz.
  set (ya := assembled y hd (sq :: comp :: payload ++ [c1]) c2).
  assert (Hp : ymodem_ProcessPacket cb ya w = Ret (YM_RX_ERROR, ya, w)).
  { unfold ya. rewrite ymodem_ProcessPacket_assembled
      by (try assumption; apply Hfr).
    destruct (Z.eqb_spec (Z.land sq 255) (expected_sequence y)) as [Heq|Hne];
      [|reflexivity].
    cbn [negb]. rewrite crc_ok_decide by exact Hb.
    destruct Hbad as [Hbad|Hbad]; [contradiction|].
    rewrite bool_decide_eq_false_2 by exact Hbad. reflexivity. }
  exists (responded (rearmed ya) c2 YM_RX_ERROR).
  split.
  { apply (receive_packet_result y w hd sq comp payload c1 c2 YM_RX_ERROR _ _
             Hah Hwf Hfr Hc Hp). }
  split; [apply responded_reply; cbn; rewrite (wf_payloadTx y Hwf); lia|].
  assert (Hs : nextStatus (responded (rearmed ya) c2 YM_RX_ERROR) = YMODEM_OK)
    by reflexivity.
  split; [exact Hs|]. do 2 (split; [reflexivity|]).
  split; [apply awaiting_header_responded; exact Hs|].
  split.
  { apply wf_responded. unfold rearmed, ya.
    apply (wf_assembled y hd (sq :: comp :: payload ++ [c1]) c2) in Hwf;
      [exact Hwf|]. destruct Hfr as [_ Hlen]. cbn [length]. rewrite length_app.
    cbn [length]. lia. }
  split; [apply trace_ymodem_WriteSerial|].
  split; [apply trace_ymodem_WriteSerial|].
  intros w2 sq' comp' payload' c1' c2' Hfr'.
  apply receive_packet_after_nak; assumption.
Qed.

Lemma parsed_size_failure (sz : list Z) (old : Z) :
  ~ (Forall is_digit (c_string sz) /\ (length (c_string sz) <= 10)%nat) ->
  parsed_size sz old = old.
Proof.
  intros Hn. unfold parsed_size.
  destruct (forallb ISVALIDDEC (c_string sz) && (length (c_string sz) <=? 10)%nat)
    eqn:Hb; [|reflexivity].
  exfalso. apply Hn. apply andb_true_iff in Hb as [H1 H2].
  split; [apply forallb_ISVALIDDEC, H1|apply Nat.leb_le, H2].
Qed.

(** C10. [Str2Int], on an array of at least eleven bytes, returns 1 and
    stores the number exactly when the C string in the array has at most ten
    characters, all of them decimal digits; on any other string it returns 0
    and stores nothing.  [ymodem_ProcessFirstPacket] does not look at that
    result: when the size field does not parse, [fileSize] keeps the value it
    had, the name callback is invoked with the file name and that value, and
    the outcome is start-receive if the callback accepts. *)
Theorem size_parse_result_ignored :
  (forall (s : list Z) (intnum : Z),
     (11 <= length s)%nat ->
     (Forall is_digit (c_string s) /\ (length (c_string s) <= 10)%nat ->
      Str2Int s intnum = Ret (1, u32 (decimal (c_string s)))) /\
     (~ (Forall is_digit (c_string s) /\ (length (c_string s) <= 10)%nat) ->
      Str2Int s intnum = Ret (0, intnum))) /\
  (forall (y : ymodem_t) (w : world Sink) (name sz tail : list Z),
     wf_ymodem y ->
     drop 3 (packetData y) = name ++ 0 :: sz ++ 32 :: tail ->
     name <> [] -> Forall (fun c => c <> 0) name -> (length name < 256)%nat ->
     Forall (fun c => c <> 32) sz -> (length sz < 16)%nat ->
     ~ (Forall is_digit (c_string sz) /\ (length (c_string sz) <= 10)%nat) ->
     let fn := write_at 0 (name ++ [0]) (fileName y) in
     let r := cb (sink w) YMODEM_FILE_CB_NAME (Some fn) (fileSize y) in
     exists y',
       ymodem_ProcessFirstPacket cb y w =
         Ret (if decide (fst r = YMODEM_OK) then YM_START_RX else YM_SIZE_ERR,
              y',
              mk_world (snd r)
                (trace w ++
                 [EvFileCallback YMODEM_FILE_CB_NAME (Some fn) (fileSize y)])) /\
       fileSize y' = fileSize y /\ fileName y' = fn /\ c_string fn = name).
Proof.
  split.
  - intros s intnum Hlen. rewrite Str2Int_spec by exact Hlen. split.
    + intros [Hd Hl]. rewrite (proj2 (forallb_ISVALIDDEC _) Hd).
      rewrite (proj2 (Nat.leb_le _ _) Hl). reflexivity.
    + intros Hn. pose proof (parsed_size_failure s intnum Hn) as Hp.
      unfold parsed_size in Hp.
      destruct (forallb ISVALIDDEC (c_string s) && (length (c_string s) <=? 10)%nat)
        eqn:Hb; [|reflexivity].
      exfalso. apply Hn. apply andb_true_iff in Hb as [H1 H2].
      split; [apply forallb_ISVALIDDEC, H1|apply Nat.leb_le, H2].
  - intros y w name sz tail Hwf Hdrop Hne Hname Hnlen Hsz Hslen Hfail fn r.
    rewrite (ymodem_ProcessFirstPacket_spec cb y w name sz tail) by assumption.
    cbn zeta. rewrite parsed_size_failure by exact Hfail. fold fn.
    unfold call_FileCallback. fold r. destruct r as [err s].
    eexists. split; [reflexivity|]. split; [reflexivity|].
    split; [reflexivity|].
    unfold fn, write_at. rewrite take_0. cbn [app]. rewrite <- app_assoc.
    apply c_string_app. exact Hname.
Qed.

End Claims.

(** C2. The checksum routine computes CRC-16/XMODEM: on every sequence of
    bytes, shifting the bits in most significant first, with polynomial
    0x1021 from a zero register, and sixteen zero bits after them, gives the
    value of the catalogued algorithm, 0x31C3 on the check string
    "123456789"; and [ymodem_CheckCRC] accepts the packet in the buffer
    exactly when its two trailing bytes are that CRC of the payload, high
    byte first. *)
Theorem crc16_is_crc16_xmodem :
  (forall data, Forall is_byte data -> crc16 data = crc16_xmodem data) /\
  crc16 crc_check_input = 0x31C3 /\
  crc16_xmodem crc_check_input = 0x31C3 /\
  (forall (y : ymodem_t) (pre payload post : list Z) (c1 c2 : Z),
     packetData y = pre ++ payload ++ [c1; c2] ++ post ->
     length pre = 3%nat ->
     packetSize y = Z.of_nat (length payload) ->
     Forall is_byte payload -> is_byte c1 -> is_byte c2 ->
     (ymodem_CheckCRC y = Ret YM_OK <-> crc_ok payload c1 c2) /\
     (ymodem_CheckCRC y = Ret YM_OK \/ ymodem_CheckCRC y = Ret YM_RX_ERROR)).
Proof.
  split; [exact crc16_is_xmodem|]. split; [vm_compute; reflexivity|].
  split; [vm_compute; reflexivity|].
  intros y pre payload post c1 c2 Hpd Hpre Hsize Hb H1 H2.
  rewrite (ymodem_CheckCRC_spec y pre payload post c1 c2) by assumption.
  rewrite crc_ok_decide by exact Hb.
  destruct (bool_decide (crc_ok payload c1 c2)) eqn:Hd.
  - apply bool_decide_eq_true in Hd. split; [tauto|left; reflexivity].
  - apply bool_decide_eq_false in Hd. split; [|right; reflexivity].
    split; [discriminate|contradiction].
Qed.

(** * Further properties of the code *)

(** ** Initialisation, reset and abort *)

(** X1. [ymodem_Init] on a session not marked initialised clears the three
    buffers and the transfer state, stores the serial write function and
    marks the session; it leaves the response buffer and its length as they
    were.  On a marked session it does nothing, so a second call, whatever
    its argument, changes nothing. *)
Theorem ymodem_Init_makes_fresh (y : ymodem_t) (f g : option ymodem_fxn_t) :
  initialized y <> YM_INSTANCE_INIT_MASK ->
  length (payloadTx y) = 5%nat ->
  fresh_session (ymodem_Init y f) /\ wf_ymodem (ymodem_Init y f) /\
  framer_inv (ymodem_Init y f) /\
  serialWriteFxn (ymodem_Init y f) = f /\
  fileName (ymodem_Init y f) = replicate 256 0 /\
  fileSizeStr (ymodem_Init y f) = replicate 16 0 /\
  packetData (ymodem_Init y f) = replicate 1029 0 /\
  payloadTx (ymodem_Init y f) = payloadTx y /\
  payloadLen (ymodem_Init y f) = payloadLen y /\
  ymodem_Init (ymodem_Init y f) g = ymodem_Init y f.
Proof.
  intros Hi Htx. unfold ymodem_Init at 1 2 3 4 5 6 7 8 9 10.
  destruct (Z.eqb_spec (initialized y) YM_INSTANCE_INIT_MASK) as [|_];
    [contradiction|].
  split; [|split; [|split]].
  - unfold fresh_session, awaiting_header. cbn. tauto.
  - unfold wf_ymodem. cbn -[replicate]. rewrite !length_replicate. tauto.
  - unfold framer_inv, wf_ymodem. cbn -[replicate]. rewrite !length_replicate.
    split; [tauto|]. split; [discriminate|]. left. tauto.
  - repeat split. apply ymodem_Init_initialized.
    unfold ymodem_Init. destruct (initialized y =? YM_INSTANCE_INIT_MASK) eqn:E;
      [apply Z.eqb_eq in E; contradiction|reflexivity].
Qed.

Lemma fresh_session_wf_inv (y : ymodem_t) :
  fresh_session y -> wf_ymodem y -> framer_inv y.
Proof.
  intros ((Hn & Hs & Hb) & _) Hwf. split; [exact Hwf|].
  split; [rewrite Hn; discriminate|]. left. tauto.
Qed.

Lemma ymodem_Reset_eq (y : ymodem_t) :
  ymodem_Reset y = Ret (YMODEM_OK, reset_session y).
Proof. destruct y; reflexivity. Qed.

(** X2. [ymodem_Reset] returns [YMODEM_OK] and a fresh session whatever
    the status was; unlike [ymodem_Init] it keeps the contents of the
    buffers and the serial write function.  Resetting twice is resetting
    once, and the session it leaves takes the leading byte of a packet. *)
Theorem ymodem_Reset_makes_fresh (y : ymodem_t) :
  wf_ymodem y ->
  exists y',
    ymodem_Reset y = Ret (YMODEM_OK, y') /\
    fresh_session y' /\ wf_ymodem y' /\ framer_inv y' /\
    serialWriteFxn y' = serialWriteFxn y /\
    fileName y' = fileName y /\ fileSizeStr y' = fileSizeStr y /\
    packetData y' = packetData y /\ payloadTx y' = payloadTx y /\
    payloadLen y' = payloadLen y /\
    ymodem_Reset y' = Ret (YMODEM_OK, y') /\
    forall (Sink : Type)
           (cb : Sink -> ymodem_file_cb_e -> option (list Z) -> Z ->
                 ymodem_err_e * Sink) (w : world Sink),
      ymodem_ReceiveByte cb y' w SOH = Ret (YMODEM_OK, assembling y' SOH [], w).
Proof.
  intros Hwf. exists (reset_session y).
  split; [apply ymodem_Reset_eq|].
  assert (Hf : fresh_session (reset_session y))
    by (unfold fresh_session, awaiting_header; cbn; tauto).
  assert (Hw : wf_ymodem (reset_session y)) by exact Hwf.
  split; [exact Hf|]. split; [exact Hw|].
  split; [apply fresh_session_wf_inv; assumption|].
  do 6 (split; [reflexivity|]).
  split; [rewrite ymodem_Reset_eq; reflexivity|].
  intros Sink cb w. apply receive_header; [apply Hf|left; reflexivity].
Qed.

(** X3. [ymodem_Abort] returns [YMODEM_ABORTED] and leaves two cancel bytes
    as the reply, the status aborted and the packet count 0; it sends nothing
    itself and does not touch the framing fields.  Every byte received
    afterwards is answered [YMODEM_ABORTED] and ignored. *)
Theorem ymodem_Abort_freezes (y : ymodem_t) :
  wf_ymodem y ->
  exists y',
    ymodem_Abort y = Ret (YMODEM_ABORTED, y') /\
    reply y' = [CA; CA] /\ nextStatus y' = YMODEM_ABORTED /\
    packetsReceived y' = 0 /\ wf_ymodem y' /\
    startOfPacket y' = startOfPacket y /\ packetBytes y' = packetBytes y /\
    packetSize y' = packetSize y /\ eotReceived y' = eotReceived y /\
    packetData y' = packetData y /\ prevC y' = prevC y /\
    forall (Sink : Type)
           (cb : Sink -> ymodem_file_cb_e -> option (list Z) -> Z ->
                 ymodem_err_e * Sink) (w : world Sink) (bs : list Z),
      receive_bytes cb y' w bs =
      Ret (replicate (length bs) YMODEM_ABORTED, y', w).
Proof.
  intros Hwf. rewrite ymodem_Abort_spec. eexists. split; [reflexivity|].
  split.
  { unfold reply. cbn -[take]. apply take_insert_2.
    rewrite (wf_payloadTx y Hwf). lia. }
  do 2 (split; [reflexivity|]).
  split.
  { destruct Hwf as (H1 & H2 & H3 & H4). unfold wf_ymodem. cbn.
    rewrite !length_insert. tauto. }
  do 6 (split; [reflexivity|]).
  intros Sink cb w bs.
  match goal with
  | |- receive_bytes _ ?y' _ _ = _ =>
      exact (receive_bytes_sticky cb y' w bs ltac:(discriminate) eq_refl)
  end.
Qed.

(** ** Responses and stray bytes *)

Lemma set_prevC_id (y : ymodem_t) : set_prevC (prevC y) y = y.
Proof. destruct y; reflexivity. Qed.

Lemma wf_set_initialized (y : ymodem_t) (v : Z) :
  wf_ymodem y -> wf_ymodem (set_initialized v y).
Proof. intros H. exact H. Qed.

(** X4. [GenerateResponse] never faults and never returns
    [YMODEM_ABORTED]: it returns [YMODEM_OK] with an empty reply for the
    outcome [YM_OK], and [YMODEM_TX_PENDING] with a reply of one or two bytes
    for every other outcome.  The reply, the status left for the following
    calls and the packet count are those of the table below; the framing
    fields and the buffers of the file are not touched. *)
Theorem GenerateResponse_table (y : ymodem_t) (ret : ym_ret_t) :
  wf_ymodem y ->
  exists r y',
    GenerateResponse y ret = Ret (r, y') /\
    (ret = YM_OK -> r = YMODEM_OK) /\
    (ret <> YM_OK -> r = YMODEM_TX_PENDING) /\
    (r = YMODEM_TX_PENDING <-> reply y' <> []) /\
    (length (reply y') <= 2)%nat /\
    reply y' =
      match ret with
      | YM_OK => []
      | YM_ABORTED => [CRC16]
      | YM_ABORT | YM_WRITE_ERR | YM_SIZE_ERR => [CA; CA]
      | YM_START_RX | YM_RX_COMPLETE => [ACK; CRC16]
      | YM_RX_ERROR => [NAK]
      | YM_RX_OK | YM_SUCCESS => [ACK]
      end /\
    nextStatus y' =
      match ret with
      | YM_ABORTED | YM_ABORT => YMODEM_ABORTED
      | YM_WRITE_ERR => YMODEM_WRITE_ERR
      | YM_SIZE_ERR => YMODEM_SIZE_ERR
      | YM_SUCCESS => YMODEM_COMPLETE
      | _ => nextStatus y
      end /\
    packetsReceived y' =
      match ret with
      | YM_ABORT | YM_WRITE_ERR | YM_SIZE_ERR => 0
      | _ => packetsReceived y
      end /\
    wf_ymodem y' /\
    fileName y' = fileName y /\ fileSize y' = fileSize y /\
    packetData y' = packetData y /\ startOfPacket y' = startOfPacket y /\
    packetBytes y' = packetBytes y /\ packetSize y' = packetSize y /\
    eotReceived y' = eotReceived y /\ prevC y' = prevC y /\
    serialWriteFxn y' = serialWriteFxn y.
Proof.
  intros Hwf.
  pose proof (GenerateResponse_spec y (prevC y) ret) as H.
  rewrite set_prevC_id in H.
  pose proof (responded_reply y (prevC y) ret
                ltac:(rewrite (wf_payloadTx y Hwf); lia)) as Hr.
  pose proof (responded_fields y (prevC y) ret)
    as (F1 & _ & F3 & _ & F5 & F6 & F7 & F8 & F9 & F10 & F11 & _).
  eexists _, _. split; [exact H|].
  split; [intros ->; reflexivity|].
  split; [intros Hn; destruct (decide (ret = YM_OK)); [contradiction|reflexivity]|].
  split.
  { rewrite Hr.
    destruct (decide (ret = YM_OK)) as [->|Hn].
    - split; [discriminate|intros E; contradiction E; reflexivity].
    - split; [|reflexivity]. intros _.
      destruct ret; solve [discriminate|contradiction Hn; reflexivity]. }
  split; [rewrite Hr; destruct ret; cbn; lia|].
  split; [exact Hr|].
  split; [apply responded_nextStatus|].
  split; [apply responded_packetsReceived|].
  split; [apply wf_responded, Hwf|].
  tauto.
Qed.

Section Responses.

Context {Sink : Type}.
Variable cb : Sink -> ymodem_file_cb_e -> option (list Z) -> Z -> ymodem_err_e * Sink.

(** X5. While a header is awaited, a byte other than SOH, STX, EOT and CA
    is answered at once, without any callback.  'A' and 'a' abort the
    session: the reply is two cancel bytes, the packet count goes back to 0
    and the following calls return [YMODEM_ABORTED].  Any other byte is
    answered NAK and the session goes on as it was. *)
Theorem stray_header_byte (y : ymodem_t) (w : world Sink) (c : Z) :
  nextStatus y = YMODEM_OK -> startOfPacket y <> 0 -> wf_ymodem y ->
  c <> SOH -> c <> STX -> c <> EOT -> c <> CA ->
  exists y',
    ymodem_ReceiveByte cb y w c =
      Ret (YMODEM_TX_PENDING, y', ymodem_WriteSerial y' w) /\
    prevC y' = c /\ wf_ymodem y' /\
    startOfPacket y' = startOfPacket y /\ packetBytes y' = packetBytes y /\
    eotReceived y' = eotReceived y /\ packetData y' = packetData y /\
    (c = ABORT1 \/ c = ABORT2 ->
     reply y' = [CA; CA] /\ nextStatus y' = YMODEM_ABORTED /\
     packetsReceived y' = 0 /\
     forall c2 w2, ymodem_ReceiveByte cb y' w2 c2 = Ret (YMODEM_ABORTED, y', w2)) /\
    (c <> ABORT1 -> c <> ABORT2 ->
     reply y' = [NAK] /\ nextStatus y' = YMODEM_OK /\
     packetsReceived y' = packetsReceived y).
Proof.
  intros Hs Hst Hwf H1 H2 H3 H4.
  rewrite ymodem_ReceiveByte_nominal by exact Hs.
  rewrite receive_step_header by exact Hst.
  destruct (Z.eqb_spec c SOH) as [|_]; [contradiction|].
  destruct (Z.eqb_spec c STX) as [|_]; [contradiction|].
  destruct (Z.eqb_spec c EOT) as [|_]; [contradiction|].
  destruct (Z.eqb_spec c CA) as [|_]; [contradiction|].
  set (yi := set_initialized YM_INSTANCE_INIT_MASK y).
  assert (Hwfi : wf_ymodem yi) by exact Hwf.
  assert (Htx : (2 <= length (payloadTx yi))%nat)
    by (rewrite (wf_payloadTx yi Hwfi); lia).
  destruct ((c =? ABORT1) || (c =? ABORT2)) eqn:Hab; fields;
    rewrite respond_spec;
    match goal with
    | |- context [decide (?r = YM_OK)] =>
        destruct (decide (r = YM_OK)) as [E|_]; [discriminate E|]
    end;
    (eexists; split; [reflexivity|]);
    pose proof (responded_fields yi c YM_ABORT)
      as (A1 & A2 & _ & _ & A5 & _ & A7 & A8 & A9 & _);
    pose proof (responded_fields yi c YM_RX_ERROR)
      as (B1 & _ & _ & _ & B5 & _ & B7 & B8 & B9 & _).
  - split; [exact A1|]. split; [apply wf_responded, Hwfi|].
    split; [exact A7|]. split; [exact A9|]. split; [exact A8|].
    split; [exact A5|].
    split.
    + intros _. split; [apply responded_reply, Htx|].
      split; [apply responded_nextStatus|].
      split; [apply responded_packetsReceived|].
      intros c2 w2. rewrite ymodem_ReceiveByte_sticky
        by (rewrite responded_nextStatus; discriminate).
      rewrite responded_nextStatus. rewrite set_initialized_id; [reflexivity|].
      rewrite A2. destruct (decide _) as [_|n]; [reflexivity|].
      exfalso; apply n; left; reflexivity.
    + intros N1 N2. apply orb_true_iff in Hab as [E|E];
        apply Z.eqb_eq in E; contradiction.
  - split; [exact B1|]. split; [apply wf_responded, Hwfi|].
    split; [exact B7|]. split; [exact B9|]. split; [exact B8|].
    split; [exact B5|].
    apply orb_false_iff in Hab as [E1 E2].
    apply Z.eqb_neq in E1, E2.
    split; [intros [E|E]; contradiction|].
    intros _ _. split; [apply responded_reply, Htx|].
    split; [rewrite responded_nextStatus; exact Hs|].
    apply responded_packetsReceived.
Qed.

(** X6. The bytes after the leading byte of a packet are data: whatever
    their values, control characters included, they are stored without a
    reply, a callback or a change of status, as long as the packet is not
    complete. *)
Theorem packet_body_is_transparent (y : ymodem_t) (w : world Sink) (hd : Z)
    (bs : list Z) :
  awaiting_header y -> wf_ymodem y -> hd = SOH \/ hd = STX ->
  Z.of_nat (length bs) < payload_size hd + 4 ->
  exists y',
    receive_bytes cb y w (hd :: bs) =
      Ret (replicate (S (length bs)) YMODEM_OK, y', w) /\
    nextStatus y' = YMODEM_OK /\ reply y' = [] /\
    startOfPacket y' = 0 /\ packetSize y' = payload_size hd /\
    packetBytes y' = Z.of_nat (S (length bs)) /\
    take (length bs) (drop 1 (packetData y')) = bs /\
    packetsReceived y' = packetsReceived y /\
    eotReceived y' = eotReceived y /\ wf_ymodem y'.
Proof.
  intros Hah Hwf Hhd Hlen.
  pose proof (payload_size_range hd) as Hsz.
  exists (assembling y hd bs). split.
  { rewrite receive_bytes_cons, receive_header by assumption. fields.
    rewrite receive_bytes_body by (cbn [length]; try assumption; lia).
    reflexivity. }
  do 2 (split; [reflexivity|]). do 2 (split; [reflexivity|]).
  split; [cbn; lia|].
  split.
  { cbn [assembling packetData]. rewrite drop_write_at
      by (rewrite (wf_packetData y Hwf); lia).
    apply take_app_length. }
  do 2 (split; [reflexivity|]).
  pose proof (wf_packetData y Hwf) as Hpd.
  destruct Hwf as (W1 & W2 & W3 & W4). unfold wf_ymodem.
  cbn [assembling fileName fileSizeStr packetData payloadTx].
  rewrite length_write_at by lia. tauto.
Qed.

(** X7. A packet whose second byte is not the complement of the first is
    answered NAK as soon as its last byte arrives.  Its contents are not
    looked at: no callback is invoked and the packet count is kept, also
    when an end-of-transmission byte has already been received. *)
Theorem bad_complement_is_refused (y : ymodem_t) (w : world Sink)
    (hd sq comp : Z) (payload : list Z) (c1 c2 : Z) :
  awaiting_header y -> wf_ymodem y -> framed hd payload ->
  ~ complement_ok sq comp ->
  exists y',
    receive_bytes cb y w (packet hd sq comp payload c1 c2) =
      Ret (replicate (length payload + 4) YMODEM_OK ++ [YMODEM_TX_PENDING],
           y', ymodem_WriteSerial y' w) /\
    reply y' = [NAK] /\ nextStatus y' = YMODEM_OK /\
    packetsReceived y' = packetsReceived y /\
    eotReceived y' = eotReceived y /\
    fileName y' = fileName y /\ fileSize y' = fileSize y /\
    awaiting_header y' /\ wf_ymodem y'.
Proof.
  intros Hah Hwf Hfr Hc.
  pose proof (payload_size_range hd) as Hsz.
  rewrite receive_packet by assumption.
  destruct (Z.eqb_spec sq (Z.land (Z.lxor comp 255) 255)) as [E|_];
    [contradiction|].
  cbn [negb]. rewrite respond_spec.
  destruct (decide (YM_RX_ERROR = YM_OK)) as [E|_]; [discriminate E|].
  fields. eexists. split; [reflexivity|].
  set (ya := assembled y hd (sq :: comp :: payload ++ [c1]) c2).
  split; [apply responded_reply; cbn; rewrite (wf_payloadTx y Hwf); lia|].
  assert (Hs : nextStatus (responded (rearmed ya) c2 YM_RX_ERROR) = YMODEM_OK)
    by reflexivity.
  split; [exact Hs|]. do 4 (split; [reflexivity|]).
  split; [apply awaiting_header_responded; exact Hs|].
  apply wf_responded. unfold rearmed, ya.
  apply (wf_assembled y hd (sq :: comp :: payload ++ [c1]) c2) in Hwf;
    [exact Hwf|]. destruct Hfr as [_ Hlen]. cbn [length]. rewrite length_app.
  cbn [length]. lia.
Qed.

End Responses.

(** ** Packets the sink refuses, and metadata that does not fit *)

Section Rejections.

Context {Sink : Type}.
Variable cb : Sink -> ymodem_file_cb_e -> option (list Z) -> Z -> ymodem_err_e * Sink.

(** A terminal status written by a response stays. *)
Lemma responded_terminal (y : ymodem_t) (c : Z) (ret : ym_ret_t) :
  ret = YM_ABORT \/ ret = YM_WRITE_ERR \/ ret = YM_SIZE_ERR ->
  forall (w : world Sink) (bs : list Z),
    receive_bytes cb (responded y c ret) w bs =
    Ret (replicate (length bs) (nextStatus (responded y c ret)),
         responded y c ret, w).
Proof.
  intros Hret w bs. apply receive_bytes_sticky.
  - rewrite responded_nextStatus.
    destruct Hret as [->|[->| ->]]; discriminate.
  - pose proof (responded_fields y c ret) as (_ & Hi & _). rewrite Hi.
    destruct (decide _) as [_|n]; [reflexivity|contradiction].
Qed.

(** X8. When the sink answers anything but [YMODEM_OK] to the name
    callback of a well-formed first packet, whichever code it is, the reply
    is two cancel bytes, the packet count is 0 again and this call returns
    [YMODEM_TX_PENDING]; every later call returns [YMODEM_SIZE_ERR] and does
    nothing. *)
Theorem name_refused_by_the_sink (y : ymodem_t) (w : world Sink)
    (hd sq comp : Z) (payload : list Z) (c1 c2 : Z) (name sz rest : list Z) :
  awaiting_header y -> wf_ymodem y -> eotReceived y <> 1 ->
  packetsReceived y = 0 ->
  framed hd payload -> complement_ok sq comp -> Z.land sq 0xFF = 0 ->
  Forall is_byte payload -> crc_ok payload c1 c2 ->
  payload = name ++ 0 :: sz ++ 32 :: rest ->
  name <> [] -> Forall (fun c => c <> 0) name -> (length name < 256)%nat ->
  Forall (fun c => c <> 32) sz -> (length sz < 16)%nat ->
  let fn := write_at 0 (name ++ [0]) (fileName y) in
  let size := parsed_size sz (fileSize y) in
  fst (cb (sink w) YMODEM_FILE_CB_NAME (Some fn) size) <> YMODEM_OK ->
  exists y',
    receive_bytes cb y w (packet hd sq comp payload c1 c2) =
      Ret (replicate (length payload + 4) YMODEM_OK ++ [YMODEM_TX_PENDING],
           y',
           ymodem_WriteSerial y'
             (mk_world (snd (cb (sink w) YMODEM_FILE_CB_NAME (Some fn) size))
                (trace w ++ [EvFileCallback YMODEM_FILE_CB_NAME (Some fn) size]))) /\
    reply y' = [CA; CA] /\ nextStatus y' = YMODEM_SIZE_ERR /\
    packetsReceived y' = 0 /\
    forall w2 bs,
      receive_bytes cb y' w2 bs =
      Ret (replicate (length bs) YMODEM_SIZE_ERR, y', w2).
Proof.
  intros Hah Hwf Heot Hpr Hfr Hc Hsq Hb Hcrc Hpay Hne Hname Hnlen Hsz Hslen
    fn size Hrej.
  pose proof (first_packet_processed cb y w hd sq comp payload c1 c2 name sz rest
                Hah Hwf Heot Hpr Hfr Hc Hsq Hb Hcrc Hpay Hne Hname Hnlen Hsz
                Hslen) as H.
  cbn zeta in H. fold fn size in H.
  destruct (decide (fst (cb (sink w) YMODEM_FILE_CB_NAME (Some fn) size)
                    = YMODEM_OK)) as [E|_]; [contradiction|].
  eexists. split; [exact H|].
  split; [apply responded_reply; cbn; rewrite (wf_payloadTx y Hwf); lia|].
  split; [apply responded_nextStatus|].
  split; [apply responded_packetsReceived|].
  intros w2 bs. rewrite responded_terminal by tauto.
  rewrite responded_nextStatus. reflexivity.
Qed.

(** X9. When the sink answers anything but [YMODEM_OK] to the data
    callback of a well-formed data packet, the reply is two cancel bytes, the
    packet count is 0 again and this call returns [YMODEM_TX_PENDING]; every
    later call returns [YMODEM_WRITE_ERR], whichever code the sink gave, and
    does nothing. *)
Theorem data_refused_by_the_sink (y : ymodem_t) (w : world Sink)
    (hd sq comp : Z) (payload : list Z) (c1 c2 : Z) :
  awaiting_header y -> wf_ymodem y -> eotReceived y <> 1 ->
  packetsReceived y <> 0 ->
  framed hd payload -> complement_ok sq comp ->
  Z.land sq 0xFF = expected_sequence y ->
  Forall is_byte payload -> crc_ok payload c1 c2 ->
  let view := data_view y payload c1 c2 in
  fst (cb (sink w) YMODEM_FILE_CB_DATA (Some view) (payload_size hd))
    <> YMODEM_OK ->
  exists y',
    receive_bytes cb y w (packet hd sq comp payload c1 c2) =
      Ret (replicate (length payload + 4) YMODEM_OK ++ [YMODEM_TX_PENDING],
           y',
           ymodem_WriteSerial y'
             (mk_world
                (snd (cb (sink w) YMODEM_FILE_CB_DATA (Some view) (payload_size hd)))
                (trace w ++ [EvFileCallback YMODEM_FILE_CB_DATA (Some view)
                               (payload_size hd)]))) /\
    take (Z.to_nat (payload_size hd)) view = payload /\
    reply y' = [CA; CA] /\ nextStatus y' = YMODEM_WRITE_ERR /\
    packetsReceived y' = 0 /\
    forall w2 bs,
      receive_bytes cb y' w2 bs =
      Ret (replicate (length bs) YMODEM_WRITE_ERR, y', w2).
Proof.
  intros Hah Hwf Heot Hpr Hfr Hc Hsq Hb Hcrc view Hrej.
  pose proof (data_packet_processed cb y w hd sq comp payload c1 c2
                Hah Hwf Heot Hpr Hfr Hc Hsq Hb Hcrc) as H.
  cbn zeta in H. fold view in H.
  destruct (decide (fst (cb (sink w) YMODEM_FILE_CB_DATA (Some view)
                           (payload_size hd)) = YMODEM_OK)) as [E|_];
    [contradiction|].
  eexists. split; [exact H|].
  split.
  { destruct Hfr as [_ <-]. rewrite Nat2Z.id. apply take_data_view. }
  split; [apply responded_reply; cbn; rewrite (wf_payloadTx y Hwf); lia|].
  split; [apply responded_nextStatus|].
  split; [apply responded_packetsReceived|].
  intros w2 bs. rewrite responded_terminal by tauto.
  rewrite responded_nextStatus. reflexivity.
Qed.

(** The terminating NUL of a name of 256 bytes is stored at index 256 of
    [fileName]. *)
Lemma ymodem_ProcessFirstPacket_name_overrun (y : ymodem_t) (w : world Sink)
    (name rest : list Z) :
  wf_ymodem y ->
  drop 3 (packetData y) = name ++ rest ->
  length name = 256%nat -> Forall (fun c => c <> 0) name ->
  ymodem_ProcessFirstPacket cb y w = Err OutOfBounds.
Proof.
  intros Hwf Hdrop Hlen Hname.
  pose proof (wf_fileName y Hwf) as Hfn.
  destruct name as [|b name']; [discriminate Hlen|]. set (name := b :: name') in *.
  assert (Hb : b <> 0) by (inversion Hname; assumption).
  assert (H3 : load (packetData y) 3 = Ret b).
  { apply (load_nat _ 3). rewrite <- (Nat.add_0_r 3), <- lookup_drop, Hdrop.
    reflexivity. }
  assert (Hc1 : copy_until 256 0 (packetData y) 3 (fileName y) 0 =
                Ret (write_at 0 name (fileName y),
                     Z.of_nat (0 + length name), Z.of_nat (3 + length name))).
  { apply (copy_until_spec 0 (packetData y) name 256 3 0 (fileName y) rest);
      [exact Hdrop|exact Hname|left; exact Hlen|lia]. }
  unfold ymodem_ProcessFirstPacket.
  change YM_PACKET_HEADER with 3.
  change (Z.to_nat YM_FILE_NAME_LENGTH) with 256%nat.
  rewrite H3. cbn [mbind res_bind].
  destruct (Z.eqb_spec b 0) as [|_]; [contradiction|]. cbn [negb].
  rewrite Hc1. cbn [mbind res_bind].
  rewrite store_out_of_bounds by (rewrite length_write_at; lia).
  reflexivity.
Qed.

(** The terminating NUL of a size field of 16 bytes is stored at index 16
    of [fileSizeStr]. *)
Lemma ymodem_ProcessFirstPacket_size_overrun (y : ymodem_t) (w : world Sink)
    (name sz rest : list Z) :
  wf_ymodem y ->
  drop 3 (packetData y) = name ++ 0 :: sz ++ rest ->
  name <> [] -> Forall (fun c => c <> 0) name -> (length name < 256)%nat ->
  length sz = 16%nat -> Forall (fun c => c <> 32) sz ->
  ymodem_ProcessFirstPacket cb y w = Err OutOfBounds.
Proof.
  intros Hwf Hdrop Hne Hname Hnlen Hslen Hsz.
  pose proof (wf_fileName y Hwf) as Hfn.
  pose proof (wf_fileSizeStr y Hwf) as Hfs.
  destruct name as [|b name']; [contradiction|]. set (name := b :: name') in *.
  assert (Hb : b <> 0) by (inversion Hname; assumption).
  assert (H3 : load (packetData y) 3 = Ret b).
  { apply (load_nat _ 3). rewrite <- (Nat.add_0_r 3), <- lookup_drop, Hdrop.
    reflexivity. }
  assert (Hc1 : copy_until 256 0 (packetData y) 3 (fileName y) 0 =
                Ret (write_at 0 name (fileName y),
                     Z.of_nat (0 + length name), Z.of_nat (3 + length name))).
  { apply (copy_until_spec 0 (packetData y) name 256 3 0 (fileName y)
             (0 :: sz ++ rest)); [exact Hdrop|exact Hname| |lia].
    right. split; [lia|]. eexists. reflexivity. }
  assert (Hc2 : copy_until 16 32 (packetData y)
                  (Z.of_nat (3 + length name) + 1) (fileSizeStr y) 0 =
                Ret (write_at 0 sz (fileSizeStr y),
                     Z.of_nat (0 + length sz),
                     Z.of_nat (3 + length name + 1 + length sz))).
  { replace (Z.of_nat (3 + length name) + 1)
      with (Z.of_nat (3 + length name + 1)) by lia.
    apply (copy_until_spec 32 (packetData y) sz 16 (3 + length name + 1) 0
             (fileSizeStr y) rest); [|exact Hsz|left; exact Hslen|lia].
    replace (3 + length name + 1)%nat with (3 + (length name + 1))%nat by lia.
    rewrite <- drop_drop, Hdrop.
    replace (name ++ 0 :: sz ++ rest) with ((name ++ [0]) ++ sz ++ rest)
      by (rewrite <- app_assoc; reflexivity).
    rewrite drop_app_length'; [reflexivity|].
    rewrite length_app. reflexivity. }
  unfold ymodem_ProcessFirstPacket.
  change YM_PACKET_HEADER with 3.
  change (Z.to_nat YM_FILE_NAME_LENGTH) with 256%nat.
  change (Z.to_nat YM_FILE_SIZE_LENGTH) with 16%nat.
  rewrite H3. cbn [mbind res_bind].
  destruct (Z.eqb_spec b 0) as [|_]; [contradiction|]. cbn [negb].
  rewrite Hc1. cbn [mbind res_bind].
  rewrite store_nat by (rewrite length_write_at; lia).
  rewrite write_at_snoc by lia. cbn [mbind res_bind].
  cbn [packetData set_fileName fileSizeStr].
  rewrite Hc2. cbn [mbind res_bind].
  rewrite store_out_of_bounds by (rewrite length_write_at; lia).
  reflexivity.
Qed.

(** A packet that passes the checks but makes the parser of the first
    packet leave an array makes the call on its last byte do so. *)
Lemma receive_packet_fault (y : ymodem_t) (w : world Sink) (hd sq comp : Z)
    (payload : list Z) (c1 c2 : Z) :
  awaiting_header y -> wf_ymodem y -> eotReceived y <> 1 ->
  packetsReceived y = 0 ->
  framed hd payload -> complement_ok sq comp -> Z.land sq 0xFF = 0 ->
  Forall is_byte payload -> crc_ok payload c1 c2 ->
  ymodem_ProcessFirstPacket cb
    (assembled y hd (sq :: comp :: payload ++ [c1]) c2) w = Err OutOfBounds ->
  receive_bytes cb y w (packet hd sq comp payload c1 c2) = Err OutOfBounds.
Proof.
  intros Hah Hwf Heot Hpr Hfr Hc Hsq Hb Hcrc Hp.
  rewrite receive_packet by assumption.
  rewrite complement_ok_eqb by exact Hc.
  rewrite ymodem_ProcessPacket_validated
    by (try assumption; unfold expected_sequence; rewrite Hpr; exact Hsq).
  rewrite Hpr. cbn [Z.eqb]. rewrite Hp. reflexivity.
Qed.

(** X10. A first packet whose payload starts with 256 bytes other than
    NUL passes every check and then makes the parser store the terminating
    NUL at index 256 of [fileName], one element past the end of the array:
    the call that receives the last byte of the packet leaves the behaviour
    C defines.  (Names of up to 255 bytes are stored within the array.) *)
Theorem long_file_name_overruns (y : ymodem_t) (w : world Sink)
    (hd sq comp : Z) (payload : list Z) (c1 c2 : Z) (name rest : list Z) :
  awaiting_header y -> wf_ymodem y -> eotReceived y <> 1 ->
  packetsReceived y = 0 ->
  framed hd payload -> complement_ok sq comp -> Z.land sq 0xFF = 0 ->
  Forall is_byte payload -> crc_ok payload c1 c2 ->
  payload = name ++ rest ->
  length name = 256%nat -> Forall (fun c => c <> 0) name ->
  receive_bytes cb y w (packet hd sq comp payload c1 c2) = Err OutOfBounds /\
  receive_bytes cb y w (removelast (packet hd sq comp payload c1 c2)) =
    Ret (replicate (length payload + 4) YMODEM_OK,
         assembling y hd (sq :: comp :: payload ++ [c1]), w).
Proof.
  intros Hah Hwf Heot Hpr Hfr Hc Hsq Hb Hcrc Hpay Hlen Hname.
  pose proof (payload_size_range hd) as Hps.
  split.
  - apply receive_packet_fault; try assumption.
    apply (ymodem_ProcessFirstPacket_name_overrun _ w name
             (rest ++ [c1; c2] ++ drop (5 + length payload) (packetData y)));
      [| |exact Hlen|exact Hname].
    + apply wf_assembled; [exact Hwf|]. destruct Hfr as [_ Hl].
      cbn [length]. rewrite length_app. cbn [length]. lia.
    + rewrite drop_3_assembled by exact Hwf. unfold data_view.
      rewrite Hpay. rewrite <- !app_assoc. reflexivity.
  - unfold packet.
    replace (removelast (hd :: sq :: comp :: payload ++ [c1; c2]))
      with (hd :: sq :: comp :: payload ++ [c1]).
    2:{ change (hd :: sq :: comp :: payload ++ [c1; c2])
          with ([hd; sq; comp] ++ payload ++ [c1; c2]).
        replace ([hd; sq; comp] ++ payload ++ [c1; c2])
          with (([hd; sq; comp] ++ payload ++ [c1]) ++ [c2])
          by (rewrite <- !app_assoc; reflexivity).
        rewrite removelast_last. reflexivity. }
    destruct Hfr as [Hhd Hl].
    rewrite receive_bytes_cons, receive_header by assumption. fields.
    rewrite receive_bytes_body
      by (try assumption; cbn [length]; rewrite length_app; cbn [length]; lia).
    cbn [length]. rewrite length_app. cbn [length mbind res_bind app].
    replace (length payload + 4)%nat with (S (S (S (length payload + 1)))) by lia.
    reflexivity.
Qed.

(** X11. A first packet whose name is followed by 16 bytes none of which
    is a space passes every check and then makes the parser store the
    terminating NUL at index 16 of [fileSizeStr], one element past the end of
    the array.  A packet that carries a name and no size, the rest of the
    payload being zero, is such a packet. *)
Theorem unterminated_size_field_overruns (y : ymodem_t) (w : world Sink)
    (hd sq comp : Z) (payload : list Z) (c1 c2 : Z) (name sz rest : list Z) :
  awaiting_header y -> wf_ymodem y -> eotReceived y <> 1 ->
  packetsReceived y = 0 ->
  framed hd payload -> complement_ok sq comp -> Z.land sq 0xFF = 0 ->
  Forall is_byte payload -> crc_ok payload c1 c2 ->
  payload = name ++ 0 :: sz ++ rest ->
  name <> [] -> Forall (fun c => c <> 0) name -> (length name < 256)%nat ->
  length sz = 16%nat -> Forall (fun c => c <> 32) sz ->
  receive_bytes cb y w (packet hd sq comp payload c1 c2) = Err OutOfBounds.
Proof.
  intros Hah Hwf Heot Hpr Hfr Hc Hsq Hb Hcrc Hpay Hne Hname Hnlen Hslen Hsz.
  pose proof (payload_size_range hd) as Hps.
  apply receive_packet_fault; try assumption.
  apply (ymodem_ProcessFirstPacket_size_overrun _ w name sz
           (rest ++ [c1; c2] ++ drop (5 + length payload) (packetData y)));
    try assumption.
  - apply wf_assembled; [exact Hwf|]. destruct Hfr as [_ Hl].
    cbn [length]. rewrite length_app. cbn [length]. lia.
  - rewrite drop_3_assembled by exact Hwf. unfold data_view.
    rewrite Hpay. rewrite <- !app_assoc. cbn [app]. rewrite <- !app_assoc.
    reflexivity.
Qed.

End Rejections.

(** ** What every call keeps *)

Lemma load_total (a : list Z) (i : Z) :
  0 <= i < Z.of_nat (length a) -> exists v, load a i = Ret v.
Proof.
  intros Hi. unfold load.
  destruct (Z.leb_spec 0 i); [|lia]. destruct (Z.ltb_spec i (Z.of_nat (length a))); [|lia].
  cbn [andb].
  destruct (lookup_lt_is_Some_2 a (Z.to_nat i) ltac:(lia)) as [v ->].
  eexists. reflexivity.
Qed.

Lemma store_length (a a' : list Z) (i v : Z) :
  store a i v = Ret a' -> length a' = length a.
Proof.
  unfold store. destruct (_ && _); [|discriminate].
  intros [= <-]. apply length_insert.
Qed.

Lemma copy_until_length (n : nat) (stop : Z) (src : list Z) :
  forall (p : Z) (dst : list Z) (i : Z) (dst' : list Z) (i' p' : Z),
  copy_until n stop src p dst i = Ret (dst', i', p') ->
  length dst' = length dst.
Proof.
  induction n as [|n IH]; intros p dst i dst' i' p' H; cbn [copy_until] in H.
  - injection H as <- _ _. reflexivity.
  - apply bind_Ret in H as (c & _ & H).
    destruct (c =? stop); [injection H as <- _ _; reflexivity|].
    apply bind_Ret in H as (d & Hs & H).
    apply IH in H. rewrite H. eapply store_length, Hs.
Qed.

Lemma ymodem_CheckCRC_total (y : ymodem_t) :
  wf_ymodem y ->
  packetSize y = YM_PACKET_SIZE \/ packetSize y = YM_PACKET_1K_SIZE ->
  exists r, ymodem_CheckCRC y = Ret r.
Proof.
  intros Hwf Hs. pose proof (wf_packetData y Hwf) as Hpd.
  unfold ymodem_CheckCRC.
  change YM_PACKET_OVERHEAD with 5. change YM_PACKET_HEADER with 3.
  change YM_PACKET_SIZE with 128 in Hs. change YM_PACKET_1K_SIZE with 1024 in Hs.
  destruct (load_total (packetData y) (packetSize y + 5 - 1)) as [b1 ->];
    [rewrite Hpd; lia|].
  destruct (load_total (packetData y) (packetSize y + 5 - 2)) as [b2 ->];
    [rewrite Hpd; lia|].
  cbn [mbind res_bind]. unfold load_range. rewrite Hpd.
  destruct (Z.leb_spec 0 (packetSize y)); [|lia].
  destruct (Z.leb_spec (3 + packetSize y) (Z.of_nat 1029)); [|lia].
  change (0 <=? 3) with true. cbn [andb mbind res_bind].
  match goal with
  | |- context [negb ?b] => destruct b
  end; eexists; reflexivity.
Qed.

Lemma at_most_one_callback_trace {Sink : Type}
    (cb : Sink -> ymodem_file_cb_e -> option (list Z) -> Z -> ymodem_err_e * Sink)
    (w w1 : world Sink) :
  at_most_one_callback cb w w1 ->
  trace w `prefix_of` trace w1 /\
  callbacks_of YMODEM_FILE_CB_ABORTED (trace w1) =
    callbacks_of YMODEM_FILE_CB_ABORTED (trace w) /\
  serial_writes (trace w1) = serial_writes (trace w).
Proof.
  intros [->|(e & data & len & He & ->)]; [repeat split; reflexivity|].
  cbn [trace]. split; [eexists; reflexivity|].
  unfold callbacks_of, serial_writes.
  rewrite List.filter_app, omap_app. cbn [List.filter is_callback_of omap].
  rewrite bool_decide_eq_false_2 by exact He.
  rewrite !app_nil_r. split; reflexivity.
Qed.

Lemma ymodem_WriteSerial_trace {Sink : Type} (y : ymodem_t) (w : world Sink) :
  trace w `prefix_of` trace (ymodem_WriteSerial y w) /\
  callbacks_of YMODEM_FILE_CB_ABORTED (trace (ymodem_WriteSerial y w)) =
    callbacks_of YMODEM_FILE_CB_ABORTED (trace w) /\
  (serialWriteFxn y <> None ->
   serial_writes (trace (ymodem_WriteSerial y w)) =
     serial_writes (trace w) ++ [reply y]) /\
  (serialWriteFxn y = None -> ymodem_WriteSerial y w = w).
Proof.
  unfold ymodem_WriteSerial. destruct (serialWriteFxn y) as [f|].
  - cbn [trace]. split; [eexists; reflexivity|].
    unfold callbacks_of, serial_writes.
    rewrite List.filter_app, omap_app. cbn [List.filter is_callback_of omap].
    rewrite app_nil_r. split; [reflexivity|].
    split; [intros _; reflexivity|discriminate].
  - split; [reflexivity|]. split; [reflexivity|].
    split; [intros H; contradiction H; reflexivity|intros _; reflexivity].
Qed.

Section Safety.

Context {Sink : Type}.
Variable cb : Sink -> ymodem_file_cb_e -> option (list Z) -> Z -> ymodem_err_e * Sink.

Lemma call_FileCallback_once (w : world Sink) (e : ymodem_file_cb_e)
    (data : option (list Z)) (len : Z) :
  e <> YMODEM_FILE_CB_ABORTED ->
  at_most_one_callback cb w (snd (call_FileCallback cb w e data len)).
Proof.
  intros He. right. exists e, data, len. split; [exact He|].
  unfold call_FileCallback. destruct (cb (sink w) e data len). reflexivity.
Qed.

(** The parser of the first packet keeps the sizes of the arrays it
    writes and invokes the callback at most once. *)
Lemma ymodem_ProcessFirstPacket_inv (y y1 : ymodem_t) (w w1 : world Sink)
    (ret : ym_ret_t) :
  ymodem_ProcessFirstPacket cb y w = Ret (ret, y1, w1) ->
  length (fileName y1) = length (fileName y) /\
  length (fileSizeStr y1) = length (fileSizeStr y) /\
  at_most_one_callback cb w w1.
Proof.
  unfold ymodem_ProcessFirstPacket. intros H.
  apply bind_Ret in H as (b & _ & H).
  destruct (negb (b =? 0));
    [|injection H as _ <- <-; repeat split; left; reflexivity].
  apply bind_Ret in H as ([[fn i] p] & Hc1 & H).
  apply bind_Ret in H as (fn' & Hs1 & H).
  apply bind_Ret in H as ([[fs i'] p'] & Hc2 & H).
  apply bind_Ret in H as (fs' & Hs2 & H).
  apply bind_Ret in H as ([r num] & _ & H).
  apply copy_until_length in Hc1, Hc2. apply store_length in Hs1, Hs2.
  cbn [fileSizeStr set_fileName] in Hc2.
  pose proof (call_FileCallback_once w YMODEM_FILE_CB_NAME
                (Some (fileName (set_fileSize num
                         (set_fileSizeStr fs' (set_fileName fn' y)))))
                (fileSize (set_fileSize num
                         (set_fileSizeStr fs' (set_fileName fn' y))))
                ltac:(discriminate)) as Hw.
  destruct (call_FileCallback cb w YMODEM_FILE_CB_NAME _ _) as [err w'].
  injection H as _ <- <-. cbn [fileName fileSizeStr set_packetsReceived
    set_fileSize set_fileSizeStr set_fileName].
  split; [congruence|]. split; [congruence|]. exact Hw.
Qed.

Lemma ymodem_ProcessPacket_inv (y y1 : ymodem_t) (w w1 : world Sink)
    (ret : ym_ret_t) :
  wf_ymodem y ->
  ymodem_ProcessPacket cb y w = Ret (ret, y1, w1) ->
  wf_ymodem y1 /\ at_most_one_callback cb w w1.
Proof.
  intros Hwf H. pose proof H as Hp.
  apply ymodem_ProcessPacket_processed in Hp.
  unfold ymodem_ProcessPacket in H.
  destruct (eotReceived y =? 1).
  { pose proof (call_FileCallback_once w YMODEM_FILE_CB_END None 0
                  ltac:(discriminate)) as Hw.
    destruct (call_FileCallback cb w YMODEM_FILE_CB_END None 0).
    injection H as _ <- <-. split; [exact Hwf|exact Hw]. }
  apply bind_Ret in H as (sq & _ & H).
  destruct (negb _); [injection H as _ <- <-; split; [exact Hwf|left; reflexivity]|].
  apply bind_Ret in H as (crc & _ & H).
  destruct (decide (crc <> YM_OK));
    [injection H as _ <- <-; split; [exact Hwf|left; reflexivity]|].
  destruct (packetsReceived y =? 0).
  - apply ymodem_ProcessFirstPacket_inv in H as (L1 & L2 & Hw).
    split; [|exact Hw]. eapply wf_processed; eassumption.
  - unfold ymodem_ProcessDataPacket in H.
    pose proof (call_FileCallback_once w YMODEM_FILE_CB_DATA
                  (Some (drop (Z.to_nat YM_PACKET_HEADER) (packetData y)))
                  (packetSize y) ltac:(discriminate)) as Hw.
    destruct (call_FileCallback cb w YMODEM_FILE_CB_DATA _ _) as [err w'].
    injection H as _ <- <-. split; [exact Hwf|exact Hw].
Qed.

(** Outside the parser of the first packet, processing a packet of one of
    the two sizes stays within the arrays. *)
Lemma ymodem_ProcessPacket_fault (y : ymodem_t) (w : world Sink) (e : fault) :
  wf_ymodem y ->
  packetSize y = YM_PACKET_SIZE \/ packetSize y = YM_PACKET_1K_SIZE ->
  ymodem_ProcessPacket cb y w = Err e ->
  e = OutOfBounds /\ eotReceived y <> 1 /\ packetsReceived y = 0.
Proof.
  intros Hwf Hs H. split; [eapply ymodem_ProcessPacket_Err, H|].
  unfold ymodem_ProcessPacket in H.
  destruct (Z.eqb_spec (eotReceived y) 1) as [|Heot].
  { destruct (call_FileCallback cb w YMODEM_FILE_CB_END None 0). discriminate. }
  split; [exact Heot|].
  destruct (load_total (packetData y) YM_PACKET_SEQNO_INDEX) as [sq Hsq].
  { rewrite (wf_packetData y Hwf). unfold YM_PACKET_SEQNO_INDEX. lia. }
  rewrite Hsq in H. cbn [mbind res_bind] in H.
  destruct (negb _); [discriminate|].
  destruct (ymodem_CheckCRC_total y Hwf Hs) as [crc Hcrc].
  rewrite Hcrc in H. cbn [mbind res_bind] in H.
  destruct (decide (crc <> YM_OK)); [discriminate|].
  destruct (Z.eqb_spec (packetsReceived y) 0) as [E|_]; [exact E|discriminate].
Qed.

(** One step of the framer from a consistent session. *)
Lemma receive_step_inv (y : ymodem_t) (w : world Sink) (c : Z) :
  framer_inv y ->
  match receive_step cb y w c with
  | Ret (ret, y1, w1) =>
      framer_inv y1 /\ at_most_one_callback cb w w1 /\ (ret = YM_OK -> w1 = w)
  | Err e =>
      e = OutOfBounds /\ startOfPacket y = 0 /\
      packetBytes y = packetSize y + 4 /\
      packetsReceived y = 0 /\ eotReceived y <> 1
  end.
Proof.
  intros (Hwf & Hn & [(Hs & Hb)|(Hs & Hsz & Hb)]).
  - rewrite receive_step_header by (rewrite Hs; discriminate).
    assert (Hy : framer_inv y)
      by (split; [exact Hwf|split; [exact Hn|left; split; assumption]]).
    destruct (c =? SOH).
    { split; [|split; [left; reflexivity|reflexivity]].
      split; [exact Hwf|]. split; [exact Hn|]. right. fields. rewrite Hb.
      change (u16 (0 + 1)) with 1. split; [reflexivity|].
      split; [left; reflexivity|]. change YM_PACKET_SIZE with 128. lia. }
    destruct (c =? STX).
    { split; [|split; [left; reflexivity|reflexivity]].
      split; [exact Hwf|]. split; [exact Hn|]. right. fields. rewrite Hb.
      change (u16 (0 + 1)) with 1. split; [reflexivity|].
      split; [right; reflexivity|]. change YM_PACKET_1K_SIZE with 1024. lia. }
    destruct (c =? EOT).
    { split; [|split; [left; reflexivity|discriminate]].
      split; [exact Hwf|]. split; [exact Hn|]. left. split; assumption. }
    destruct (c =? CA).
    { split; [exact Hy|]. split; [left; reflexivity|intros _; reflexivity]. }
    destruct (_ || _);
      (split; [exact Hy|]; split; [left; reflexivity|intros _; reflexivity]).
  - pose proof (wf_packetData y Hwf) as Hpd.
    change YM_PACKET_SIZE with 128 in Hsz.
    change YM_PACKET_1K_SIZE with 1024 in Hsz.
    unfold receive_step. rewrite Hs. cbn [Z.eqb negb].
    change YM_PACKET_OVERHEAD with 5.
    unfold store_packet_byte. rewrite store_Z by (rewrite Hpd; lia).
    cbn [mbind res_bind].
    assert (Hu : u16 (packetBytes y + 1) = packetBytes y + 1)
      by (apply u16_small; lia).
    rewrite Hu.
    set (pd := <[Z.to_nat (packetBytes y) := c]> (packetData y)).
    assert (Hpd' : length pd = 1029%nat)
      by (unfold pd; rewrite length_insert; exact Hpd).
    pose (y2 := set_packetData pd (set_packetBytes (packetBytes y + 1) y)).
    assert (Hwf2 : wf_ymodem y2).
    { destruct Hwf as (W1 & W2 & W3 & W4). unfold wf_ymodem, y2.
      fields. rewrite Hpd'. tauto. }
    destruct (Z.ltb_spec (packetBytes y) (packetSize y + 5 - 1)) as [Hlt|Hge].
    + split; [|split; [left; reflexivity|reflexivity]].
      split; [exact Hwf2|]. split; [exact Hn|]. right. unfold y2. fields.
      split; [exact Hs|]. split; [exact Hsz|]. lia.
    + fields.
      destruct (load_total pd YM_PACKET_SEQNO_INDEX) as [sq ->];
        [rewrite Hpd'; unfold YM_PACKET_SEQNO_INDEX; lia|].
      destruct (load_total pd YM_PACKET_SEQNO_COMP_INDEX) as [comp ->];
        [rewrite Hpd'; unfold YM_PACKET_SEQNO_COMP_INDEX; lia|].
      cbn [mbind res_bind].
      destruct (negb _).
      { split; [|split; [left; reflexivity|discriminate]].
        split; [exact Hwf2|]. split; [exact Hn|]. left. split; reflexivity. }
      fold y2.
      destruct (ymodem_ProcessPacket cb y2 w) as [[[ret y3] w3]|e] eqn:Hp;
        cbn [mbind res_bind].
      * pose proof (ymodem_ProcessPacket_not_OK cb _ _ _ _ _ Hp) as Hret.
        pose proof (ymodem_ProcessPacket_processed cb _ _ _ _ _ Hp)
          as (fn & fs & size & count & Hy3).
        apply ymodem_ProcessPacket_inv in Hp as (Hwf3 & Hw); [|exact Hwf2].
        split; [|split; [exact Hw|intros E; contradiction]].
        split; [exact Hwf3|]. split; [rewrite Hy3; exact Hn|].
        left. split; reflexivity.
      * apply ymodem_ProcessPacket_fault in Hp as (-> & Heot & Hpr);
          [|exact Hwf2|exact Hsz].
        split; [reflexivity|]. split; [reflexivity|]. split; [lia|].
        split; [exact Hpr|exact Heot].
Qed.

(** One call from a consistent session. *)
Lemma ymodem_ReceiveByte_step (y : ymodem_t) (w : world Sink) (c : Z) :
  framer_inv y ->
  match ymodem_ReceiveByte cb y w c with
  | Ret (r, y', w') =>
      framer_inv y' /\ initialized y' = YM_INSTANCE_INIT_MASK /\
      serialWriteFxn y' = serialWriteFxn y /\
      (nextStatus y <> YMODEM_OK ->
       r = nextStatus y /\ nextStatus y' = nextStatus y /\ w' = w) /\
      (nextStatus y = YMODEM_OK ->
       prevC y' = c /\
       ((r = YMODEM_OK /\ nextStatus y' = YMODEM_OK /\ reply y' = [] /\ w' = w) \/
        (r = YMODEM_TX_PENDING /\ reply y' <> [] /\
         exists w1, at_most_one_callback cb w w1 /\
                    w' = ymodem_WriteSerial y' w1)))
  | Err e =>
      e = OutOfBounds /\ nextStatus y = YMODEM_OK /\ startOfPacket y = 0 /\
      packetBytes y = packetSize y + 4 /\
      packetsReceived y = 0 /\ eotReceived y <> 1
  end.
Proof.
  intros Hinv.
  destruct (decide (nextStatus y = YMODEM_OK)) as [Hs|Hs].
  - rewrite ymodem_ReceiveByte_nominal by exact Hs.
    pose proof (receive_step_inv (set_initialized YM_INSTANCE_INIT_MASK y) w c
                  Hinv) as Hstep.
    destruct (receive_step cb _ w c) as [[[ret y1] w1]|e] eqn:Hrs;
      cbn [mbind res_bind].
    2:{ destruct Hstep as (-> & H1 & H2 & H3 & H4). repeat split; assumption. }
    destruct Hstep as ((Hwf1 & Hn1 & Hfr1) & Hw & Hok).
    apply receive_step_fields in Hrs as (Hi1 & Hs1 & _ & _ & Hf1 & _).
    cbn [initialized nextStatus serialWriteFxn set_initialized] in Hi1, Hs1, Hf1.
    rewrite respond_spec.
    pose proof (responded_fields y1 c ret)
      as (F1 & F2 & _ & _ & _ & _ & F7 & _ & F9 & F10 & F11 & _).
    pose proof (responded_reply y1 c ret
                  ltac:(rewrite (wf_payloadTx y1 Hwf1); lia)) as Hr.
    pose proof (responded_nextStatus y1 c ret) as Hns.
    assert (Hinv' : framer_inv (responded y1 c ret)).
    { split; [apply wf_responded, Hwf1|].
      split; [rewrite Hns, Hs1, Hs; destruct ret; discriminate|].
      rewrite F7, F9, F10. exact Hfr1. }
    assert (Hi' : initialized (responded y1 c ret) = YM_INSTANCE_INIT_MASK).
    { rewrite F2, Hi1. destruct (decide _); reflexivity. }
    destruct (decide (ret = YM_OK)) as [->|Hret].
    + split; [exact Hinv'|]. split; [exact Hi'|].
      split; [rewrite F11; exact Hf1|].
      split; [intros E; contradiction|]. intros _. split; [exact F1|].
      left. split; [reflexivity|]. split; [rewrite Hns, Hs1; exact Hs|].
      split; [exact Hr|]. apply Hok. reflexivity.
    + split; [exact Hinv'|]. split; [exact Hi'|].
      split; [rewrite F11; exact Hf1|].
      split; [intros E; contradiction|]. intros _. split; [exact F1|].
      right. split; [reflexivity|].
      split; [rewrite Hr; destruct ret; solve [discriminate|contradiction]|].
      exists w1. split; [exact Hw|reflexivity].
  - rewrite ymodem_ReceiveByte_sticky by exact Hs.
    split; [exact Hinv|]. split; [reflexivity|]. split; [reflexivity|].
    split; [intros _; repeat split|]. intros E; contradiction.
Qed.

(** X12. A call on a consistent session, whatever the byte, leaves a
    consistent and initialised session.  It returns [YMODEM_OK] or
    [YMODEM_TX_PENDING] while the status is [YMODEM_OK]: with [YMODEM_OK]
    nothing was sent and no callback was invoked; with [YMODEM_TX_PENDING]
    a non-empty reply was handed to the serial write function, after at most
    one callback, which is never the aborted one.  A terminal status is
    returned by the calls after the one that reached it.  The only call that
    can leave an array is the one that receives the last byte of a first
    packet. *)
Theorem ymodem_ReceiveByte_keeps_consistent (y : ymodem_t) (w : world Sink)
    (c : Z) :
  framer_inv y ->
  (exists r y' w',
     ymodem_ReceiveByte cb y w c = Ret (r, y', w') /\
     framer_inv y' /\ initialized y' = YM_INSTANCE_INIT_MASK /\
     serialWriteFxn y' = serialWriteFxn y /\
     (nextStatus y <> YMODEM_OK ->
      r = nextStatus y /\ nextStatus y' = nextStatus y /\ w' = w) /\
     (nextStatus y = YMODEM_OK ->
      prevC y' = c /\
      ((r = YMODEM_OK /\ nextStatus y' = YMODEM_OK /\ reply y' = [] /\ w' = w) \/
       (r = YMODEM_TX_PENDING /\ reply y' <> [] /\
        exists w1, at_most_one_callback cb w w1 /\
                   w' = ymodem_WriteSerial y' w1)))) \/
  (ymodem_ReceiveByte cb y w c = Err OutOfBounds /\
   nextStatus y = YMODEM_OK /\ startOfPacket y = 0 /\
   packetBytes y = packetSize y + 4 /\
   packetsReceived y = 0 /\ eotReceived y <> 1).
Proof.
  intros Hinv. pose proof (ymodem_ReceiveByte_step y w c Hinv) as H.
  destruct (ymodem_ReceiveByte cb y w c) as [[[r y'] w']|e].
  - left. exists r, y', w'. split; [reflexivity|exact H].
  - right. destruct H as (-> & H). split; [reflexivity|exact H].
Qed.

(** What a sequence of calls does to the trace. *)
Lemma receive_bytes_inv (bs : list Z) : forall (y : ymodem_t) (w : world Sink),
  framer_inv y ->
  match receive_bytes cb y w bs with
  | Ret (rs, y', w') =>
      framer_inv y' /\ length rs = length bs /\
      serialWriteFxn y' = serialWriteFxn y /\
      trace w `prefix_of` trace w' /\
      callbacks_of YMODEM_FILE_CB_ABORTED (trace w') =
        callbacks_of YMODEM_FILE_CB_ABORTED (trace w) /\
      (serialWriteFxn y <> None ->
       length (serial_writes (trace w')) =
         (length (serial_writes (trace w)) + pending rs)%nat) /\
      (serialWriteFxn y = None ->
       serial_writes (trace w') = serial_writes (trace w))
  | Err e => e = OutOfBounds
  end.
Proof.
  induction bs as [|c bs IH]; intros y w Hinv.
  - cbn [receive_bytes]. split; [exact Hinv|]. do 4 (split; [reflexivity|]).
    split; [intros _; unfold pending; cbn; lia|intros _; reflexivity].
  - rewrite receive_bytes_cons.
    pose proof (ymodem_ReceiveByte_step y w c Hinv) as Hstep.
    destruct (ymodem_ReceiveByte cb y w c) as [[[r y1] w1]|e];
      cbn [mbind res_bind]; [|apply Hstep].
    destruct Hstep as (Hinv1 & _ & Hf1 & Hst & Hnom).
    specialize (IH y1 w1 Hinv1).
    destruct (receive_bytes cb y1 w1 bs) as [[[rs y2] w2]|e];
      cbn [mbind res_bind]; [|exact IH].
    destruct IH as (Hinv2 & Hlen & Hf2 & Hpre & Hcb & Hsw & Hnone).
    assert (Hone : trace w `prefix_of` trace w1 /\
                   callbacks_of YMODEM_FILE_CB_ABORTED (trace w1) =
                     callbacks_of YMODEM_FILE_CB_ABORTED (trace w) /\
                   (serialWriteFxn y <> None ->
                    length (serial_writes (trace w1)) =
                      (length (serial_writes (trace w)) + pending [r])%nat) /\
                   (serialWriteFxn y = None ->
                    serial_writes (trace w1) = serial_writes (trace w))).
    { destruct (decide (nextStatus y = YMODEM_OK)) as [Hs|Hs].
      - destruct (Hnom Hs) as (_ & [(-> & _ & _ & ->)|(-> & _ & w0 & Hw0 & ->)]).
        + do 2 (split; [reflexivity|]).
          split; [|intros _; reflexivity]. intros _. unfold pending.
          cbn [List.filter]. rewrite bool_decide_eq_false_2 by discriminate.
          cbn. lia.
        + apply at_most_one_callback_trace in Hw0 as (P0 & C0 & S0).
          pose proof (ymodem_WriteSerial_trace y1 w0) as (P1 & C1 & S1 & N1).
          split; [etrans; eassumption|]. split; [congruence|].
          rewrite Hf1 in S1, N1. split.
          * intros Hsome. rewrite (S1 Hsome), length_app, S0.
            unfold pending. cbn [List.filter].
            rewrite bool_decide_eq_true_2 by reflexivity. cbn. lia.
          * intros Hnone'. rewrite (N1 Hnone'). exact S0.
      - destruct (Hst Hs) as (-> & _ & ->).
        destruct Hinv as (_ & Hn & _).
        do 2 (split; [reflexivity|]).
        split; [|intros _; reflexivity]. intros _. unfold pending.
        cbn [List.filter]. rewrite bool_decide_eq_false_2 by exact Hn.
        cbn. lia. }
    destruct Hone as (P1 & C1 & S1 & N1).
    split; [exact Hinv2|]. split; [cbn [length]; lia|].
    split; [congruence|]. split; [etrans; eassumption|].
    split; [congruence|]. rewrite Hf1 in Hsw, Hnone.
    split.
    + intros Hsome. rewrite (Hsw Hsome), (S1 Hsome).
      unfold pending. cbn [List.filter].
      destruct (bool_decide (r = YMODEM_TX_PENDING)); cbn [length]; lia.
    + intros Hn0. rewrite (Hnone Hn0). apply N1, Hn0.
Qed.

(** X13. Whatever bytes a consistent session is fed, either a call leaves
    an array in the parser of the first packet, or every call returns, the
    session stays consistent, the trace only grows, the callback is never
    invoked with [YMODEM_FILE_CB_ABORTED], and the serial write function, if
    there is one, has been called exactly once for each call that returned
    [YMODEM_TX_PENDING]. *)
Theorem receive_bytes_keeps_consistent (y : ymodem_t) (w : world Sink)
    (bs : list Z) :
  framer_inv y ->
  (exists rs y' w',
     receive_bytes cb y w bs = Ret (rs, y', w') /\
     framer_inv y' /\ length rs = length bs /\
     serialWriteFxn y' = serialWriteFxn y /\
     trace w `prefix_of` trace w' /\
     callbacks_of YMODEM_FILE_CB_ABORTED (trace w') =
       callbacks_of YMODEM_FILE_CB_ABORTED (trace w) /\
     (serialWriteFxn y <> None ->
      length (serial_writes (trace w')) =
        (length (serial_writes (trace w)) + pending rs)%nat) /\
     (serialWriteFxn y = None ->
      serial_writes (trace w') = serial_writes (trace w))) \/
  receive_bytes cb y w bs = Err OutOfBounds.
Proof.
  intros Hinv. pose proof (receive_bytes_inv bs y w Hinv) as H.
  destruct (receive_bytes cb y w bs) as [[[rs y'] w']|e].
  - left. exists rs, y', w'. split; [reflexivity|exact H].
  - right. rewrite H. reflexivity.
Qed.

End Safety.

(** ** Errors the checksum detects *)

Lemma lxor_cancel_r (a b c : Z) : Z.lxor a c = Z.lxor b c -> a = b.
Proof.
  intros E.
  assert (Ha : a = Z.lxor (Z.lxor a c) c)
    by (rewrite Z.lxor_assoc, Z.lxor_nilpotent, Z.lxor_0_r; reflexivity).
  assert (Hb : b = Z.lxor (Z.lxor b c) c)
    by (rewrite Z.lxor_assoc, Z.lxor_nilpotent, Z.lxor_0_r; reflexivity).
  rewrite Ha, Hb, E. reflexivity.
Qed.

Lemma lxor_cancel_l (a b c : Z) : Z.lxor c a = Z.lxor c b -> a = b.
Proof. rewrite !(Z.lxor_comm c). apply lxor_cancel_r. Qed.

Lemma crc_shift_cases (c : Z) :
  0 <= c < 65536 ->
  crc_shift c =
  if 32768 <=? c then Z.lxor (2 * (c - 32768)) YM_CRC_POLY else 2 * c.
Proof.
  intros H. unfold crc_shift. rewrite testbit15 by exact H.
  rewrite <- u16_land. unfold u16. rewrite Z.shiftl_mul_pow2 by lia.
  change (2 ^ 1) with 2.
  destruct (Z.leb_spec 32768 c).
  - f_equal. div_lia.
  - rewrite Z.lxor_0_r. div_lia.
Qed.

(** The bit that leaves the register is the low bit of the result. *)
Lemma crc_shift_odd (c : Z) :
  0 <= c < 65536 -> Z.odd (crc_shift c) = (32768 <=? c).
Proof.
  intros H. rewrite crc_shift_cases by exact H.
  destruct (32768 <=? c).
  - rewrite <- Z.bit0_odd, Z.lxor_spec, !Z.bit0_odd, Z.odd_mul. reflexivity.
  - rewrite Z.odd_mul. reflexivity.
Qed.

(** A shift of the register loses nothing. *)
Lemma crc_shift_inj (a b : Z) :
  0 <= a < 65536 -> 0 <= b < 65536 -> crc_shift a = crc_shift b -> a = b.
Proof.
  intros Ha Hb E. pose proof (f_equal Z.odd E) as Ho.
  rewrite !crc_shift_odd in Ho by assumption.
  rewrite !crc_shift_cases in E by assumption. rewrite <- Ho in E.
  destruct (32768 <=? a).
  - apply lxor_cancel_r in E. lia.
  - lia.
Qed.

Lemma iter_crc_shift_inj (n : nat) (a b : Z) :
  0 <= a < 65536 -> 0 <= b < 65536 ->
  Nat.iter n crc_shift a = Nat.iter n crc_shift b -> a = b.
Proof.
  intros Ha Hb. induction n as [|n IH]; [intros E; exact E|].
  rewrite !Nat.iter_succ. intros E. apply IH.
  apply crc_shift_inj; [apply iter_crc_shift_range, Ha|
                        apply iter_crc_shift_range, Hb|exact E].
Qed.

Lemma byte_u16_range (b : Z) : is_byte b -> 0 <= b < 65536.
Proof. unfold is_byte. lia. Qed.

Lemma crc16_xmodem_byte_range (c b : Z) :
  0 <= c < 65536 -> is_byte b -> 0 <= crc16_xmodem_byte c b < 65536.
Proof.
  intros Hc Hb. rewrite crc16_xmodem_byte_spec by assumption.
  apply lxor_u16_range; apply iter_crc_shift_range;
    [exact Hc|apply byte_u16_range, Hb].
Qed.

Lemma fold_crc16_xmodem_byte_range (l : list Z) : forall s,
  0 <= s < 65536 -> Forall is_byte l ->
  0 <= fold_left crc16_xmodem_byte l s < 65536.
Proof.
  induction l as [|c l IH]; intros s Hs Hl; [exact Hs|].
  inversion Hl as [|? ? Hc Hl']; subst. cbn [fold_left].
  apply IH; [apply crc16_xmodem_byte_range; assumption|exact Hl'].
Qed.

(** Two registers that differ still differ after the same byte. *)
Lemma crc16_xmodem_byte_inj_state (x z c : Z) :
  0 <= x < 65536 -> 0 <= z < 65536 -> is_byte c ->
  crc16_xmodem_byte x c = crc16_xmodem_byte z c -> x = z.
Proof.
  intros Hx Hz Hc E. rewrite !crc16_xmodem_byte_spec in E by assumption.
  apply lxor_cancel_r in E. apply iter_crc_shift_inj in E; assumption.
Qed.

(** Two different bytes take a register to different registers. *)
Lemma crc16_xmodem_byte_inj_byte (s b b' : Z) :
  0 <= s < 65536 -> is_byte b -> is_byte b' ->
  crc16_xmodem_byte s b = crc16_xmodem_byte s b' -> b = b'.
Proof.
  intros Hs Hb Hb' E. rewrite !crc16_xmodem_byte_spec in E by assumption.
  apply lxor_cancel_l in E.
  apply iter_crc_shift_inj in E; [exact E|apply byte_u16_range..]; assumption.
Qed.

Lemma fold_crc16_xmodem_byte_inj (l : list Z) : forall x z,
  0 <= x < 65536 -> 0 <= z < 65536 -> Forall is_byte l ->
  fold_left crc16_xmodem_byte l x = fold_left crc16_xmodem_byte l z -> x = z.
Proof.
  induction l as [|c l IH]; intros x z Hx Hz Hl E; [exact E|].
  inversion Hl as [|? ? Hc Hl']; subst. cbn [fold_left] in E.
  apply IH in E; [|apply crc16_xmodem_byte_range; assumption..|exact Hl'].
  eapply crc16_xmodem_byte_inj_state; eassumption.
Qed.

Lemma crc16_xmodem_single_byte (pre post : list Z) (b b' : Z) :
  Forall is_byte pre -> Forall is_byte post -> is_byte b -> is_byte b' ->
  crc16_xmodem (pre ++ b :: post) = crc16_xmodem (pre ++ b' :: post) -> b = b'.
Proof.
  intros Hpre Hpost Hb Hb' E. unfold crc16_xmodem in E.
  rewrite !fold_left_app in E. cbn [fold_left] in E.
  pose proof (fold_crc16_xmodem_byte_range pre 0 ltac:(lia) Hpre) as Hs.
  apply fold_crc16_xmodem_byte_inj in E;
    [|apply crc16_xmodem_byte_range; assumption..|exact Hpost].
  eapply crc16_xmodem_byte_inj_byte; eassumption.
Qed.

Lemma u16_bytes_eq (x z : Z) :
  0 <= x < 65536 -> 0 <= z < 65536 ->
  Z.shiftr x 8 = Z.shiftr z 8 -> Z.land x 0xFF = Z.land z 0xFF -> x = z.
Proof.
  intros Hx Hz. rewrite !Z.shiftr_div_pow2, !land_255_mod by lia.
  change (2 ^ 8) with 256. intros H1 H2. div_lia.
Qed.

Lemma Forall_is_byte_middle (pre post : list Z) (b : Z) :
  Forall is_byte pre -> Forall is_byte post -> is_byte b ->
  Forall is_byte (pre ++ b :: post).
Proof.
  intros Hpre Hpost Hb. apply Forall_app. split; [exact Hpre|].
  constructor; assumption.
Qed.

(** The trailer of a payload does not fit the payload with one byte
    changed. *)
Lemma crc_ok_single_byte (pre post : list Z) (b b' c1 c2 : Z) :
  Forall is_byte pre -> Forall is_byte post -> is_byte b -> is_byte b' ->
  b <> b' ->
  crc_ok (pre ++ b :: post) c1 c2 -> ~ crc_ok (pre ++ b' :: post) c1 c2.
Proof.
  intros Hpre Hpost Hb Hb' Hne [H1 H2] [H1' H2']. apply Hne.
  apply (crc16_xmodem_single_byte pre post); try assumption.
  pose proof (Forall_is_byte_middle pre post b Hpre Hpost Hb) as Hall.
  pose proof (Forall_is_byte_middle pre post b' Hpre Hpost Hb') as Hall'.
  apply u16_bytes_eq.
  - rewrite <- crc16_is_xmodem by exact Hall. apply crc16_range.
  - rewrite <- crc16_is_xmodem by exact Hall'. apply crc16_range.
  - congruence.
  - congruence.
Qed.

Section Corruption.

Context {Sink : Type}.
Variable cb : Sink -> ymodem_file_cb_e -> option (list Z) -> Z -> ymodem_err_e * Sink.

(** X14. [crc16] tells apart any two payloads that differ in one byte.
    So, in a session that awaits a header and has seen no end-of-transmission
    byte, a packet with a valid complement that arrives with one byte of its
    payload changed, the trailer being the one the sender computed, is
    answered NAK: nothing is handed to the sink and the packet count is
    kept.  (After an end-of-transmission byte no packet is checked.) *)
Theorem single_byte_corruption_is_refused (y : ymodem_t) (w : world Sink)
    (hd sq comp : Z) (pre post : list Z) (b b' c1 c2 : Z) :
  awaiting_header y -> wf_ymodem y -> eotReceived y <> 1 ->
  framed hd (pre ++ b :: post) -> complement_ok sq comp ->
  Forall is_byte pre -> Forall is_byte post -> is_byte b -> is_byte b' ->
  b <> b' ->
  crc_ok (pre ++ b :: post) c1 c2 ->
  crc16 (pre ++ b' :: post) <> crc16 (pre ++ b :: post) /\
  exists y',
    receive_bytes cb y w (packet hd sq comp (pre ++ b' :: post) c1 c2) =
      Ret (replicate (length (pre ++ b' :: post) + 4) YMODEM_OK
             ++ [YMODEM_TX_PENDING],
           y', ymodem_WriteSerial y' w) /\
    reply y' = [NAK] /\ nextStatus y' = YMODEM_OK /\
    packetsReceived y' = packetsReceived y /\ awaiting_header y'.
Proof.
  intros Hah Hwf Heot Hfr Hc Hpre Hpost Hb Hb' Hne Hcrc.
  pose proof (Forall_is_byte_middle pre post b Hpre Hpost Hb) as Hall.
  pose proof (Forall_is_byte_middle pre post b' Hpre Hpost Hb') as Hall'.
  split.
  { rewrite !crc16_is_xmodem by assumption. intros E. apply Hne. symmetry.
    apply (crc16_xmodem_single_byte pre post); assumption. }
  assert (Hfr' : framed hd (pre ++ b' :: post)).
  { destruct Hfr as [Hhd Hlen]. split; [exact Hhd|].
    rewrite <- Hlen, !length_app. reflexivity. }
  destruct (crc_ok_bytes _ _ _ Hall Hcrc) as [Hc1 Hc2].
  pose proof (crc_ok_single_byte pre post b b' c1 c2 Hpre Hpost Hb Hb' Hne Hcrc)
    as Hbad.
  set (payload := pre ++ b' :: post) in *.
  set (ya := assembled y hd (sq :: comp :: payload ++ [c1]) c2).
  assert (Hp : ymodem_ProcessPacket cb ya w = Ret (YM_RX_ERROR, ya, w)).
  { unfold ya. rewrite ymodem_ProcessPacket_assembled
      by (try assumption; apply Hfr').
    destruct (Z.eqb_spec (Z.land sq 255) (expected_sequence y)) as [Heq|Hneq];
      [|reflexivity].
    cbn [negb]. rewrite crc_ok_decide by exact Hall'.
    rewrite bool_decide_eq_false_2 by exact Hbad. reflexivity. }
  exists (responded (rearmed ya) c2 YM_RX_ERROR).
  split.
  { apply (receive_packet_result cb y w hd sq comp payload c1 c2 YM_RX_ERROR
             _ _ Hah Hwf Hfr' Hc Hp). }
  split; [apply responded_reply; cbn; rewrite (wf_payloadTx y Hwf); lia|].
  assert (Hs : nextStatus (responded (rearmed ya) c2 YM_RX_ERROR) = YMODEM_OK)
    by reflexivity.
  split; [exact Hs|]. split; [reflexivity|].
  apply awaiting_header_responded; exact Hs.
Qed.

End Corruption.

(** ** A transfer, packet after packet *)

Lemma complement_ok_byte (sq : Z) : is_byte sq -> complement_ok sq (255 - sq).
Proof.
  intros H. unfold complement_ok. apply Z.eqb_eq.
  revert sq H. apply byte_forallb. vm_compute. reflexivity.
Qed.

Lemma expected_sequence_byte (y : ymodem_t) : is_byte (expected_sequence y).
Proof.
  unfold expected_sequence, is_byte. rewrite land_255_mod.
  apply Z.mod_pos_bound. lia.
Qed.

Lemma land_expected_sequence (y : ymodem_t) :
  Z.land (expected_sequence y) 0xFF = expected_sequence y.
Proof.
  unfold expected_sequence. rewrite <- Z.land_assoc. reflexivity.
Qed.

Lemma crc_ok_checksum (payload : list Z) :
  crc_ok payload (Z.shiftr (crc16_xmodem payload) 8)
    (Z.land (crc16_xmodem payload) 0xFF).
Proof. split; reflexivity. Qed.

Lemma pending_app (rs1 rs2 : list ymodem_err_e) :
  pending (rs1 ++ rs2) = (pending rs1 + pending rs2)%nat.
Proof. unfold pending. rewrite List.filter_app, length_app. reflexivity. Qed.

Lemma pending_replicate_OK (n : nat) : pending (replicate n YMODEM_OK) = 0%nat.
Proof.
  unfold pending. induction n as [|n IH]; [reflexivity|].
  cbn [replicate List.filter].
  rewrite bool_decide_eq_false_2 by discriminate. exact IH.
Qed.

(** The results of the calls that receive a packet which is answered. *)
Lemma pending_packet (n : nat) :
  pending (replicate n YMODEM_OK ++ [YMODEM_TX_PENDING]) = 1%nat.
Proof.
  rewrite pending_app, pending_replicate_OK. unfold pending.
  cbn [List.filter]. rewrite bool_decide_eq_true_2 by reflexivity. reflexivity.
Qed.

Lemma delivered_app (t1 t2 : list event) :
  delivered (t1 ++ t2) = delivered t1 ++ delivered t2.
Proof. unfold delivered. apply flat_map_app. Qed.

Lemma delivered_write_events (y : ymodem_t) : delivered (write_events y) = [].
Proof. unfold write_events. destruct (serialWriteFxn y); reflexivity. Qed.

Lemma serial_writes_app (t1 t2 : list event) :
  serial_writes (t1 ++ t2) = serial_writes t1 ++ serial_writes t2.
Proof. unfold serial_writes. apply omap_app. Qed.

Lemma serial_writes_callback (e : ymodem_file_cb_e) (d : option (list Z))
    (l : Z) (t : list event) :
  serial_writes (t ++ [EvFileCallback e d l]) = serial_writes t.
Proof. rewrite serial_writes_app. apply app_nil_r. Qed.

Lemma serial_writes_write_events (y : ymodem_t) :
  serialWriteFxn y <> None -> serial_writes (write_events y) = [reply y].
Proof.
  unfold write_events. destruct (serialWriteFxn y); [reflexivity|].
  intros H. contradiction H. reflexivity.
Qed.

Lemma callbacks_of_app (e : ymodem_file_cb_e) (t1 t2 : list event) :
  callbacks_of e (t1 ++ t2) = callbacks_of e t1 ++ callbacks_of e t2.
Proof. unfold callbacks_of. apply List.filter_app. Qed.

Lemma callbacks_of_write_events (e : ymodem_file_cb_e) (y : ymodem_t) :
  callbacks_of e (write_events y) = [].
Proof. unfold write_events. destruct (serialWriteFxn y); reflexivity. Qed.

Lemma callbacks_of_other (e e' : ymodem_file_cb_e) (d : option (list Z)) (l : Z) :
  e' <> e -> callbacks_of e [EvFileCallback e' d l] = [].
Proof.
  intros H. unfold callbacks_of. cbn [List.filter is_callback_of].
  rewrite bool_decide_eq_false_2 by exact H. reflexivity.
Qed.

Lemma callbacks_of_same (e : ymodem_file_cb_e) (d : option (list Z)) (l : Z) :
  callbacks_of e [EvFileCallback e d l] = [EvFileCallback e d l].
Proof.
  unfold callbacks_of. cbn [List.filter is_callback_of].
  rewrite bool_decide_eq_true_2 by reflexivity. reflexivity.
Qed.

Lemma delivered_other (e : ymodem_file_cb_e) (d : option (list Z)) (l : Z) :
  e <> YMODEM_FILE_CB_DATA -> delivered [EvFileCallback e d l] = [].
Proof. intros H. destruct e; try reflexivity. contradiction H. reflexivity. Qed.

Section Transfer.

Context {Sink : Type}.
Variable cb : Sink -> ymodem_file_cb_e -> option (list Z) -> Z -> ymodem_err_e * Sink.

Lemma receive_bytes_length (bs : list Z) :
  forall (y : ymodem_t) (w : world Sink) rs y' w',
  receive_bytes cb y w bs = Ret (rs, y', w') -> length rs = length bs.
Proof.
  induction bs as [|c bs IH]; intros y w rs y' w' H.
  - injection H as <- _ _. reflexivity.
  - rewrite receive_bytes_cons in H.
    apply bind_Ret in H as ([[r y1] w1] & _ & H).
    apply bind_Ret in H as ([[rs1 y2] w2] & H2 & H).
    injection H as <- _ _. cbn [length]. f_equal. eapply IH, H2.
Qed.

(** One data packet that the sink accepts. *)
Lemma data_packet_step (y : ymodem_t) (w : world Sink) (hd : Z)
    (payload : list Z) :
  awaiting_header y -> wf_ymodem y -> eotReceived y <> 1 ->
  0 < packetsReceived y < 2147483647 ->
  framed hd payload -> Forall is_byte payload ->
  (forall s d l, fst (cb s YMODEM_FILE_CB_DATA d l) = YMODEM_OK) ->
  exists y' w',
    receive_bytes cb y w (checksummed hd (expected_sequence y) payload) =
      Ret (replicate (length payload + 4) YMODEM_OK ++ [YMODEM_TX_PENDING],
           y', w') /\
    awaiting_header y' /\ wf_ymodem y' /\
    eotReceived y' = eotReceived y /\
    packetsReceived y' = packetsReceived y + 1 /\
    expected_sequence y' = (expected_sequence y + 1) mod 256 /\
    serialWriteFxn y' = serialWriteFxn y /\
    fileName y' = fileName y /\ fileSize y' = fileSize y /\
    delivered (trace w') = delivered (trace w) ++ payload /\
    (forall e, e <> YMODEM_FILE_CB_DATA ->
               callbacks_of e (trace w') = callbacks_of e (trace w)) /\
    (serialWriteFxn y <> None ->
     serial_writes (trace w') = serial_writes (trace w) ++ [[ACK]]).
Proof.
  intros Hah Hwf Heot Hpr Hfr Hb Hacc.
  pose proof (payload_size_range hd) as Hps.
  set (sq := expected_sequence y).
  set (c1 := Z.shiftr (crc16_xmodem payload) 8).
  set (c2 := Z.land (crc16_xmodem payload) 0xFF).
  pose proof (data_packet_processed cb y w hd sq (255 - sq) payload c1 c2
                Hah Hwf Heot ltac:(lia) Hfr
                (complement_ok_byte sq (expected_sequence_byte y))
                (land_expected_sequence y) Hb (crc_ok_checksum payload)) as H.
  cbn zeta in H. rewrite Hacc in H.
  destruct (decide (YMODEM_OK = YMODEM_OK)) as [_|Hn]; [|contradiction].
  set (ya := assembled y hd (sq :: 255 - sq :: payload ++ [c1]) c2) in *.
  set (y' := responded
               (rearmed (set_packetsReceived (s32 (packetsReceived y + 1)) ya))
               c2 YM_RX_OK) in *.
  assert (Hwfa : wf_ymodem ya).
  { apply wf_assembled; [exact Hwf|]. destruct Hfr as [_ Hl].
    cbn [length]. rewrite length_app. cbn [length]. lia. }
  assert (Hs : nextStatus y' = YMODEM_OK) by reflexivity.
  assert (Hcount : packetsReceived y' = packetsReceived y + 1).
  { change (packetsReceived y') with (s32 (packetsReceived y + 1)).
    unfold s32. div_lia. }
  assert (Hreply : reply y' = [ACK])
    by (apply responded_reply; cbn; rewrite (wf_payloadTx y Hwf); lia).
  eexists y', _. split; [exact H|].
  split; [apply awaiting_header_responded; exact Hs|].
  split; [apply wf_responded; exact Hwfa|].
  split; [reflexivity|]. split; [exact Hcount|].
  split; [apply expected_sequence_next|].
  do 3 (split; [reflexivity|]).
  pose proof (trace_ymodem_WriteSerial y'
                (mk_world
                   (snd (cb (sink w) YMODEM_FILE_CB_DATA
                           (Some (data_view y payload c1 c2)) (payload_size hd)))
                   (trace w ++ [EvFileCallback YMODEM_FILE_CB_DATA
                                  (Some (data_view y payload c1 c2))
                                  (payload_size hd)]))) as [Ht _].
  rewrite Ht. cbn [trace].
  split.
  { rewrite !delivered_app, delivered_write_events, app_nil_r.
    f_equal. unfold delivered. cbn [flat_map]. rewrite app_nil_r.
    destruct Hfr as [_ <-]. rewrite Nat2Z.id. apply take_data_view. }
  split.
  { intros e He. rewrite !callbacks_of_app, callbacks_of_write_events.
    rewrite callbacks_of_other by congruence. rewrite !app_nil_r. reflexivity. }
  intros Hf. rewrite serial_writes_app, serial_writes_callback.
  rewrite serial_writes_write_events by exact Hf. rewrite Hreply.
  reflexivity.
Qed.

(** A run of data packets that the sink accepts. *)
Lemma data_packets_step (ps : list (Z * list Z)) :
  forall (y : ymodem_t) (w : world Sink),
  awaiting_header y -> wf_ymodem y -> eotReceived y <> 1 ->
  0 < packetsReceived y ->
  packetsReceived y + Z.of_nat (length ps) < 2147483648 ->
  Forall (fun p => framed (fst p) (snd p) /\ Forall is_byte (snd p)) ps ->
  (forall s d l, fst (cb s YMODEM_FILE_CB_DATA d l) = YMODEM_OK) ->
  exists rs y' w',
    receive_bytes cb y w (data_stream (expected_sequence y) ps) =
      Ret (rs, y', w') /\
    awaiting_header y' /\ wf_ymodem y' /\
    eotReceived y' = eotReceived y /\
    packetsReceived y' = packetsReceived y + Z.of_nat (length ps) /\
    serialWriteFxn y' = serialWriteFxn y /\
    fileName y' = fileName y /\ fileSize y' = fileSize y /\
    pending rs = length ps /\
    delivered (trace w') = delivered (trace w) ++ concat (map snd ps) /\
    (forall e, e <> YMODEM_FILE_CB_DATA ->
               callbacks_of e (trace w') = callbacks_of e (trace w)) /\
    (serialWriteFxn y <> None ->
     serial_writes (trace w') =
       serial_writes (trace w) ++ replicate (length ps) [ACK]).
Proof.
  induction ps as [|[hd payload] ps IH]; intros y w Hah Hwf Heot Hpr Hmax Hps Hacc.
  - exists [], y, w. cbn [data_stream receive_bytes length map concat replicate].
    rewrite !app_nil_r. split; [reflexivity|].
    split; [exact Hah|]. split; [exact Hwf|]. split; [reflexivity|].
    split; [cbn; lia|]. do 5 (split; [reflexivity|]).
    split; [intros e _; reflexivity|]. intros _. reflexivity.
  - inversion Hps as [|? ? [Hfr Hb] Hps']; subst. cbn [fst snd] in Hfr, Hb.
    cbn [length] in Hmax.
    destruct (data_packet_step y w hd payload Hah Hwf Heot ltac:(lia) Hfr Hb Hacc)
      as (y1 & w1 & H1 & Hah1 & Hwf1 & Heot1 & Hpr1 & Hsq1 & Hf1 & Hn1 & Hz1 &
          Hd1 & He1 & Hs1).
    destruct (IH y1 w1 Hah1 Hwf1 ltac:(congruence) ltac:(lia) ltac:(lia) Hps' Hacc)
      as (rs & y2 & w2 & H2 & Hah2 & Hwf2 & Heot2 & Hpr2 & Hf2 & Hn2 & Hz2 &
          Hp2 & Hd2 & He2 & Hs2).
    eexists _, y2, w2. split.
    { cbn [data_stream]. rewrite receive_bytes_app, H1. cbn [mbind res_bind].
      rewrite <- Hsq1, H2. reflexivity. }
    split; [exact Hah2|]. split; [exact Hwf2|]. split; [congruence|].
    split; [cbn [length]; lia|]. do 3 (split; [congruence|]).
    split; [rewrite pending_app, pending_packet, Hp2; reflexivity|].
    split.
    { rewrite Hd2, Hd1. cbn [map concat snd]. rewrite <- app_assoc.
      reflexivity. }
    split; [intros e He; rewrite (He2 e He); apply He1, He|].
    intros Hf. rewrite Hs2, Hs1 by congruence. cbn [length replicate].
    rewrite <- app_assoc. reflexivity.
Qed.

(** X15. A session that awaits a header, has received its first packet
    and has seen no end-of-transmission byte is fed a run of data packets,
    numbered from the expected sequence number on, each with its complement
    and its checksum, and its sink accepts data: every packet is
    acknowledged with one ACK, the sink
    receives the payloads in order, whole and once, and the session awaits
    the header of the next packet with the count advanced by the number of
    packets.  The sequence number is the count modulo 256, so runs longer
    than 256 packets are covered. *)
Theorem data_packets_are_delivered_in_order (ps : list (Z * list Z))
    (y : ymodem_t) (w : world Sink) :
  awaiting_header y -> wf_ymodem y -> eotReceived y <> 1 ->
  0 < packetsReceived y ->
  packetsReceived y + Z.of_nat (length ps) < 2147483648 ->
  Forall (fun p => framed (fst p) (snd p) /\ Forall is_byte (snd p)) ps ->
  (forall s d l, fst (cb s YMODEM_FILE_CB_DATA d l) = YMODEM_OK) ->
  exists rs y' w',
    receive_bytes cb y w (data_stream (expected_sequence y) ps) =
      Ret (rs, y', w') /\
    awaiting_header y' /\ wf_ymodem y' /\
    eotReceived y' = eotReceived y /\
    packetsReceived y' = packetsReceived y + Z.of_nat (length ps) /\
    serialWriteFxn y' = serialWriteFxn y /\
    fileName y' = fileName y /\ fileSize y' = fileSize y /\
    pending rs = length ps /\
    delivered (trace w') = delivered (trace w) ++ concat (map snd ps) /\
    (forall e, e <> YMODEM_FILE_CB_DATA ->
               callbacks_of e (trace w') = callbacks_of e (trace w)) /\
    (serialWriteFxn y <> None ->
     serial_writes (trace w') =
       serial_writes (trace w) ++ replicate (length ps) [ACK]).
Proof. apply data_packets_step. Qed.

(** The first packet of a file, handed to a sink that accepts it. *)
Lemma first_packet_step (y : ymodem_t) (w : world Sink) (hd : Z)
    (payload name digits rest : list Z) :
  awaiting_header y -> wf_ymodem y -> eotReceived y <> 1 ->
  packetsReceived y = 0 ->
  framed hd payload -> Forall is_byte payload ->
  payload = name ++ 0 :: digits ++ 32 :: rest ->
  name <> [] -> Forall (fun c => c <> 0) name -> (length name < 256)%nat ->
  Forall is_digit digits -> (length digits <= 10)%nat ->
  (forall s d l, fst (cb s YMODEM_FILE_CB_NAME d l) = YMODEM_OK) ->
  let fn := write_at 0 (name ++ [0]) (fileName y) in
  let size := u32 (decimal digits) in
  exists y' w',
    receive_bytes cb y w (checksummed hd 0 payload) =
      Ret (replicate (length payload + 4) YMODEM_OK ++ [YMODEM_TX_PENDING],
           y', w') /\
    awaiting_header y' /\ wf_ymodem y' /\
    eotReceived y' = eotReceived y /\ packetsReceived y' = 1 /\
    serialWriteFxn y' = serialWriteFxn y /\
    fileName y' = fn /\ c_string fn = name /\ fileSize y' = size /\
    trace w' =
      trace w ++ [EvFileCallback YMODEM_FILE_CB_NAME (Some fn) size] ++
      write_events y' /\
    reply y' = [ACK; CRC16].
Proof.
  intros Hah Hwf Heot Hpr Hfr Hb Hpay Hne Hname Hnlen Hdig Hdlen Hacc fn size.
  pose proof (payload_size_range hd) as Hps.
  set (c1 := Z.shiftr (crc16_xmodem payload) 8).
  set (c2 := Z.land (crc16_xmodem payload) 0xFF).
  assert (Hsz : Forall (fun c => c <> 32) digits).
  { eapply Forall_impl; [|exact Hdig]. unfold is_digit. intros c Hd. lia. }
  pose proof (first_packet_processed cb y w hd 0 (255 - 0) payload c1 c2
                name digits rest Hah Hwf Heot Hpr Hfr
                (complement_ok_byte 0 ltac:(unfold is_byte; lia)) eq_refl
                Hb (crc_ok_checksum payload) Hpay Hne Hname Hnlen Hsz
                ltac:(lia)) as H.
  cbn zeta in H. rewrite parsed_size_digits in H by assumption.
  fold fn size in H. rewrite Hacc in H.
  destruct (decide (YMODEM_OK = YMODEM_OK)) as [_|Hn]; [|contradiction].
  set (ya := assembled y hd (0 :: 255 - 0 :: payload ++ [c1]) c2) in *.
  set (y1 := set_packetsReceived 1
               (set_fileSize size
                  (set_fileSizeStr (write_at 0 (digits ++ [0]) (fileSizeStr y))
                     (set_fileName fn ya)))) in *.
  set (y' := responded (rearmed y1) c2 YM_START_RX) in *.
  assert (Hwfa : wf_ymodem ya).
  { apply wf_assembled; [exact Hwf|]. destruct Hfr as [_ Hl].
    cbn [length]. rewrite length_app. cbn [length]. lia. }
  assert (Hwf1 : wf_ymodem y1).
  { destruct Hwfa as (W1 & W2 & W3 & W4). unfold wf_ymodem, y1. fields.
    unfold fn. rewrite !length_write_at
      by (rewrite ?(wf_fileName y Hwf), ?(wf_fileSizeStr y Hwf), length_app;
          cbn [length]; lia).
    replace (fileName ya) with (fileName y) in W1 by reflexivity.
    replace (fileSizeStr ya) with (fileSizeStr y) in W2 by reflexivity.
    tauto. }
  assert (Hs : nextStatus y' = YMODEM_OK) by reflexivity.
  eexists y', _. split; [exact H|].
  split; [apply awaiting_header_responded; exact Hs|].
  split; [apply wf_responded; exact Hwf1|].
  do 4 (split; [reflexivity|]).
  split.
  { unfold fn, write_at. rewrite take_0. cbn [app]. rewrite <- app_assoc.
    apply c_string_app. exact Hname. }
  split; [reflexivity|].
  split.
  { match goal with
    | |- trace (ymodem_WriteSerial _ ?w0) = _ =>
        pose proof (trace_ymodem_WriteSerial y' w0) as [Ht _]
    end.
    rewrite Ht. cbn [trace]. rewrite <- app_assoc. reflexivity. }
  apply responded_reply. cbn. rewrite (wf_payloadTx y Hwf). lia.
Qed.

(** The end-of-transmission byte. *)
Lemma eot_step (y : ymodem_t) (w : world Sink) :
  awaiting_header y -> wf_ymodem y ->
  exists y',
    ymodem_ReceiveByte cb y w EOT =
      Ret (YMODEM_TX_PENDING, y', ymodem_WriteSerial y' w) /\
    awaiting_header y' /\ wf_ymodem y' /\ eotReceived y' = 1 /\
    serialWriteFxn y' = serialWriteFxn y /\
    fileName y' = fileName y /\ fileSize y' = fileSize y /\
    packetsReceived y' = packetsReceived y /\
    reply y' = [ACK; CRC16].
Proof.
  intros (Hs & Hst & Hb) Hwf.
  rewrite ymodem_ReceiveByte_nominal by exact Hs.
  rewrite receive_step_header
    by (change (startOfPacket y <> 0); rewrite Hst; discriminate).
  change (EOT =? SOH) with false. change (EOT =? STX) with false.
  change (EOT =? EOT) with true. fields. rewrite respond_spec.
  destruct (decide (YM_RX_COMPLETE = YM_OK)) as [E|_]; [discriminate E|].
  eexists. split; [reflexivity|].
  split; [split; [exact Hs|split; [exact Hst|exact Hb]]|].
  split; [apply wf_responded; exact Hwf|].
  do 5 (split; [reflexivity|]).
  apply responded_reply. cbn. rewrite (wf_payloadTx y Hwf). lia.
Qed.

(** The packet that follows the end-of-transmission byte. *)
Lemma closing_packet_step (y : ymodem_t) (w : world Sink) (hd sq comp : Z)
    (payload : list Z) (c1 c2 : Z) :
  awaiting_header y -> wf_ymodem y -> eotReceived y = 1 ->
  framed hd payload -> complement_ok sq comp ->
  exists y' w',
    receive_bytes cb y w (packet hd sq comp payload c1 c2) =
      Ret (replicate (length payload + 4) YMODEM_OK ++ [YMODEM_TX_PENDING],
           y', w') /\
    nextStatus y' = YMODEM_COMPLETE /\ wf_ymodem y' /\
    initialized y' = YM_INSTANCE_INIT_MASK /\
    serialWriteFxn y' = serialWriteFxn y /\
    fileName y' = fileName y /\ fileSize y' = fileSize y /\
    packetsReceived y' = packetsReceived y /\
    trace w' =
      trace w ++ [EvFileCallback YMODEM_FILE_CB_END None 0] ++ write_events y' /\
    reply y' = [ACK].
Proof.
  intros Hah Hwf Heot Hfr Hc.
  pose proof (payload_size_range hd) as Hps.
  set (ya := assembled y hd (sq :: comp :: payload ++ [c1]) c2).
  assert (Hwfa : wf_ymodem ya).
  { apply wf_assembled; [exact Hwf|]. destruct Hfr as [_ Hl].
    cbn [length]. rewrite length_app. cbn [length]. lia. }
  pose proof (ymodem_ProcessPacket_eot cb ya w Heot) as Hp.
  pose proof (receive_packet_result cb y w hd sq comp payload c1 c2 YM_SUCCESS
                _ _ Hah Hwf Hfr Hc Hp) as H.
  eexists _, _. split; [exact H|].
  split; [reflexivity|]. split; [apply wf_responded; exact Hwfa|].
  do 5 (split; [reflexivity|]).
  split.
  { match goal with
    | |- trace (ymodem_WriteSerial ?y0 ?w0) = _ =>
        pose proof (trace_ymodem_WriteSerial y0 w0) as [Ht _]
    end.
    rewrite Ht. unfold call_FileCallback.
    destruct (cb (sink w) YMODEM_FILE_CB_END None 0) as [r s].
    cbn [snd trace]. rewrite <- app_assoc. reflexivity. }
  apply responded_reply. cbn. rewrite (wf_payloadTx y Hwf). lia.
Qed.

(** X16. A whole transfer into a fresh session with a serial write
    function and a sink that accepts everything: the first packet with the
    name and the size, data packets numbered from 1, the end-of-transmission
    byte and one more packet, whose contents do not matter beyond the
    complement.  The sink is told the name and the size once, receives the
    payloads in order and is told the end once; the sender is answered
    ACK 'C', one ACK for each data packet, ACK 'C' and ACK; the session ends
    with the status [YMODEM_COMPLETE], which every later call returns. *)
Theorem complete_transfer (y : ymodem_t) (w : world Sink) (f : ymodem_fxn_t)
    (hd0 : Z) (payload0 name digits rest : list Z) (ps : list (Z * list Z))
    (hd sq comp : Z) (payload : list Z) (c1 c2 : Z) :
  fresh_session y -> wf_ymodem y -> serialWriteFxn y = Some f ->
  (forall s e d l, fst (cb s e d l) = YMODEM_OK) ->
  framed hd0 payload0 -> Forall is_byte payload0 ->
  payload0 = name ++ 0 :: digits ++ 32 :: rest ->
  name <> [] -> Forall (fun c => c <> 0) name -> (length name < 256)%nat ->
  Forall is_digit digits -> (length digits <= 10)%nat ->
  Forall (fun p => framed (fst p) (snd p) /\ Forall is_byte (snd p)) ps ->
  Z.of_nat (length ps) < 2147483647 ->
  framed hd payload -> complement_ok sq comp ->
  let fn := write_at 0 (name ++ [0]) (fileName y) in
  let size := u32 (decimal digits) in
  exists rs y' w',
    receive_bytes cb y w
      (checksummed hd0 0 payload0 ++ data_stream 1 ps ++
       EOT :: packet hd sq comp payload c1 c2) = Ret (rs, y', w') /\
    nextStatus y' = YMODEM_COMPLETE /\
    fileName y' = fn /\ c_string fn = name /\ fileSize y' = size /\
    packetsReceived y' = 1 + Z.of_nat (length ps) /\
    length rs =
      length (checksummed hd0 0 payload0 ++ data_stream 1 ps ++
              EOT :: packet hd sq comp payload c1 c2) /\
    pending rs = (length ps + 3)%nat /\
    delivered (trace w') = delivered (trace w) ++ concat (map snd ps) /\
    callbacks_of YMODEM_FILE_CB_NAME (trace w') =
      callbacks_of YMODEM_FILE_CB_NAME (trace w) ++
      [EvFileCallback YMODEM_FILE_CB_NAME (Some fn) size] /\
    callbacks_of YMODEM_FILE_CB_END (trace w') =
      callbacks_of YMODEM_FILE_CB_END (trace w) ++
      [EvFileCallback YMODEM_FILE_CB_END None 0] /\
    serial_writes (trace w') =
      serial_writes (trace w) ++
      [ACK; CRC16] :: replicate (length ps) [ACK] ++ [[ACK; CRC16]; [ACK]] /\
    forall c w2, ymodem_ReceiveByte cb y' w2 c = Ret (YMODEM_COMPLETE, y', w2).
Proof.
  intros (Hah & Hpr & Heot & _) Hwf Hf Hacc Hfr0 Hb0 Hpay Hne Hname Hnlen Hdig
    Hdlen Hps Hmax Hfr Hc fn size.
  destruct (first_packet_step y w hd0 payload0 name digits rest Hah Hwf
              ltac:(rewrite Heot; discriminate) Hpr Hfr0 Hb0 Hpay Hne Hname
              Hnlen Hdig Hdlen (fun s => Hacc s YMODEM_FILE_CB_NAME))
    as (y1 & w1 & H1 & Hah1 & Hwf1 & Heot1 & Hpr1 & Hf1 & Hfn1 & Hcs & Hsz1 &
        Ht1 & Hr1).
  fold fn in Hfn1, Hcs, Ht1. fold size in Hsz1, Ht1.
  assert (Hsq1 : expected_sequence y1 = 1)
    by (unfold expected_sequence; rewrite Hpr1; reflexivity).
  destruct (data_packets_step ps y1 w1 Hah1 Hwf1
              ltac:(rewrite Heot1, Heot; discriminate) ltac:(lia) ltac:(lia)
              Hps (fun s => Hacc s YMODEM_FILE_CB_DATA))
    as (rs2 & y2 & w2 & H2 & Hah2 & Hwf2 & Heot2 & Hpr2 & Hf2 & Hfn2 & Hsz2 &
        Hp2 & Hd2 & Hcb2 & Hs2).
  rewrite Hsq1 in H2.
  destruct (eot_step y2 w2 Hah2 Hwf2)
    as (y3 & H3 & Hah3 & Hwf3 & Heot3 & Hf3 & Hfn3 & Hsz3 & Hpr3 & Hr3).
  destruct (closing_packet_step y3 (ymodem_WriteSerial y3 w2) hd sq comp payload
              c1 c2 Hah3 Hwf3 Heot3 Hfr Hc)
    as (y4 & w4 & H4 & Hs4 & Hwf4 & Hi4 & Hf4 & Hfn4 & Hsz4 & Hpr4 & Ht4 & Hr4).
  pose proof (trace_ymodem_WriteSerial y3 w2) as [Ht3 _].
  assert (Hsome : forall y0, serialWriteFxn y0 = serialWriteFxn y ->
                             serialWriteFxn y0 <> None)
    by (intros y0 E; rewrite E, Hf; discriminate).
  assert (Hrun : receive_bytes cb y w
                   (checksummed hd0 0 payload0 ++ data_stream 1 ps ++
                    EOT :: packet hd sq comp payload c1 c2) =
                 Ret ((replicate (length payload0 + 4) YMODEM_OK ++
                         [YMODEM_TX_PENDING]) ++
                      rs2 ++ YMODEM_TX_PENDING ::
                      replicate (length payload + 4) YMODEM_OK ++
                        [YMODEM_TX_PENDING], y4, w4)).
  { rewrite receive_bytes_app, H1. cbn [mbind res_bind].
    rewrite receive_bytes_app, H2. cbn [mbind res_bind].
    rewrite receive_bytes_cons, H3. cbn [mbind res_bind].
    rewrite H4. cbn [mbind res_bind]. reflexivity. }
  eexists _, y4, w4. split; [exact Hrun|].
  split; [exact Hs4|]. split; [congruence|]. split; [exact Hcs|].
  split; [congruence|]. split; [lia|].
  split; [eapply receive_bytes_length, Hrun|].
  split.
  { rewrite pending_app, pending_packet, pending_app, Hp2.
    change (YMODEM_TX_PENDING :: ?l) with ([YMODEM_TX_PENDING] ++ l).
    rewrite pending_app, pending_packet.
    unfold pending at 1. cbn [List.filter].
    rewrite bool_decide_eq_true_2 by reflexivity. cbn [length]. lia. }
  rewrite Ht4, Ht3.
  split.
  { rewrite !delivered_app, !delivered_write_events, Hd2, Ht1.
    rewrite !delivered_app, delivered_write_events.
    rewrite !delivered_other by discriminate. rewrite !app_nil_r. reflexivity. }
  split.
  { rewrite !callbacks_of_app, !callbacks_of_write_events.
    rewrite Hcb2 by discriminate. rewrite Ht1.
    rewrite !callbacks_of_app, callbacks_of_write_events, callbacks_of_same.
    rewrite callbacks_of_other by discriminate. rewrite !app_nil_r.
    reflexivity. }
  split.
  { rewrite !callbacks_of_app, !callbacks_of_write_events.
    rewrite Hcb2 by discriminate. rewrite Ht1.
    rewrite !callbacks_of_app, callbacks_of_write_events, callbacks_of_same.
    rewrite callbacks_of_other by discriminate. rewrite !app_nil_r.
    reflexivity. }
  split.
  { rewrite !serial_writes_app.
    rewrite (serial_writes_write_events y4) by (apply Hsome; congruence).
    rewrite (serial_writes_write_events y3) by (apply Hsome; congruence).
    rewrite Hs2 by (apply Hsome; congruence). rewrite Ht1.
    rewrite !serial_writes_app.
    rewrite (serial_writes_write_events y1) by (apply Hsome; congruence).
    rewrite Hr1, Hr3, Hr4.
    change (serial_writes [EvFileCallback YMODEM_FILE_CB_NAME (Some fn) size])
      with (@nil (list Z)).
    change (serial_writes [EvFileCallback YMODEM_FILE_CB_END None 0])
      with (@nil (list Z)).
    rewrite ?app_nil_r. cbn [app]. rewrite <- !app_assoc. reflexivity. }
  intros c w0. rewrite ymodem_ReceiveByte_sticky by (rewrite Hs4; discriminate).
  rewrite Hs4, set_initialized_id by exact Hi4. reflexivity.
Qed.

End Transfer.


(** * The properties on concrete sessions *)

Lemma sticky_status_until_reset_witness :
  ymodem_ReceiveByte accept_all session_aborted world0 SOH =
  Ret (nextStatus session_aborted, session_aborted, world0).
Proof.
  exact (proj1 (sticky_status_until_reset accept_all session_aborted world0
                  ltac:(compute_done) ltac:(compute_done)) SOH).
Defined.

Lemma well_formed_packets_accepted_witness :
  (exists y' w',
     receive_bytes accept_all session0 world0 (checksummed SOH 0 file_bin_payload) =
       Ret (replicate (length file_bin_payload + 4) YMODEM_OK ++ [YMODEM_TX_PENDING],
            y', w') /\
     fileName y' = write_at 0 (file_bin_name ++ [0]) (fileName session0) /\
     fileSize y' = 10 /\ packetsReceived y' = 1 /\ reply y' = [ACK; CRC16]) /\
  (exists y' w',
     receive_bytes accept_all session_named world0 (checksummed SOH 1 data_payload) =
       Ret (replicate (length data_payload + 4) YMODEM_OK ++ [YMODEM_TX_PENDING],
            y', w') /\
     expected_sequence y' = 2 /\ reply y' = [ACK]).
Proof.
  split.
  - destruct (proj1 (well_formed_packets_accepted accept_all)
                session0 world0 SOH 0 (255 - 0) file_bin_payload
                (Z.shiftr (crc16_xmodem file_bin_payload) 8)
                (Z.land (crc16_xmodem file_bin_payload) 0xFF)
                file_bin_name [49; 48] (replicate 116 0))
      as (y' & H & _ & Hn & Hs & Hacc); try compute_done.
    destruct (Hacc eq_refl) as (Hp & _ & Hr & _).
    exists y'. eexists. split; [exact H|]. repeat split; assumption.
  - unshelve epose proof
      (proj2 (well_formed_packets_accepted accept_all)
         session_named world0 SOH 1 (255 - 1) data_payload
         (Z.shiftr (crc16_xmodem data_payload) 8)
         (Z.land (crc16_xmodem data_payload) 0xFF) _ _ _ _ _ _ _ _ _)
      as (y' & H & _ & Hacc); [compute_done..|].
    destruct (Hacc eq_refl) as (_ & Hsq & Hr & _).
    exists y'. eexists. split; [exact H|]. split; [|exact Hr].
    rewrite Hsq. compute_done.
Defined.

Lemma rejected_packet_can_be_retried_witness :
  exists y',
    receive_bytes accept_all session_named world0
      (packet SOH 1 254 data_payload 0 0) =
      Ret (replicate (length data_payload + 4) YMODEM_OK ++ [YMODEM_TX_PENDING],
           y', ymodem_WriteSerial y' world0) /\
    reply y' = [NAK] /\ nextStatus y' = YMODEM_OK /\
    packetsReceived y' = packetsReceived session_named /\
    receive_bytes accept_all y' world0 (checksummed SOH 1 data_payload) =
    receive_bytes accept_all session_named world0 (checksummed SOH 1 data_payload).
Proof.
  unshelve epose proof
    (rejected_packet_can_be_retried accept_all session_named world0
       SOH 1 254 data_payload 0 0 _ _ _ _ _ _ _ _ _)
    as (y' & H & Hr & Hs & Hp & _ & _ & _ & _ & _ & Hretry);
    [compute_done..|].
  exists y'. split; [exact H|]. split; [exact Hr|]. split; [exact Hs|].
  split; [exact Hp|].
  exact (Hretry world0 1 (255 - 1) data_payload
           (Z.shiftr (crc16_xmodem data_payload) 8)
           (Z.land (crc16_xmodem data_payload) 0xFF) ltac:(compute_done)).
Defined.

Lemma cancel_bytes_witness :
  exists y',
    ymodem_ReceiveByte accept_all session0 world0 CA = Ret (YMODEM_OK, y', world0) /\
    reply y' = [] /\ nextStatus y' = YMODEM_OK.
Proof.
  apply (proj1 (proj2 (cancel_bytes accept_all session0 world0
                         ltac:(compute_done) ltac:(compute_done)
                         ltac:(compute_done)))).
  compute_done.
Defined.

Lemma empty_first_packet_aborts_witness :
  exists y',
    receive_bytes accept_all session0 world0 (checksummed SOH 0 empty_payload) =
      Ret (replicate (length empty_payload + 4) YMODEM_OK ++ [YMODEM_TX_PENDING],
           y', ymodem_WriteSerial y' world0) /\
    reply y' = [CA; CA] /\ nextStatus y' = YMODEM_ABORTED.
Proof.
  destruct (empty_first_packet_aborts accept_all session0 world0
              SOH 0 (255 - 0) empty_payload
              (Z.shiftr (crc16_xmodem empty_payload) 8)
              (Z.land (crc16_xmodem empty_payload) 0xFF))
    as (y' & H & Hr & Hs & _); try compute_done.
  exists y'. split; [exact H|]. split; assumption.
Defined.

Lemma end_of_transmission_witness :
  exists y1,
    ymodem_ReceiveByte accept_all session0 world0 EOT =
      Ret (YMODEM_TX_PENDING, y1, ymodem_WriteSerial y1 world0) /\
    eotReceived y1 = 1 /\ reply y1 = [ACK; CRC16].
Proof.
  destruct (proj1 (end_of_transmission accept_all session0 world0
                     ltac:(compute_done) ltac:(compute_done)
                     ltac:(compute_done)))
    as (y1 & H & He & Hr & _).
  exists y1. split; [exact H|]. split; assumption.
Defined.

Lemma size_parse_result_ignored_witness :
  Str2Int ([49; 48; 50; 52; 0] ++ replicate 11 0) 7 = Ret (1, 1024) /\
  Str2Int ([49; 50; 97; 0] ++ replicate 12 0) 7 = Ret (0, 7) /\
  Str2Int (replicate 11 49 ++ replicate 5 0) 7 = Ret (0, 7).
Proof.
  pose proof (proj1 (size_parse_result_ignored accept_all)) as H.
  split; [|split].
  - apply (H ([49; 48; 50; 52; 0] ++ replicate 11 0) 7); compute_done.
  - apply (H ([49; 50; 97; 0] ++ replicate 12 0) 7); compute_done.
  - apply (H (replicate 11 49 ++ replicate 5 0) 7); compute_done.
Defined.

(** C6, on the code.  The sender's two cancel bytes make the session
    aborted and are answered with 'C', but the sink is not called: the
    response to the confirmed abort is "transmission pending", so the branch
    of [ymodem_ReceiveByte] that invokes the callback with
    [YMODEM_FILE_CB_ABORTED] is not taken. *)
Lemma double_cancel_does_not_notify_the_sink :
  match receive_bytes accept_all session0 world0 [CA; CA] with
  | Ret (rs, y', w') =>
      rs = [YMODEM_OK; YMODEM_TX_PENDING] /\
      nextStatus y' = YMODEM_ABORTED /\
      trace w' = [EvSerialWrite serial_port [CRC16]] /\
      callbacks_of YMODEM_FILE_CB_ABORTED (trace w') = []
  | Err _ => False
  end.
Proof. vm_compute. repeat split. Qed.

(** C1 as stated fails when the sink rejects the file: the first packet is
    well formed and starts with a non-zero byte, yet the reply is two cancel
    bytes, the status is the size error and the expected sequence is 0. *)
Lemma first_packet_rejected_by_the_sink :
  fresh_session session0 /\ framed SOH file_bin_payload /\ complement_ok 0 (255 - 0) /\
  crc_ok file_bin_payload (Z.shiftr (crc16_xmodem file_bin_payload) 8)
    (Z.land (crc16_xmodem file_bin_payload) 0xFF) /\
  file_bin_payload !! 0%nat = Some 102 /\
  match receive_bytes reject_all session0 world0
          (checksummed SOH 0 file_bin_payload) with
  | Ret (rs, y', w') =>
      reply y' = [CA; CA] /\ reply y' <> [ACK; CRC16] /\
      packetsReceived y' = 0 /\ packetsReceived y' <> 1 /\
      nextStatus y' = YMODEM_SIZE_ERR /\
      serial_writes (trace w') = [[CA; CA]]
  | Err _ => False
  end.
Proof.
  split; [compute_done|]. split; [compute_done|]. split; [compute_done|].
  split; [compute_done|]. split; [reflexivity|].
  vm_compute. repeat split; discriminate.
Qed.

(** C4 as stated fails once an end-of-transmission byte has been seen: a
    framed packet with the wrong sequence number and a wrong checksum is
    answered ACK and completes the session. *)
Lemma invalid_packet_after_eot_is_acknowledged :
  awaiting_header session_eot /\ eotReceived session_eot = 1 /\
  framed SOH data_payload /\ complement_ok 5 250 /\
  Z.land 5 0xFF <> expected_sequence session_eot /\
  ~ crc_ok data_payload 0 0 /\
  match receive_bytes accept_all session_eot world0
          (packet SOH 5 250 data_payload 0 0) with
  | Ret (rs, y', w') =>
      reply y' = [ACK] /\ reply y' <> [NAK] /\
      nextStatus y' = YMODEM_COMPLETE /\ nextStatus y' <> YMODEM_OK /\
      trace w' = [EvFileCallback YMODEM_FILE_CB_END None 0;
                  EvSerialWrite serial_port [ACK]]
  | Err _ => False
  end.
Proof.
  split; [compute_done|]. split; [compute_done|]. split; [compute_done|].
  split; [compute_done|]. split; [compute_done|]. split; [compute_done|].
  vm_compute. repeat split; discriminate.
Qed.

(** ** The further properties on concrete sessions *)

Lemma ymodem_Init_makes_fresh_witness :
  fresh_session session0 /\ framer_inv session0 /\
  ymodem_Init session0 None = session0.
Proof.
  destruct (ymodem_Init_makes_fresh uninitialised (Some serial_port) None
              ltac:(compute_done) ltac:(compute_done))
    as (H1 & _ & H3 & _ & _ & _ & _ & _ & _ & H10).
  split; [exact H1|]. split; [exact H3|exact H10].
Defined.

Lemma ymodem_Reset_makes_fresh_witness :
  exists y',
    ymodem_Reset session_aborted = Ret (YMODEM_OK, y') /\ fresh_session y' /\
    ymodem_ReceiveByte accept_all y' world0 SOH =
      Ret (YMODEM_OK, assembling y' SOH [], world0).
Proof.
  destruct (ymodem_Reset_makes_fresh session_aborted ltac:(compute_done))
    as (y' & H & Hf & _ & _ & _ & _ & _ & _ & _ & _ & _ & Hrx).
  exists y'. split; [exact H|]. split; [exact Hf|]. apply Hrx.
Defined.

Lemma ymodem_Abort_freezes_witness :
  exists y',
    ymodem_Abort session0 = Ret (YMODEM_ABORTED, y') /\ reply y' = [CA; CA] /\
    receive_bytes accept_all y' world0 [SOH; 0] =
      Ret ([YMODEM_ABORTED; YMODEM_ABORTED], y', world0).
Proof.
  destruct (ymodem_Abort_freezes session0 ltac:(compute_done))
    as (y' & H & Hr & _ & _ & _ & _ & _ & _ & _ & _ & _ & Hrx).
  exists y'. split; [exact H|]. split; [exact Hr|].
  exact (Hrx unit accept_all world0 [SOH; 0]).
Defined.

Lemma GenerateResponse_table_witness :
  exists r y',
    GenerateResponse session0 YM_RX_ERROR = Ret (r, y') /\
    r = YMODEM_TX_PENDING /\ reply y' = [NAK].
Proof.
  destruct (GenerateResponse_table session0 YM_RX_ERROR ltac:(compute_done))
    as (r & y' & H & _ & Hr & _ & _ & Hreply & _).
  exists r, y'. split; [exact H|]. split; [apply Hr; discriminate|exact Hreply].
Defined.

Lemma stray_header_byte_witness :
  exists y',
    ymodem_ReceiveByte accept_all session0 world0 ABORT1 =
      Ret (YMODEM_TX_PENDING, y', ymodem_WriteSerial y' world0) /\
    reply y' = [CA; CA] /\ nextStatus y' = YMODEM_ABORTED.
Proof.
  destruct (stray_header_byte accept_all session0 world0 ABORT1
              ltac:(compute_done) ltac:(compute_done) ltac:(compute_done)
              ltac:(compute_done) ltac:(compute_done) ltac:(compute_done)
              ltac:(compute_done))
    as (y' & H & _ & _ & _ & _ & _ & _ & Hab & _).
  destruct (Hab (or_introl eq_refl)) as (Hr & Hs & _).
  exists y'. split; [exact H|]. split; [exact Hr|exact Hs].
Defined.

Lemma packet_body_is_transparent_witness :
  exists y',
    receive_bytes accept_all session0 world0 [SOH; CA; CA; EOT; ABORT1] =
      Ret (replicate 5 YMODEM_OK, y', world0) /\
    nextStatus y' = YMODEM_OK /\ reply y' = [].
Proof.
  destruct (packet_body_is_transparent accept_all session0 world0 SOH
              [CA; CA; EOT; ABORT1] ltac:(compute_done) ltac:(compute_done)
              ltac:(compute_done) ltac:(compute_done))
    as (y' & H & Hs & Hr & _).
  exists y'. split; [exact H|]. split; [exact Hs|exact Hr].
Defined.

Lemma bad_complement_is_refused_witness :
  exists y',
    receive_bytes accept_all session_eot world0
      (packet SOH 0 0 file_bin_payload 0 0) =
      Ret (replicate (length file_bin_payload + 4) YMODEM_OK ++ [YMODEM_TX_PENDING],
           y', ymodem_WriteSerial y' world0) /\
    reply y' = [NAK] /\ nextStatus y' = YMODEM_OK.
Proof.
  destruct (bad_complement_is_refused accept_all session_eot world0 SOH 0 0
              file_bin_payload 0 0 ltac:(compute_done) ltac:(compute_done)
              ltac:(compute_done) ltac:(compute_done))
    as (y' & H & Hr & Hs & _).
  exists y'. split; [exact H|]. split; [exact Hr|exact Hs].
Defined.

Lemma name_refused_by_the_sink_witness :
  exists y' w',
    receive_bytes reject_all session0 world0 (checksummed SOH 0 file_bin_payload) =
      Ret (replicate (length file_bin_payload + 4) YMODEM_OK ++ [YMODEM_TX_PENDING],
           y', w') /\
    reply y' = [CA; CA] /\ nextStatus y' = YMODEM_SIZE_ERR.
Proof.
  unshelve epose proof
    (name_refused_by_the_sink reject_all session0 world0 SOH 0 (255 - 0)
       file_bin_payload
       (Z.shiftr (crc16_xmodem file_bin_payload) 8)
       (Z.land (crc16_xmodem file_bin_payload) 0xFF)
       file_bin_name [49; 48] (replicate 116 0)
       _ _ _ _ _ _ _ _ _ _ _ _ _ _ _ _)
    as (y' & H & Hr & Hs & _); [compute_done..|].
  exists y'. eexists. split; [exact H|]. split; [exact Hr|exact Hs].
Defined.

Lemma data_refused_by_the_sink_witness :
  exists y' w',
    receive_bytes reject_all session_named world0 (checksummed SOH 1 data_payload) =
      Ret (replicate (length data_payload + 4) YMODEM_OK ++ [YMODEM_TX_PENDING],
           y', w') /\
    reply y' = [CA; CA] /\ nextStatus y' = YMODEM_WRITE_ERR /\
    packetsReceived y' = 0.
Proof.
  unshelve epose proof
    (data_refused_by_the_sink reject_all session_named world0 SOH 1 (255 - 1)
       data_payload
       (Z.shiftr (crc16_xmodem data_payload) 8)
       (Z.land (crc16_xmodem data_payload) 0xFF)
       _ _ _ _ _ _ _ _ _ _)
    as (y' & H & _ & Hr & Hs & Hp & _); [compute_done..|].
  exists y'. eexists. split; [exact H|]. split; [exact Hr|].
  split; [exact Hs|exact Hp].
Defined.

Lemma long_file_name_overruns_witness :
  receive_bytes accept_all session0 world0 (checksummed STX 0 long_name_payload) =
  Err OutOfBounds.
Proof.
  unshelve epose proof
    (long_file_name_overruns accept_all session0 world0 STX 0 (255 - 0)
       long_name_payload
       (Z.shiftr (crc16_xmodem long_name_payload) 8)
       (Z.land (crc16_xmodem long_name_payload) 0xFF)
       (replicate 256 65) (replicate 768 65)
       _ _ _ _ _ _ _ _ _ _ _ _)
    as [H _]; [compute_done..|].
  exact H.
Defined.

Lemma unterminated_size_field_overruns_witness :
  receive_bytes accept_all session0 world0 (checksummed SOH 0 name_only_payload) =
  Err OutOfBounds.
Proof.
  unshelve epose proof
    (unterminated_size_field_overruns accept_all session0 world0 SOH 0 (255 - 0)
       name_only_payload
       (Z.shiftr (crc16_xmodem name_only_payload) 8)
       (Z.land (crc16_xmodem name_only_payload) 0xFF)
       file_bin_name (replicate 16 0) (replicate 103 0)
       _ _ _ _ _ _ _ _ _ _ _ _ _ _ _)
    as H; [compute_done..|].
  exact H.
Defined.

Lemma ymodem_ReceiveByte_keeps_consistent_witness :
  exists r y' w',
    ymodem_ReceiveByte accept_all session0 world0 CA = Ret (r, y', w') /\
    framer_inv y' /\ prevC y' = CA.
Proof.
  destruct (ymodem_ReceiveByte_keeps_consistent accept_all session0 world0 CA
              ltac:(compute_done))
    as [(r & y' & w' & H & Hinv & _ & _ & _ & Hnom)|(_ & _ & Hst & _)].
  - exists r, y', w'. split; [exact H|]. split; [exact Hinv|].
    apply Hnom. reflexivity.
  - vm_compute in Hst. discriminate Hst.
Defined.

Lemma receive_bytes_keeps_consistent_witness :
  exists rs y' w',
    receive_bytes accept_all session0 world0 [CA; CA; SOH] = Ret (rs, y', w') /\
    callbacks_of YMODEM_FILE_CB_ABORTED (trace w') = [] /\
    length (serial_writes (trace w')) = pending rs.
Proof.
  destruct (receive_bytes_keeps_consistent accept_all session0 world0
              [CA; CA; SOH] ltac:(compute_done))
    as [(rs & y' & w' & H & _ & _ & _ & _ & Hcb & Hsw & _)|Herr].
  - exists rs, y', w'. split; [exact H|]. split; [exact Hcb|].
    apply Hsw. compute_done.
  - vm_compute in Herr. discriminate Herr.
Defined.

Lemma single_byte_corruption_is_refused_witness :
  exists y',
    receive_bytes accept_all session_named world0
      (packet SOH 1 254 (7 :: tail data_payload)
         (Z.shiftr (crc16_xmodem data_payload) 8)
         (Z.land (crc16_xmodem data_payload) 0xFF)) =
      Ret (replicate (length (7 :: tail data_payload) + 4) YMODEM_OK
             ++ [YMODEM_TX_PENDING],
           y', ymodem_WriteSerial y' world0) /\
    reply y' = [NAK] /\ packetsReceived y' = packetsReceived session_named.
Proof.
  unshelve epose proof
    (single_byte_corruption_is_refused accept_all session_named world0
       SOH 1 254 [] (tail data_payload) 0 7
       (Z.shiftr (crc16_xmodem data_payload) 8)
       (Z.land (crc16_xmodem data_payload) 0xFF)
       _ _ _ _ _ _ _ _ _ _ _)
    as (_ & y' & H & Hr & _ & Hp & _); [compute_done..|].
  exists y'. split; [exact H|]. split; [exact Hr|exact Hp].
Defined.

Lemma data_packets_are_delivered_in_order_witness :
  exists rs y' w',
    receive_bytes accept_all session_named world0
      (data_stream 1 [(SOH, data_payload); (SOH, empty_payload)]) =
      Ret (rs, y', w') /\
    packetsReceived y' = 3 /\
    delivered (trace w') = data_payload ++ empty_payload /\
    serial_writes (trace w') = [[ACK]; [ACK]].
Proof.
  unshelve epose proof
    (data_packets_are_delivered_in_order accept_all
       [(SOH, data_payload); (SOH, empty_payload)] session_named world0
       _ _ _ _ _ _ (fun _ _ _ => eq_refl))
    as (rs & y' & w' & H & _ & _ & _ & Hp & _ & _ & _ & _ & Hd & _ & Hs);
    [compute_done..|].
  exists rs, y', w'. split; [exact H|]. split; [exact Hp|].
  split; [rewrite Hd; cbn [map concat snd]; rewrite app_nil_r; reflexivity|].
  apply Hs. compute_done.
Defined.

Lemma complete_transfer_witness :
  exists rs y' w',
    receive_bytes accept_all session0 world0
      (checksummed SOH 0 file_bin_payload ++
       data_stream 1 [(SOH, data_payload)] ++
       EOT :: checksummed SOH 0 empty_payload) = Ret (rs, y', w') /\
    nextStatus y' = YMODEM_COMPLETE /\ fileSize y' = 10 /\
    delivered (trace w') = data_payload /\
    serial_writes (trace w') = [[ACK; CRC16]; [ACK]; [ACK; CRC16]; [ACK]].
Proof.
  unshelve epose proof
    (complete_transfer accept_all session0 world0 serial_port
       SOH file_bin_payload file_bin_name [49; 48] (replicate 116 0)
       [(SOH, data_payload)]
       SOH 0 (255 - 0) empty_payload
       (Z.shiftr (crc16_xmodem empty_payload) 8)
       (Z.land (crc16_xmodem empty_payload) 0xFF)
       _ _ _ (fun _ _ _ _ => eq_refl) _ _ _ _ _ _ _ _ _ _ _ _)
    as (rs & y' & w' & H & Hs & _ & _ & Hsz & _ & _ & _ & Hd & _ & _ & Hsw & _);
    [compute_done..|].
  exists rs, y', w'. split; [exact H|]. split; [exact Hs|].
  split; [exact Hsz|].
  split; [rewrite Hd; cbn [map concat snd]; rewrite app_nil_r; reflexivity|].
  exact Hsw.
Defined.
